(** * Broker connection and session lifecycle: a shallow embedding

    The development follows the JavaScript sources of the trading backend:
    - [src/brokers/ZerodhaBroker.js]   (module [ZerodhaBroker]),
    - [src/brokers/BrokerFactory.js]   (module [BrokerFactory]),
    - [src/models/TradingSession.js]   (module [TradingSession]),
    - [src/services/TradingService.js] (module [TradingService]),
    - [src/server.js]                  (module [TradingServer]),
    - [src/services/AuthService.js]    (module [AuthService]),
    - [src/middleware/auth.js]         (module [Middleware]).

    Conventions of the embedding:
    - a method that may throw returns a [Result]; a method that mutates
      [this] returns the new state of the object next to its result;
    - asynchronous functions are cut at their [await] points, so that calls
      in flight can be interleaved the way the event loop does;
    - the remote collaborators (the Kite REST client, the Kite ticker,
      fastify, the cleanup tasks) are oracles: an [Env] or [ServerEnv]
      record, or a field of the object, says what they answer;
    - [new Date()] is the parameter [now], read once per call; dates and
      timer delays are milliseconds;
    - user ids are the strings a template literal makes of them (the
      hexadecimal form of an ObjectId);
    - console lines are kept without their leading emoji; the console
      output of the broker classes is not tracked. *)

From Stdlib Require Import ZArith Lia Ascii String.
From stdpp Require Import gmap strings list sorting.

Local Open Scope string_scope.

(** ** JavaScript preliminaries *)

(** Outcome of a call that may throw [new Error(message)]. *)
Inductive Result (A : Type) : Type :=
| Ok (a : A)
| Throw (message : string).
Arguments Ok {A} a.
Arguments Throw {A} message.

Definition is_ok {A} (r : Result A) : bool :=
  match r with Ok _ => true | Throw _ => false end.

(** The values an order-parameter record can hold (parsed JSON); numbers
    are kept to the integers, which is all the checks below look at. *)
Inductive JsValue : Type :=
| JUndefined
| JNull
| JBool (b : bool)
| JNumber (n : Z)
| JNaN
| JString (s : string).

(** [!v] is [negb (truthy v)]. *)
Definition truthy (v : JsValue) : bool :=
  match v with
  | JUndefined | JNull | JNaN => false
  | JBool b => b
  | JNumber n => negb (n =? 0)%Z
  | JString s => negb (String.eqb s "")
  end.

Definition js_eqb (v w : JsValue) : bool :=
  match v, w with
  | JUndefined, JUndefined | JNull, JNull | JNaN, JNaN => true
  | JBool a, JBool b => Bool.eqb a b
  | JNumber a, JNumber b => (a =? b)%Z
  | JString a, JString b => String.eqb a b
  | _, _ => false
  end.

(** [arr.includes(v)] for an array of string literals. *)
Definition includes (arr : list string) (v : JsValue) : bool :=
  existsb (fun s => js_eqb (JString s) v) arr.

(** [arr.join(sep)]. *)
Fixpoint join (sep : string) (arr : list string) : string :=
  match arr with
  | [] => ""
  | [s] => s
  | s :: rest => s ++ sep ++ join sep rest
  end.

(** [obj[field]] on a plain object: [undefined] when the key is absent. *)
Definition js_get (obj : gmap string JsValue) (field : string) : JsValue :=
  default JUndefined (obj !! field).

(** A JavaScript [Set] of numbers keeps insertion order and no duplicates. *)
Definition set_add (x : Z) (s : list Z) : list Z :=
  if existsb (Z.eqb x) s then s else s ++ [x].

Definition set_delete (x : Z) (s : list Z) : list Z :=
  filter (fun y => y ≠ x) s.

(** A JavaScript [Map] with string keys keeps insertion order; [set] on an
    existing key replaces the value in place. *)
Section JsMap.
Context {V : Type}.

Fixpoint map_get (k : string) (m : list (string * V)) : option V :=
  match m with
  | [] => None
  | (k', v) :: rest => if String.eqb k k' then Some v else map_get k rest
  end.

Definition map_has (k : string) (m : list (string * V)) : bool :=
  match map_get k m with Some _ => true | None => false end.

Fixpoint map_set (k : string) (v : V) (m : list (string * V)) : list (string * V) :=
  match m with
  | [] => [(k, v)]
  | (k', v') :: rest =>
      if String.eqb k k' then (k, v) :: rest else (k', v') :: map_set k v rest
  end.

Fixpoint map_delete (k : string) (m : list (string * V)) : list (string * V) :=
  match m with
  | [] => []
  | (k', v') :: rest =>
      if String.eqb k k' then rest else (k', v') :: map_delete k rest
  end.
End JsMap.

(** [s.split('_')]. *)
Fixpoint split_underscore (s : string) : list string :=
  match s with
  | EmptyString => [""]
  | String c rest =>
      if Ascii.eqb c "_"%char then "" :: split_underscore rest
      else match split_underscore rest with
           | [] => [String c ""]
           | p :: ps => String c p :: ps
           end
  end.

(** [s.toLowerCase()] on ASCII letters. *)
Definition lower_ascii (c : Ascii.ascii) : Ascii.ascii :=
  let n := Ascii.nat_of_ascii c in
  if (65 <=? n)%nat && (n <=? 90)%nat then Ascii.ascii_of_nat (n + 32) else c.

Fixpoint toLowerCase (s : string) : string :=
  match s with
  | EmptyString => EmptyString
  | String c rest => String (lower_ascii c) (toLowerCase rest)
  end.

(** ** The Kite streaming client (external; recorded calls and faults) *)

Inductive TickerMethod : Type :=
| MConnect | MSubscribe | MSetMode | MUnsubscribe | MDisconnect.

Inductive TickerCall : Type :=
| TkConnect
| TkSubscribe (ids : list Z)
| TkSetMode (mode : string) (ids : list Z)
| TkUnsubscribe (ids : list Z)
| TkDisconnect.

(** [tk_wire] is what has been sent to the library, oldest first;
    [tk_throws m] is the error message the library raises when method [m]
    is called, if it raises. *)
Record KiteTicker : Type := mkTicker {
  tk_api_key : string;
  tk_access_token : string;
  tk_wire : list TickerCall;
  tk_throws : TickerMethod -> option string
}.

Definition ticker_call (m : TickerMethod) (c : TickerCall) (t : KiteTicker)
  : Result KiteTicker :=
  match tk_throws t m with
  | Some e => Throw e
  | None => Ok (mkTicker (tk_api_key t) (tk_access_token t) (tk_wire t ++ [c]) (tk_throws t))
  end.

Definition modeLTP : string := "ltp".

(** ** src/brokers/ZerodhaBroker.js *)

Record BrokerConfig : Type := mkConfig { apiKey : string; apiSecret : string }.

(** [accessToken] is [null] or a string; [kc_token] is the token last given
    to the REST client by [kc.setAccessToken]. *)
Record Broker : Type := mkBroker {
  config : BrokerConfig;
  isConnected : bool;
  kc_token : option string;
  ticker : option KiteTicker;
  accessToken : option string;
  subscribedInstruments : list Z
}.

(** The external collaborators of a broker. *)
Record Env : Type := mkEnv {
  kc_getProfile : option string -> Result string;
  kc_placeOrder : gmap string JsValue -> Result string;
  new_ticker_throws : TickerMethod -> option string;
  env_KITE_API_KEY : string;
  env_KITE_API_SECRET : string
}.

(** Calls that leave the process: database queries and Kite REST calls. *)
Inductive IO : Type :=
| DbFindActiveSession (userId brokerType : string)
| DbCleanupExpired
| DbDeactivate (userId brokerType : string)
| KiteGetProfile (token : option string)
| KitePlaceOrder (orderParams : gmap string JsValue).

Definition is_handshake (c : IO) : bool :=
  match c with KiteGetProfile _ => true | _ => false end.

Definition is_place_order (c : IO) : bool :=
  match c with KitePlaceOrder _ => true | _ => false end.

(** The argument of the subscribe calls: an array or a single instrument. *)
Inductive Instruments : Type :=
| InstrArray (ids : list Z)
| InstrSingle (id : Z).

(** The other read endpoints of the Kite REST client; like [kc_getProfile]
    they answer by the token the client holds. *)
Record KiteData : Type := mkKiteData {
  kc_getPositions : option string -> Result string;
  kc_getHoldings : option string -> Result string;
  kc_getOrders : option string -> Result string;
  kc_getInstruments : option string -> option string -> Result string
}.

(** The read calls a broker sends to the Kite REST client. *)
Inductive KiteCall : Type :=
| CallGetProfile
| CallGetPositions
| CallGetHoldings
| CallGetOrders
| CallGetInstruments (exchange : option string).

Module ZerodhaBroker.

(** [!this.accessToken] *)
Definition no_token (tok : option string) : bool :=
  match tok with
  | None => true
  | Some s => String.eqb s ""
  end.

Definition constructor (cfg : BrokerConfig) : Broker :=
  mkBroker cfg false None None None [].

Definition setAccessToken (tok : string) (b : Broker) : Broker :=
  mkBroker (config b) (isConnected b) (Some tok) (ticker b) (Some tok)
           (subscribedInstruments b).

Definition set_isConnected (v : bool) (b : Broker) : Broker :=
  mkBroker (config b) v (kc_token b) (ticker b) (accessToken b)
           (subscribedInstruments b).

Definition set_ticker (t : option KiteTicker) (b : Broker) : Broker :=
  mkBroker (config b) (isConnected b) (kc_token b) t (accessToken b)
           (subscribedInstruments b).

Definition set_subscribed (s : list Z) (b : Broker) : Broker :=
  mkBroker (config b) (isConnected b) (kc_token b) (ticker b) (accessToken b) s.

(** [connect()] up to its [await this.kc.getProfile()]: [inl] is an early
    exit through the [catch], [inr] the broker suspended on the remote
    call. *)
Definition connect_begin (b : Broker) : (string * Broker) + Broker :=
  if no_token (accessToken b) then
    inl ("Failed to connect to Zerodha: Access token not set. Please authenticate first.",
         set_isConnected false b)
  else
    inr (mkBroker (config b) (isConnected b) (accessToken b) (ticker b)
                  (accessToken b) (subscribedInstruments b)).

(** [connect()] after the remote call has settled with [r]. *)
Definition connect_end (r : Result string) (b : Broker) : Result string * Broker :=
  match r with
  | Ok profile => (Ok profile, set_isConnected true b)
  | Throw e => (Throw ("Failed to connect to Zerodha: " ++ e), set_isConnected false b)
  end.

Definition connect (E : Env) (b : Broker) : Result string * Broker :=
  match connect_begin b with
  | inl (e, b') => (Throw e, b')
  | inr b' => connect_end (kc_getProfile E (kc_token b')) b'
  end.

Definition disconnect (b : Broker) : Result unit * Broker :=
  match ticker b with
  | Some t =>
      match ticker_call MDisconnect TkDisconnect t with
      | Throw e => (Throw ("Failed to disconnect from Zerodha: " ++ e), b)
      | Ok _ =>
          (Ok tt, mkBroker (config b) false (kc_token b) None None
                           (subscribedInstruments b))
      end
  | None =>
      (Ok tt, mkBroker (config b) false (kc_token b) None None
                       (subscribedInstruments b))
  end.

Definition _ensureConnected (b : Broker) : Result unit :=
  if negb (isConnected b) || no_token (accessToken b)
  then Throw "Broker not connected. Please authenticate first."
  else Ok tt.

(** The second component lists the remote calls the method issued. *)
Definition placeOrder (E : Env) (orderParams : gmap string JsValue) (b : Broker)
  : Result string * list IO :=
  match _ensureConnected b with
  | Throw e => (Throw e, [])
  | Ok _ =>
      match kc_placeOrder E orderParams with
      | Ok r => (Ok r, [KitePlaceOrder orderParams])
      | Throw e => (Throw ("Failed to place order: " ++ e), [KitePlaceOrder orderParams])
      end
  end.

Definition connectWebSocket (E : Env) (b : Broker) : Result unit * Broker :=
  match accessToken b with
  | None => (Throw "Access token not set for WebSocket connection", b)
  | Some tok =>
      if String.eqb tok "" then
        (Throw "Access token not set for WebSocket connection", b)
      else
        let t := mkTicker (apiKey (config b)) tok [] (new_ticker_throws E) in
        match ticker_call MConnect TkConnect t with
        | Throw e => (Throw ("Failed to connect WebSocket: " ++ e), set_ticker (Some t) b)
        | Ok t' => (Ok tt, set_ticker (Some t') b)
        end
  end.

Definition to_array (instruments : Instruments) : list Z :=
  match instruments with
  | InstrArray ids => ids
  | InstrSingle id => [id]
  end.

Definition subscribeToTicker (instruments : Instruments) (b : Broker)
  : Result (list Z) * Broker :=
  match ticker b with
  | None => (Throw "WebSocket not connected", b)
  | Some t =>
      let instrumentsArray := to_array instruments in
      match ticker_call MSubscribe (TkSubscribe instrumentsArray) t with
      | Throw e => (Throw ("Failed to subscribe to ticker: " ++ e), b)
      | Ok t1 =>
          match ticker_call MSetMode (TkSetMode modeLTP instrumentsArray) t1 with
          | Throw e =>
              (Throw ("Failed to subscribe to ticker: " ++ e), set_ticker (Some t1) b)
          | Ok t2 =>
              (Ok instrumentsArray,
               set_subscribed
                 (fold_left (fun s i => set_add i s) instrumentsArray
                            (subscribedInstruments b))
                 (set_ticker (Some t2) b))
          end
      end
  end.

Definition unsubscribeFromTicker (instruments : Instruments) (b : Broker)
  : Result (list Z) * Broker :=
  match ticker b with
  | None => (Throw "WebSocket not connected", b)
  | Some t =>
      let instrumentsArray := to_array instruments in
      match ticker_call MUnsubscribe (TkUnsubscribe instrumentsArray) t with
      | Throw e => (Throw ("Failed to unsubscribe from ticker: " ++ e), b)
      | Ok t1 =>
          (Ok instrumentsArray,
           set_subscribed
             (fold_left (fun s i => set_delete i s) instrumentsArray
                        (subscribedInstruments b))
             (set_ticker (Some t1) b))
      end
  end.

Definition getSubscribedInstruments (b : Broker) : list Z :=
  subscribedInstruments b.

(** The body the read methods share: [this._ensureConnected()], then
    [try { return await this.kc.m() } catch (error) { throw new
    Error(prefix + error.message) }], where [answer] is what the client
    settles with.  The second component lists the calls sent to the
    client. *)
Definition read (prefix : string) (call : KiteCall) (answer : Result string)
           (b : Broker) : Result string * list KiteCall :=
  match _ensureConnected b with
  | Throw e => (Throw e, [])
  | Ok _ =>
      match answer with
      | Ok r => (Ok r, [call])
      | Throw e => (Throw (prefix ++ e), [call])
      end
  end.

Definition getProfile (E : Env) (b : Broker) : Result string * list KiteCall :=
  read "Failed to get profile: " CallGetProfile (kc_getProfile E (kc_token b)) b.

Definition getPositions (K : KiteData) (b : Broker) : Result string * list KiteCall :=
  read "Failed to get positions: " CallGetPositions (kc_getPositions K (kc_token b)) b.

Definition getHoldings (K : KiteData) (b : Broker) : Result string * list KiteCall :=
  read "Failed to get holdings: " CallGetHoldings (kc_getHoldings K (kc_token b)) b.

Definition getOrders (K : KiteData) (b : Broker) : Result string * list KiteCall :=
  read "Failed to get orders: " CallGetOrders (kc_getOrders K (kc_token b)) b.

Definition getInstruments (K : KiteData) (exchange : option string) (b : Broker)
  : Result string * list KiteCall :=
  read "Failed to get instruments: " (CallGetInstruments exchange)
       (kc_getInstruments K exchange (kc_token b)) b.

End ZerodhaBroker.

(** ** src/models/TradingSession.js *)

(** The fields of a session document the service reads.  Dates are
    milliseconds since the epoch. *)
Record Session : Type := mkSession {
  s_userId : string;
  s_brokerType : string;
  s_accessToken : string;
  s_expiresAt : Z;
  s_isActive : bool
}.

Module TradingSession.

(** The filter of [findActiveSession]:
    [{ userId, brokerType, isActive: true, expiresAt: { $gt: new Date() } }]. *)
Definition matches (now : Z) (userId brokerType : string) (s : Session) : bool :=
  String.eqb (s_userId s) userId && String.eqb (s_brokerType s) brokerType
  && s_isActive s && (now <? s_expiresAt s)%Z.

Definition findActiveSession (now : Z) (userId brokerType : string)
           (store : list Session) : option Session :=
  find (matches now userId brokerType) store.

(** [updateMany({ expiresAt: { $lte: new Date() } }, { $set: { isActive: false } })] *)
Definition cleanupExpiredSessions (now : Z) (store : list Session) : list Session :=
  map (fun s =>
         if (s_expiresAt s <=? now)%Z
         then mkSession (s_userId s) (s_brokerType s) (s_accessToken s)
                        (s_expiresAt s) false
         else s) store.

(** [updateMany({ userId, brokerType, isActive: true }, { $set: { isActive: false } })] *)
Definition deactivate (userId brokerType : string) (store : list Session) : list Session :=
  map (fun s =>
         if String.eqb (s_userId s) userId && String.eqb (s_brokerType s) brokerType
            && s_isActive s
         then mkSession (s_userId s) (s_brokerType s) (s_accessToken s)
                        (s_expiresAt s) false
         else s) store.

End TradingSession.

(** ** src/brokers/BrokerFactory.js *)

Module BrokerFactory.

Definition createBroker (brokerType : string) (cfg : BrokerConfig) : Result Broker :=
  if String.eqb (toLowerCase brokerType) "zerodha"
  then Ok (ZerodhaBroker.constructor cfg)
  else Throw ("Unsupported broker type: " ++ brokerType).

End BrokerFactory.

(** ** src/services/TradingService.js *)

(** A broker instance lives in [heap]; [activeBrokers] maps a session key to
    the reference of the cached instance, so that two holders of a handle
    share its state. *)
Record World : Type := mkWorld {
  activeBrokers : list (string * nat);
  heap : list Broker;
  sessions : list Session;
  trace : list IO;
  console : list string
}.

Definition with_pool (p : list (string * nat)) (w : World) : World :=
  mkWorld p (heap w) (sessions w) (trace w) (console w).
Definition with_heap (h : list Broker) (w : World) : World :=
  mkWorld (activeBrokers w) h (sessions w) (trace w) (console w).
Definition with_sessions (s : list Session) (w : World) : World :=
  mkWorld (activeBrokers w) (heap w) s (trace w) (console w).
Definition emit (c : IO) (w : World) : World :=
  mkWorld (activeBrokers w) (heap w) (sessions w) (trace w ++ [c]) (console w).
Definition console_error (line : string) (w : World) : World :=
  mkWorld (activeBrokers w) (heap w) (sessions w) (trace w) (console w ++ [line]).

(** Number of connect handshakes ([kc.getProfile()] calls) issued so far. *)
Definition handshakes (w : World) : nat :=
  length (List.filter is_handshake (trace w)).

(** The order dispatches ([kc.placeOrder()] calls) issued so far. *)
Definition dispatches (w : World) : list IO :=
  List.filter is_place_order (trace w).

(** A call of [getBrokerInstance] between two [await]s. *)
Inductive Task : Type :=
| TStart (userId brokerType : string)
| TAwaitSession (userId brokerType sessionKey : string)
| TAwaitConnect (sessionKey : string) (broker : nat)
| TDone (r : Result nat).

Module TradingService.

Definition sessionKey (userId brokerType : string) : string :=
  userId ++ "_" ++ brokerType.

Definition getBrokerConfig (E : Env) (brokerType : string) : Result BrokerConfig :=
  if String.eqb brokerType "zerodha"
  then Ok (mkConfig (env_KITE_API_KEY E) (env_KITE_API_SECRET E))
  else Throw ("Unsupported broker: " ++ brokerType).

(** The [catch] of [getBrokerInstance]. *)
Definition failed (e : string) : Task :=
  TDone (Throw ("Failed to get broker instance: " ++ e)).

(** One turn of a [getBrokerInstance] call: from where it is suspended to
    its next [await] or to its end. *)
Definition step (E : Env) (now : Z) (t : Task) (w : World) : Task * World :=
  match t with
  | TStart userId brokerType =>
      let key := sessionKey userId brokerType in
      match map_get key (activeBrokers w) with
      | Some broker => (TDone (Ok broker), w)
      | None =>
          (TAwaitSession userId brokerType key,
           emit (DbFindActiveSession userId brokerType) w)
      end
  | TAwaitSession userId brokerType key =>
      match TradingSession.findActiveSession now userId brokerType (sessions w) with
      | None => (failed ("No active " ++ brokerType ++ " session found"), w)
      | Some session =>
          match getBrokerConfig E brokerType with
          | Throw e => (failed e, w)
          | Ok brokerConfig =>
              match BrokerFactory.createBroker brokerType brokerConfig with
              | Throw e => (failed e, w)
              | Ok fresh =>
                  let broker := length (heap w) in
                  if String.eqb brokerType "zerodha" then
                    let b := ZerodhaBroker.setAccessToken (s_accessToken session) fresh in
                    match ZerodhaBroker.connect_begin b with
                    | inl (e, b') => (failed e, with_heap (heap w ++ [b']) w)
                    | inr b' =>
                        (TAwaitConnect key broker,
                         emit (KiteGetProfile (kc_token b'))
                              (with_heap (heap w ++ [b']) w))
                    end
                  else
                    (TDone (Ok broker),
                     with_pool (map_set key broker (activeBrokers w))
                               (with_heap (heap w ++ [fresh]) w))
              end
          end
      end
  | TAwaitConnect key broker =>
      match heap w !! broker with
      | None => (failed "broker is not defined", w)
      | Some b =>
          match ZerodhaBroker.connect_end (kc_getProfile E (kc_token b)) b with
          | (Throw e, b') => (failed e, with_heap (<[broker := b']> (heap w)) w)
          | (Ok _, b') =>
              (TDone (Ok broker),
               with_pool (map_set key broker (activeBrokers w))
                         (with_heap (<[broker := b']> (heap w)) w))
          end
      end
  | TDone r => (TDone r, w)
  end.

(** A call run to its end with nothing else scheduled in between: a call
    has at most two [await]s. *)
Definition getBrokerInstance (E : Env) (now : Z) (userId brokerType : string)
           (w : World) : Result nat * World :=
  let '(t1, w1) := step E now (TStart userId brokerType) w in
  let '(t2, w2) := step E now t1 w1 in
  let '(t3, w3) := step E now t2 w2 in
  match t3 with
  | TDone r => (r, w3)
  | _ => (Throw "pending", w3)
  end.

(** Several calls in flight: [schedule] names, turn by turn, the call that
    the event loop resumes. *)
Fixpoint interleave (E : Env) (now : Z) (schedule : list nat)
         (tasks : list Task) (w : World) : list Task * World :=
  match schedule with
  | [] => (tasks, w)
  | i :: rest =>
      match tasks !! i with
      | None => interleave E now rest tasks w
      | Some t =>
          let '(t', w') := step E now t w in
          interleave E now rest (<[i := t']> tasks) w'
      end
  end.

(** The calls one after the other, each awaited before the next starts. *)
Fixpoint sequential (E : Env) (now : Z) (n : nat) (userId brokerType : string)
         (w : World) : list (Result nat) * World :=
  match n with
  | O => ([], w)
  | S k =>
      let '(r, w1) := getBrokerInstance E now userId brokerType w in
      let '(rs, w2) := sequential E now k userId brokerType w1 in
      (r :: rs, w2)
  end.

(** [const broker = await this.getBrokerInstance(...); return await
    broker.method(...)] inside [try { } catch (error) { throw new
    Error(prefix + error.message) }]. *)
Definition on_broker {A} (E : Env) (now : Z) (prefix : string)
           (userId brokerType : string)
           (method : Broker -> Result A * Broker) (w : World) : Result A * World :=
  match getBrokerInstance E now userId brokerType w with
  | (Throw e, w1) => (Throw (prefix ++ e), w1)
  | (Ok broker, w1) =>
      match heap w1 !! broker with
      | None => (Throw (prefix ++ "broker is not defined"), w1)
      | Some b =>
          match method b with
          | (Throw e, b') => (Throw (prefix ++ e), with_heap (<[broker := b']> (heap w1)) w1)
          | (Ok a, b') => (Ok a, with_heap (<[broker := b']> (heap w1)) w1)
          end
      end
  end.

Definition connectWebSocket (E : Env) (now : Z) (userId brokerType : string)
  : World -> Result unit * World :=
  on_broker E now "Failed to connect WebSocket: " userId brokerType
            (ZerodhaBroker.connectWebSocket E).

Definition subscribeToTicker (E : Env) (now : Z) (userId brokerType : string)
           (instruments : Instruments) : World -> Result (list Z) * World :=
  on_broker E now "Failed to subscribe to ticker: " userId brokerType
            (ZerodhaBroker.subscribeToTicker instruments).

Definition unsubscribeFromTicker (E : Env) (now : Z) (userId brokerType : string)
           (instruments : Instruments) : World -> Result (list Z) * World :=
  on_broker E now "Failed to unsubscribe from ticker: " userId brokerType
            (ZerodhaBroker.unsubscribeFromTicker instruments).

Definition getSubscribedInstruments (E : Env) (now : Z) (userId brokerType : string)
  : World -> Result (list Z) * World :=
  on_broker E now "Failed to get subscribed instruments: " userId brokerType
            (fun b => (Ok (ZerodhaBroker.getSubscribedInstruments b), b)).

Definition requiredFields : list string :=
  ["variety"; "exchange"; "tradingsymbol"; "transaction_type"; "quantity";
   "product"; "order_type"].
Definition validVarieties : list string := ["regular"; "bo"; "co"; "iceberg"; "auction"].
Definition validTransactionTypes : list string := ["BUY"; "SELL"].
Definition validProducts : list string := ["CNC"; "MIS"; "NRML"].
Definition validOrderTypes : list string := ["MARKET"; "LIMIT"; "SL"; "SL-M"].

(** The [for (const field of requiredFields)] loop. *)
Fixpoint check_required (fields : list string) (orderParams : gmap string JsValue)
  : Result unit :=
  match fields with
  | [] => Ok tt
  | field :: rest =>
      if negb (truthy (js_get orderParams field))
      then Throw ("Missing required field: " ++ field)
      else check_required rest orderParams
  end.

Definition check_enum (field : string) (valid : list string)
           (orderParams : gmap string JsValue) : Result unit :=
  if negb (includes valid (js_get orderParams field))
  then Throw ("Invalid " ++ field ++ ". Must be one of: " ++ join ", " valid)
  else Ok tt.

Definition validateOrderParams (brokerType : string)
           (orderParams : gmap string JsValue) : Result unit :=
  if String.eqb brokerType "zerodha" then
    match check_required requiredFields orderParams with
    | Throw e => Throw e
    | Ok _ =>
    match check_enum "variety" validVarieties orderParams with
    | Throw e => Throw e
    | Ok _ =>
    match check_enum "transaction_type" validTransactionTypes orderParams with
    | Throw e => Throw e
    | Ok _ =>
    match check_enum "product" validProducts orderParams with
    | Throw e => Throw e
    | Ok _ => check_enum "order_type" validOrderTypes orderParams
    end end end end
  else Ok tt.

Definition placeOrder (E : Env) (now : Z) (userId brokerType : string)
           (orderParams : gmap string JsValue) (w : World) : Result string * World :=
  let prefix := "Failed to place order: " in
  match getBrokerInstance E now userId brokerType w with
  | (Throw e, w1) => (Throw (prefix ++ e), w1)
  | (Ok broker, w1) =>
      match validateOrderParams brokerType orderParams with
      | Throw e => (Throw (prefix ++ e), w1)
      | Ok _ =>
          match heap w1 !! broker with
          | None => (Throw (prefix ++ "broker is not defined"), w1)
          | Some b =>
              match ZerodhaBroker.placeOrder E orderParams b with
              | (Throw e, io) => (Throw (prefix ++ e), fold_left (fun w c => emit c w) io w1)
              | (Ok r, io) => (Ok r, fold_left (fun w c => emit c w) io w1)
              end
          end
      end
  end.

Definition disconnectBroker (userId brokerType : string) (w : World)
  : Result unit * World :=
  let prefix := "Failed to disconnect broker: " in
  let key := sessionKey userId brokerType in
  let deactivate w :=
    emit (DbDeactivate userId brokerType)
         (with_sessions (TradingSession.deactivate userId brokerType (sessions w)) w) in
  match map_get key (activeBrokers w) with
  | None => (Ok tt, deactivate w)
  | Some broker =>
      match heap w !! broker with
      | None => (Throw (prefix ++ "broker is not defined"), w)
      | Some b =>
          match ZerodhaBroker.disconnect b with
          | (Throw e, b') => (Throw (prefix ++ e), with_heap (<[broker := b']> (heap w)) w)
          | (Ok _, b') =>
              (Ok tt,
               deactivate (with_pool (map_delete key (activeBrokers w))
                                     (with_heap (<[broker := b']> (heap w)) w)))
          end
      end
  end.

(** [const [userId, brokerType] = key.split('_')] followed by the query.
    A key made by [sessionKey] always has the two parts. *)
Definition session_of_key (now : Z) (key : string) (store : list Session)
  : option Session :=
  match split_underscore key with
  | userId :: brokerType :: _ =>
      TradingSession.findActiveSession now userId brokerType store
  | _ => None
  end.

Definition query_of_key (key : string) : IO :=
  match split_underscore key with
  | userId :: brokerType :: _ => DbFindActiveSession userId brokerType
  | userId :: _ => DbFindActiveSession userId ""
  | [] => DbFindActiveSession "" ""
  end.

(** The [for (const [key, broker] of this.activeBrokers.entries())] loop of
    [cleanupExpiredSessions]; deleting the entry being visited does not
    disturb the iteration over the remaining ones. *)
Fixpoint sweep_loop (now : Z) (entries : list (string * nat)) (w : World)
  : Result unit * World :=
  match entries with
  | [] => (Ok tt, w)
  | (key, broker) :: rest =>
      let w1 := emit (query_of_key key) w in
      match session_of_key now key (sessions w1) with
      | Some _ => sweep_loop now rest w1
      | None =>
          match heap w1 !! broker with
          | None => (Throw "broker is not defined", w1)
          | Some b =>
              match ZerodhaBroker.disconnect b with
              | (Throw e, b') => (Throw e, with_heap (<[broker := b']> (heap w1)) w1)
              | (Ok _, b') =>
                  sweep_loop now rest
                    (with_pool (map_delete key (activeBrokers w1))
                               (with_heap (<[broker := b']> (heap w1)) w1))
              end
          end
      end
  end.

(** The value the promise of [cleanupExpiredSessions] settles with:
    [Ok (Some tt)] is [{ success: true }], [Ok None] is [undefined] (the
    [catch] branch returns nothing); the function has no [throw] of its
    own. *)
Definition cleanupExpiredSessions (now : Z) (w : World) : Result (option unit) * World :=
  let w0 := emit DbCleanupExpired
                 (with_sessions
                    (TradingSession.cleanupExpiredSessions now (sessions w)) w) in
  match sweep_loop now (activeBrokers w0) w0 with
  | (Ok _, w1) => (Ok (Some tt), w1)
  | (Throw e, w1) => (Ok None, console_error ("Cleanup expired sessions error: " ++ e) w1)
  end.

(** [const broker = await this.getBrokerInstance(...); return await
    broker.m()] inside [try { } catch (error) { throw new Error(prefix +
    error.message) }], for the read methods, which leave the broker as it
    is. *)
Definition on_broker_read (E : Env) (now : Z) (prefix : string)
           (userId brokerType : string)
           (method : Broker -> Result string * list KiteCall) (w : World)
  : (Result string * list KiteCall) * World :=
  match getBrokerInstance E now userId brokerType w with
  | (Throw e, w1) => ((Throw (prefix ++ e), []), w1)
  | (Ok broker, w1) =>
      match heap w1 !! broker with
      | None => ((Throw (prefix ++ "broker is not defined"), []), w1)
      | Some b =>
          match method b with
          | (Throw e, calls) => ((Throw (prefix ++ e), calls), w1)
          | (Ok r, calls) => ((Ok r, calls), w1)
          end
      end
  end.

Definition getUserProfile (E : Env) (now : Z) (userId brokerType : string)
  : World -> (Result string * list KiteCall) * World :=
  on_broker_read E now "Failed to get user profile: " userId brokerType
                 (ZerodhaBroker.getProfile E).

Definition getPositions (E : Env) (K : KiteData) (now : Z) (userId brokerType : string)
  : World -> (Result string * list KiteCall) * World :=
  on_broker_read E now "Failed to get positions: " userId brokerType
                 (ZerodhaBroker.getPositions K).

Definition getHoldings (E : Env) (K : KiteData) (now : Z) (userId brokerType : string)
  : World -> (Result string * list KiteCall) * World :=
  on_broker_read E now "Failed to get holdings: " userId brokerType
                 (ZerodhaBroker.getHoldings K).

Definition getOrders (E : Env) (K : KiteData) (now : Z) (userId brokerType : string)
  : World -> (Result string * list KiteCall) * World :=
  on_broker_read E now "Failed to get orders: " userId brokerType
                 (ZerodhaBroker.getOrders K).

Definition getInstruments (E : Env) (K : KiteData) (now : Z) (userId brokerType : string)
           (exchange : option string)
  : World -> (Result string * list KiteCall) * World :=
  on_broker_read E now "Failed to get instruments: " userId brokerType
    (fun b =>
       if String.eqb brokerType "zerodha"
       then ZerodhaBroker.getInstruments K exchange b
       else (Throw ("Get instruments not implemented for " ++ brokerType), [])).

(** [TradingSession.find({ userId, isActive: true, expiresAt: { $gt: new
    Date() } })] mapped to the fields of a session kept here. *)
Definition getActiveSessions (now : Z) (userId : string) (store : list Session)
  : list (string * Z) :=
  map (fun session => (s_brokerType session, s_expiresAt session))
      (List.filter
         (fun s => String.eqb (s_userId s) userId && s_isActive s
                   && (now <? s_expiresAt s)%Z)
         store).

End TradingService.

(** ** src/server.js *)

(** What an awaited operation does, seen from the event loop: it settles
    [after] milliseconds after it was started, or never. *)
Inductive Behaviour : Type :=
| Resolves (after : N)
| Rejects (after : N) (message : string)
| Hangs.

(** An entry of the [cleanupTasks] array of [cleanup()]: [task_run] is how
    the promise of the task function settles; [task_says] holds the lines
    the task function writes to the console itself in the turn in which
    it returns (the warning of its own [catch], or its report).  The task
    functions of the source catch what they raise and return, so their
    promises resolve or stay pending; [Rejects] is what [Promise.race] and
    [Promise.allSettled] make of a promise that does reject. *)
Record CleanupTask : Type := mkTask {
  task_name : string;
  task_run : Behaviour;
  task_says : list string
}.

(** [close] is [fastify.close()]; [tasks] is the [cleanupTasks] array. *)
Record ServerEnv : Type := mkServerEnv {
  close : Behaviour;
  tasks : list CleanupTask
}.

(** What the event loop delivers:
    - [ApiRequest]: a [GET /api] request reaches its route handler;
    - [OrphanRejection]: the [setTimeout(reject, 10)] of the promise that
      the handler made and dropped fires;
    - [ShutdownTimer]: the 8000 ms [shutdownTimer] of [gracefulShutdown];
    - [CloseSettled]: [fastify.close()] resolves ([None]) or rejects;
    - [TaskSettled i]: the promise of cleanup task [i] resolves or rejects;
    - [TaskTimeout i]: the 5000 ms timer raced against cleanup task [i]. *)
Inductive Event : Type :=
| ApiRequest
| OrphanRejection
| ShutdownTimer
| CloseSettled (error : option string)
| TaskSettled (i : nat) (error : option string)
| TaskTimeout (i : nat).

(** State of one [Promise.race([...])] of [cleanup()]. *)
Inductive Settled : Type :=
| Pending
| Fulfilled
| Rejected (reason : string).

(** [timers] holds what the event loop will still deliver, with its due
    time; [races] is the array [Promise.allSettled] is waiting on;
    [exited] is the time and code of [process.exit]. *)
Record Process : Type := mkProcess {
  clock : N;
  timers : list (N * Event);
  shuttingDown : bool;
  races : list Settled;
  log : list (N * string);
  responses : list (N * nat);
  exited : option (N * Z)
}.

Module TradingServer.

Definition cleanupTimeout : N := 5000.
Definition shutdownTimeout : N := 8000.

(** A task function that awaits a remote call returns after some time or
    never. *)
Definition settles (after : option N) : Behaviour :=
  match after with
  | Some d => Resolves d
  | None => Hangs
  end.

(** The array built by [cleanup()] in the source.  The sweep
    ([TradingService.cleanupExpiredSessions]) and [cleanupDatabase] await
    remote calls; [cleanupBrokerConnections] and [cleanupOtherResources]
    have nothing to wait for.  Each function has its whole body in a
    [try] whose [catch] writes a line and returns: [trading_says] is
    empty or the "Cleanup expired sessions error: ..." line,
    [brokers_says] holds the warnings of [cleanupBrokerConnections],
    [database_says] is empty or the "Warning during database cleanup:
    ..." line; [cleanupOtherResources] always writes its report. *)
Definition cleanupTasks (trading : option N) (trading_says : list string)
           (brokers_says : list string)
           (database : option N) (database_says : list string)
  : list CleanupTask :=
  [mkTask "Trading service" (settles trading) trading_says;
   mkTask "Broker connections" (Resolves 0) brokers_says;
   mkTask "Database" (settles database) database_says;
   mkTask "Other resources" (Resolves 0) ["Other resources cleaned up"]].

Definition boot (t0 : N) : Process := mkProcess t0 [] false [] [] [] None.

Definition say (line : string) (p : Process) : Process :=
  mkProcess (clock p) (timers p) (shuttingDown p) (races p)
            (log p ++ [(clock p, line)]) (responses p) (exited p).

(** Several lines written in one turn. *)
Definition say_all (lines : list string) (p : Process) : Process :=
  mkProcess (clock p) (timers p) (shuttingDown p) (races p)
            (log p ++ map (fun line => (clock p, line)) lines) (responses p)
            (exited p).

Definition setTimeout (delay : N) (ev : Event) (p : Process) : Process :=
  mkProcess (clock p) (timers p ++ [((clock p + delay)%N, ev)]) (shuttingDown p)
            (races p) (log p) (responses p) (exited p).

Definition is_shutdown_timer (ev : Event) : bool :=
  match ev with ShutdownTimer => true | _ => false end.

(** [clearTimeout(shutdownTimer)] *)
Definition clearTimeout (p : Process) : Process :=
  mkProcess (clock p)
            (List.filter (fun te => negb (is_shutdown_timer te.2)) (timers p))
            (shuttingDown p) (races p) (log p) (responses p) (exited p).

Definition process_exit (code : Z) (p : Process) : Process :=
  mkProcess (clock p) (timers p) (shuttingDown p) (races p) (log p)
            (responses p) (Some (clock p, code)).

Definition set_races (r : list Settled) (p : Process) : Process :=
  mkProcess (clock p) (timers p) (shuttingDown p) r (log p) (responses p)
            (exited p).

Definition reply (status : nat) (p : Process) : Process :=
  mkProcess (clock p) (timers p) (shuttingDown p) (races p) (log p)
            (responses p ++ [(clock p, status)]) (exited p).

(** Start an asynchronous operation whose settlement is delivered as
    [ev error]. *)
Definition start (b : Behaviour) (ev : option string -> Event) (p : Process) : Process :=
  match b with
  | Resolves d => setTimeout d (ev None) p
  | Rejects d e => setTimeout d (ev (Some e)) p
  | Hangs => p
  end.

Definition gracefulShutdown (env : ServerEnv) (reason : string) (p : Process) : Process :=
  if shuttingDown p then p
  else
    let p1 := mkProcess (clock p) (timers p) true (races p) (log p)
                        (responses p) (exited p) in
    let p2 := say ("initiating graceful shutdown: " ++ reason) p1 in
    let p3 := setTimeout shutdownTimeout ShutdownTimer p2 in
    start (close env) CloseSettled p3.

(** [Promise.race([task().then(log), new Promise((_, reject) =>
    setTimeout(reject, cleanupTimeout))])] for the task at index [i]. *)
Definition launch (i : nat) (t : CleanupTask) (p : Process) : Process :=
  setTimeout cleanupTimeout (TaskTimeout i) (start (task_run t) (TaskSettled i) p).

Fixpoint launch_all (i : nat) (ts : list CleanupTask) (p : Process) : Process :=
  match ts with
  | [] => p
  | t :: rest => launch_all (S i) rest (launch i t p)
  end.

Definition is_pending (s : Settled) : bool :=
  match s with Pending => true | _ => false end.

(** What follows [await Promise.allSettled(cleanupTasks)] in [cleanup()]
    and [await this.cleanup()] in [gracefulShutdown]. *)
Definition finish (p : Process) : Process :=
  process_exit 0
    (say "graceful shutdown complete"
       (clearTimeout (say "Comprehensive cleanup completed" p))).

Definition settle (i : nat) (outcome : Settled) (p : Process) : Process :=
  match races p !! i with
  | Some Pending =>
      let p' := set_races (<[i := outcome]> (races p)) p in
      if existsb is_pending (races p') then p' else finish p'
  | _ => p
  end.

Definition cleanup (env : ServerEnv) (p : Process) : Process :=
  let p1 := say "Starting comprehensive cleanup..." p in
  let p2 := say "Cleared session cleanup interval" p1 in
  let p3 := set_races (replicate (length (tasks env)) Pending) p2 in
  let p4 := launch_all 0 (tasks env) p3 in
  if existsb is_pending (races p4) then p4 else finish p4.

Definition name_of (env : ServerEnv) (i : nat) : string :=
  match tasks env !! i with
  | Some t => task_name t
  | None => ""
  end.

Definition says_of (env : ServerEnv) (i : nat) : list string :=
  match tasks env !! i with
  | Some t => task_says t
  | None => []
  end.

(** The reaction of the process to one delivery of the event loop.  When
    the promise of task [i] resolves, the task function has written its
    own lines and returned, and the [.then] of [cleanup()] writes the
    "cleanup completed" line. *)
Definition handle (env : ServerEnv) (ev : Event) (p : Process) : Process :=
  match ev with
  | ApiRequest =>
      if shuttingDown p then p
      else reply 200 (setTimeout 10 OrphanRejection p)
  | OrphanRejection =>
      gracefulShutdown env "unhandledRejection" (say "unhandledRejection" p)
  | ShutdownTimer =>
      process_exit 1 (say "forced exit after timeout" p)
  | CloseSettled None => cleanup env p
  | CloseSettled (Some e) =>
      process_exit 1 (say "error during shutdown" (clearTimeout p))
  | TaskSettled i None =>
      settle i Fulfilled
             (say (name_of env i ++ " cleanup completed")
                  (say_all (says_of env i) p))
  | TaskSettled i (Some e) => settle i (Rejected e) p
  | TaskTimeout i => settle i (Rejected (name_of env i ++ " cleanup timeout")) p
  end.

(** The earliest pending delivery, the first registered among equals. *)
Fixpoint pop_min (l : list (N * Event)) : option ((N * Event) * list (N * Event)) :=
  match l with
  | [] => None
  | x :: rest =>
      match pop_min rest with
      | None => Some (x, [])
      | Some (y, rest') =>
          if (x.1 <=? y.1)%N then Some (x, rest) else Some (y, x :: rest')
      end
  end.

Definition advance (t : N) (rest : list (N * Event)) (p : Process) : Process :=
  mkProcess t rest (shuttingDown p) (races p) (log p) (responses p) (exited p).

(** The event loop: deliveries in time order until [process.exit] or
    until nothing is pending. *)
Fixpoint run (env : ServerEnv) (fuel : nat) (p : Process) : Process :=
  match fuel with
  | O => p
  | S n =>
      match exited p with
      | Some _ => p
      | None =>
          match pop_min (timers p) with
          | None => p
          | Some ((t, ev), rest) => run env n (handle env ev (advance t rest p))
          end
      end
  end.

Definition weight (env : ServerEnv) (ev : Event) : nat :=
  match ev with
  | ApiRequest => 2
  | CloseSettled _ => 1 + 2 * length (tasks env)
  | _ => 1
  end.

(** A bound on the number of deliveries still possible from [p]. *)
Definition budget (env : ServerEnv) (p : Process) : nat :=
  sum_list_with (fun te => weight env te.2) (timers p)
  + (if shuttingDown p then 0 else 2 + 2 * length (tasks env)).

(** The [for (const [sessionKey, broker] of
    TradingService.activeBrokers.entries())] loop of
    [cleanupBrokerConnections]: [broker.disconnect()] has no [await], so
    each call runs to its end where it is made; the [.catch] turns a
    rejection into a warning (the lines of [console.warn] are kept with
    those of [console.error]). *)
Fixpoint disconnect_loop (entries : list (string * nat)) (w : World)
  : Result unit * World :=
  match entries with
  | [] => (Ok tt, w)
  | (sessionKey, broker) :: rest =>
      match heap w !! broker with
      | None => (Throw "broker is not defined", w)
      | Some b =>
          match ZerodhaBroker.disconnect b with
          | (Throw e, b') =>
              disconnect_loop rest
                (console_error
                   ("Warning: Failed to disconnect broker " ++ sessionKey ++ ": " ++ e)
                   (with_heap (<[broker := b']> (heap w)) w))
          | (Ok _, b') =>
              disconnect_loop rest (with_heap (<[broker := b']> (heap w)) w)
          end
      end
  end.

(** [cleanupBrokerConnections()] up to its [await
    Promise.allSettled(disconnectPromises)]. *)
Definition cleanupBrokerConnections_begin (w : World) : Result unit * World :=
  disconnect_loop (activeBrokers w) w.

(** [cleanupBrokerConnections()] after the [await]: the Map is cleared, or
    the outer [catch] has logged what the loop raised. *)
Definition cleanupBrokerConnections_end (r : Result unit) (w : World) : World :=
  match r with
  | Ok _ => with_pool [] w
  | Throw e => console_error ("Warning during broker cleanup: " ++ e) w
  end.

(** The call run to its end with nothing else scheduled in between. *)
Definition cleanupBrokerConnections (w : World) : World :=
  let '(r, w1) := cleanupBrokerConnections_begin w in
  cleanupBrokerConnections_end r w1.

Definition requiredVars : list string :=
  ["JWT_SECRET"; "SESSION_SECRET"; "MONGODB_URI"; "KITE_API_KEY"; "KITE_API_SECRET"].

(** [!process.env[varName] || process.env[varName] === 'enter your value'] *)
Definition is_missing (env : gmap string string) (varName : string) : bool :=
  match env !! varName with
  | None => true
  | Some v => String.eqb v "" || String.eqb v "enter your value"
  end.

(** How [validateEnvironment()] ends: it returns after the success line,
    returns after the warnings (outside production), or calls
    [process.exit(1)]. *)
Inductive EnvCheck : Type :=
| EnvPassed
| EnvContinued (missingVars : list string)
| EnvExit (missingVars : list string).

Definition validateEnvironment (env : gmap string string) : EnvCheck :=
  let missingVars := List.filter (is_missing env) requiredVars in
  if (0 <? length missingVars)%nat then
    if negb (bool_decide (env !! "NODE_ENV" = Some "production"))
    then EnvContinued missingVars
    else EnvExit missingVars
  else EnvPassed.

End TradingServer.

(** ** src/middleware/auth.js *)

(** The [options] object of [rateLimit]: a field is absent or a number. *)
Record RateLimitOptions : Type := mkOptions {
  opt_windowMs : option Z;
  opt_max : option Z
}.

Module Middleware.

(** [options.field || fallback] on a number. *)
Definition or_default (field : option Z) (fallback : Z) : Z :=
  match field with
  | Some v => if (v =? 0)%Z then fallback else v
  | None => fallback
  end.

Definition windowMs (options : RateLimitOptions) : Z :=
  or_default (opt_windowMs options) (15 * 60 * 1000).

Definition maxRequests (options : RateLimitOptions) : Z :=
  or_default (opt_max options) 100.

(** The handler [rateLimit(options)] returns, applied to a request from
    [key] ([request.ip]) at [now] ([Date.now()]); [requests] is the Map of
    the closure.  [true] is a call of [done()], [false] the 429 reply. *)
Definition rateLimit (options : RateLimitOptions) (key : string) (now : Z)
           (requests : list (string * list Z)) : bool * list (string * list Z) :=
  let windowStart := (now - windowMs options)%Z in
  let requests1 :=
    match map_get key requests with
    | Some times =>
        map_set key (List.filter (fun time => (windowStart <? time)%Z) times) requests
    | None => requests
    end in
  let userRequests :=
    match map_get key requests1 with
    | Some times => times
    | None => []
    end in
  if (maxRequests options <=? Z.of_nat (length userRequests))%Z
  then (false, requests1)
  else (true, map_set key (userRequests ++ [now])%list requests1).

End Middleware.

(** ** src/services/AuthService.js *)

Module AuthService.

(** [updateMany({ userId, isActive: true }, { $set: { isActive: false } })] *)
Definition deactivate_all (userId : string) (store : list Session) : list Session :=
  map (fun s =>
         if String.eqb (s_userId s) userId && s_isActive s
         then mkSession (s_userId s) (s_brokerType s) (s_accessToken s)
                        (s_expiresAt s) false
         else s) store.

(** [logout(userId, brokerType = null)]: what it does to the session
    collection; [if (brokerType)] is false for [null] and for the empty
    string.  The function touches nothing else. *)
Definition logout (userId : string) (brokerType : option string) (store : list Session)
  : list Session :=
  match brokerType with
  | Some b =>
      if String.eqb b "" then deactivate_all userId store
      else TradingSession.deactivate userId b store
  | None => deactivate_all userId store
  end.

End AuthService.

(** * Vocabulary of the statements *)

(** What the ticker of [b] raises on [disconnect()], if it raises. *)
Definition disconnect_fault (b : Broker) : option string :=
  match ticker b with
  | Some t => tk_throws t MDisconnect
  | None => None
  end.

(** The instance [getBrokerInstance] builds for a session. *)
Definition fresh_broker (E : Env) (tok : string) : Broker :=
  mkBroker (mkConfig (env_KITE_API_KEY E) (env_KITE_API_SECRET E)) true
           (Some tok) None (Some tok) [].

(** ** Concrete collaborators used in the examples below *)

Definition kite_ok : Env :=
  mkEnv (fun _ => Ok "profile") (fun _ => Ok "order-1") (fun _ => None) "key" "secret".

Definition no_fault : TickerMethod -> option string := fun _ => None.

Definition disconnect_fails : TickerMethod -> option string :=
  fun m => match m with MDisconnect => Some "socket hang up" | _ => None end.

Definition connected_broker (t : option KiteTicker) (subs : list Z) : Broker :=
  mkBroker (mkConfig "key" "secret") true (Some "tok") t (Some "tok") subs.

Definition live_ticker : KiteTicker := mkTicker "key" "tok" [TkConnect] no_fault.
Definition stuck_ticker : KiteTicker := mkTicker "key" "tok" [TkConnect] disconnect_fails.

(** A session usable for the key: active and not past its expiry. *)
Definition session_usable (now : Z) (u b : string) (store : list Session) : Prop :=
  exists s, s ∈ store /\ s_userId s = u /\ s_brokerType s = b /\
            s_isActive s = true /\ (now < s_expiresAt s)%Z.

(** No session for the key, or only inactive or expired ones. *)
Definition no_usable_session (now : Z) (u b : string) (store : list Session) : Prop :=
  forall s, s ∈ store -> s_userId s = u -> s_brokerType s = b ->
            s_isActive s = false \/ (s_expiresAt s <= now)%Z.

(** The enumerations [validateOrderParams] checks, in its order. *)
Definition enum_table : list (string * list string) :=
  [("variety", TradingService.validVarieties);
   ("transaction_type", TradingService.validTransactionTypes);
   ("product", TradingService.validProducts);
   ("order_type", TradingService.validOrderTypes)].

(** [field] is required and absent (or falsy) in [orderParams]. *)
Definition missing_field (orderParams : gmap string JsValue) (field : string) : Prop :=
  field ∈ TradingService.requiredFields /\ truthy (js_get orderParams field) = false.

(** [field] is an enumerated field whose value is outside [valid]. *)
Definition invalid_enum (orderParams : gmap string JsValue) (field : string)
           (valid : list string) : Prop :=
  (field, valid) ∈ enum_table /\ includes valid (js_get orderParams field) = false.

Definition session_u1 : Session := mkSession "u1" "zerodha" "tok" 2000 true.
Definition expired_u1 : Session := mkSession "u1" "zerodha" "tok" 500 true.
Definition renewed_u1 : Session := mkSession "u1" "zerodha" "tok2" 9000 true.

Definition world_of (store : list Session) : World := mkWorld [] [] store [] [].

Definition order_hold : gmap string JsValue :=
  list_to_map
    [("variety", JString "regular"); ("exchange", JString "NSE");
     ("tradingsymbol", JString "INFY"); ("transaction_type", JString "HOLD");
     ("quantity", JNumber 1); ("product", JString "CNC");
     ("order_type", JString "MARKET")].

(** A user connects the stream and subscribes to one instrument. *)
Definition world_subscribed : World :=
  let w1 := (TradingService.connectWebSocket kite_ok 1000 "u1" "zerodha"
               (world_of [session_u1])).2 in
  (TradingService.subscribeToTicker kite_ok 1000 "u1" "zerodha"
     (InstrArray [256265%Z]) w1).2.

(** The connection is torn down, the user authenticates again (a new
    session document), and the stream is connected on the replacement. *)
Definition world_replaced : World :=
  let w1 := (TradingService.disconnectBroker "u1" "zerodha" world_subscribed).2 in
  let w2 := with_sessions (sessions w1 ++ [renewed_u1]) w1 in
  (TradingService.connectWebSocket kite_ok 1000 "u1" "zerodha" w2).2.

(** The state between the two: the instance on which u1 had subscribed
    has been torn down and the user has authenticated again; no stream
    has been connected on a replacement yet. *)
Definition world_torn_down : World :=
  let w1 := (TradingService.disconnectBroker "u1" "zerodha" world_subscribed).2 in
  with_sessions (sessions w1 ++ [renewed_u1]) w1.

(** The pool already holds a connected handle for u1. *)
Definition world_cached : World :=
  mkWorld [("u1_zerodha", 0%nat)] [connected_broker None []] [session_u1] [] [].

(** No underscore occurs in [s]: true of the hexadecimal form of an
    ObjectId and of the broker type tags. *)
Fixpoint no_underscore (s : string) : bool :=
  match s with
  | EmptyString => true
  | String c rest => negb (Ascii.eqb c "_"%char) && no_underscore rest
  end.

(** The sweep finds an active session for the entry's key. *)
Definition kept (now : Z) (store : list Session) (e : string * nat) : bool :=
  match TradingService.session_of_key now e.1 store with
  | Some _ => true
  | None => false
  end.

(** The pool of a running service: one entry per key, one instance per
    entry, keys made by [sessionKey] from an underscore-free user id and
    broker type, every reference allocated. *)
Definition pool_wf (w : World) : Prop :=
  NoDup (map fst (activeBrokers w)) /\
  NoDup (map snd (activeBrokers w)) /\
  (forall e, e ∈ activeBrokers w ->
     (exists u b, e.1 = TradingService.sessionKey u b /\
                  no_underscore u = true /\ no_underscore b = true) /\
     is_Some (heap w !! e.2)).

(** The state [disconnect()] leaves an instance in. *)
Definition disconnected (b : Broker) : Prop :=
  ticker b = None /\ isConnected b = false /\ accessToken b = None.

(** Two cached handles without any session; the ticker of the first one
    raises on [disconnect()]. *)
Definition world_stuck : World :=
  mkWorld [("u1_zerodha", 0%nat); ("u2_zerodha", 1%nat)]
          [connected_broker (Some stuck_ticker) []; connected_broker None []]
          [] [] [].

(** Two cached handles: u1 has an expired session, u2 an active one. *)
Definition world_mixed : World :=
  mkWorld [("u1_zerodha", 0%nat); ("u2_zerodha", 1%nat)]
          [connected_broker (Some live_ticker) []; connected_broker None []]
          [expired_u1; mkSession "u2" "zerodha" "tok" 2000 true] [] [].

(** Three cached handles without any session; the ticker of the second
    one raises on [disconnect()]. *)
Definition world_stuck3 : World :=
  mkWorld [("u0_zerodha", 0%nat); ("u1_zerodha", 1%nat); ("u2_zerodha", 2%nat)]
          [connected_broker None []; connected_broker (Some stuck_ticker) [];
           connected_broker None []]
          [] [] [].

(** The process is shutting down, has not exited, and its forced-exit
    timer is pending with due time [deadline]. *)
Definition armed (deadline : N) (p : Process) : Prop :=
  (deadline, ShutdownTimer) ∈ timers p /\ shuttingDown p = true /\ exited p = None.

(** What the launches of [cleanup()] at time [t0] register with the event
    loop, for the tasks [ts] numbered from [i]. *)
Definition launched (t0 : N) (i : nat) (t : CleanupTask) : list (N * Event) :=
  match task_run t with
  | Resolves d => [((t0 + d)%N, TaskSettled i None)]
  | Rejects d e => [((t0 + d)%N, TaskSettled i (Some e))]
  | Hangs => []
  end ++ [((t0 + TradingServer.cleanupTimeout)%N, TaskTimeout i)].

Fixpoint launched_all (t0 : N) (i : nat) (ts : list CleanupTask) : list (N * Event) :=
  match ts with
  | [] => []
  | t :: rest => launched t0 i t ++ launched_all t0 (S i) rest
  end.

(** Nothing that is due at or before [tb] can end the wait for the
    settlement of task [i] at [tb]. *)
Definition safe_before (tb : N) (i : nat) (te : N * Event) : Prop :=
  match te.2 with
  | ShutdownTimer => (tb < te.1)%N
  | TaskTimeout j => j = i -> (tb < te.1)%N
  | TaskSettled j err => j = i -> err = None /\ te.1 = tb
  | CloseSettled _ => False
  | ApiRequest | OrphanRejection => True
  end.

(** Task [i] is still racing and its success is due at [tb]. *)
Definition waiting (tb : N) (i : nat) (p : Process) : Prop :=
  exited p = None /\ races p !! i = Some Pending /\
  (tb, TaskSettled i None) ∈ timers p /\
  forall te, te ∈ timers p -> safe_before tb i te.

(** [fastify.close()] is still running: it will resolve at [tc], and the
    forced exit is due at [deadline]. *)
Definition closing (deadline tc : N) (p : Process) : Prop :=
  exited p = None /\
  timers p = [(deadline, ShutdownTimer); (tc, CloseSettled None)].

(** [cleanup()] is waiting on its races: some race is open, and each open
    race has its own timer pending, due at [T]. *)
Definition racing (T : N) (p : Process) : Prop :=
  (forall t e, (t, CloseSettled e) ∉ timers p) /\
  existsb TradingServer.is_pending (races p) = true /\
  forall j, races p !! j = Some Pending -> (T, TaskTimeout j) ∈ timers p.

(** Task [i] has returned at [tb]: the lines it writes itself and the
    "cleanup completed" line of [cleanup()] are on the console, with that
    instant. *)
Definition reported (S0 : ServerEnv) (i : nat) (tb : N) (p : Process) : Prop :=
  (tb, TradingServer.name_of S0 i ++ " cleanup completed") ∈ log p /\
  forall line, line ∈ TradingServer.says_of S0 i -> (tb, line) ∈ log p.

(** The process from the call of [gracefulShutdown(reason)] at [t0]. *)
Definition shutdown (S0 : ServerEnv) (reason : string) (t0 : N) (fuel : nat) : Process :=
  TradingServer.run S0 fuel
    (TradingServer.gracefulShutdown S0 reason (TradingServer.boot t0)).

(** Three cleanup tasks: A never completes, B completes after one second,
    C after two; [fastify.close()] resolves at once. *)
Definition scenario_three : ServerEnv :=
  mkServerEnv (Resolves 0)
              [mkTask "A" Hangs []; mkTask "B" (Resolves 1000) [];
               mkTask "C" (Resolves 2000) []].

(** The server of the source with a database that never disconnects and a
    [fastify.close()] that needs two seconds. *)
Definition scenario_server : ServerEnv :=
  mkServerEnv (Resolves 2000) (TradingServer.cleanupTasks (Some 30%N) [] [] None []).

(** The server of the source when the sweep fails after one second on a
    broker that does not disconnect, and the database never disconnects;
    [fastify.close()] resolves at once. *)
Definition scenario_failing : ServerEnv :=
  mkServerEnv (Resolves 0)
    (TradingServer.cleanupTasks
       (Some 1000%N)
       ["Cleanup expired sessions error: Failed to disconnect from Zerodha: socket hang up"]
       [] None []).

(** Two calls for the same key in flight together: the event loop resumes
    them in turn. *)
Definition overlapped : list Task * World :=
  TradingService.interleave kite_ok 1000 [0; 1; 0; 1; 0; 1]%nat
    [TStart "u1" "zerodha"; TStart "u1" "zerodha"] (world_of [session_u1]).

(** ** Vocabulary of the further properties *)

(** The cache of a running service: one entry per key, one instance per
    entry, every key made for the broker type zerodha, every cached
    instance allocated, connected and holding its token. *)
Definition pool_live (w : World) : Prop :=
  NoDup (map fst (activeBrokers w)) /\
  NoDup (map snd (activeBrokers w)) /\
  forall k r, (k, r) ∈ activeBrokers w ->
    (exists u, k = TradingService.sessionKey u "zerodha") /\
    exists b, heap w !! r = Some b /\ ZerodhaBroker._ensureConnected b = Ok tt.

(** What can happen to the service from outside, one call at a time:
    the methods of [TradingService] that touch the cache (the read methods
    touch it through [getBrokerInstance] only), the shutdown cleanup of
    the server, and any change the rest of the application makes to the
    session collection. *)
Inductive Request : Type :=
| ReqBroker (userId brokerType : string)
| ReqConnectWebSocket (userId brokerType : string)
| ReqSubscribe (userId brokerType : string) (instruments : Instruments)
| ReqUnsubscribe (userId brokerType : string) (instruments : Instruments)
| ReqSubscribed (userId brokerType : string)
| ReqPlaceOrder (userId brokerType : string) (orderParams : gmap string JsValue)
| ReqDisconnect (userId brokerType : string)
| ReqSweep
| ReqBrokerCleanup
| ReqStore (store : list Session).

(** The state after one call, made at [now] against the collaborators
    [E]. *)
Definition serve (E : Env) (now : Z) (req : Request) (w : World) : World :=
  match req with
  | ReqBroker u b => (TradingService.getBrokerInstance E now u b w).2
  | ReqConnectWebSocket u b => (TradingService.connectWebSocket E now u b w).2
  | ReqSubscribe u b ins => (TradingService.subscribeToTicker E now u b ins w).2
  | ReqUnsubscribe u b ins => (TradingService.unsubscribeFromTicker E now u b ins w).2
  | ReqSubscribed u b => (TradingService.getSubscribedInstruments E now u b w).2
  | ReqPlaceOrder u b op => (TradingService.placeOrder E now u b op w).2
  | ReqDisconnect u b => (TradingService.disconnectBroker u b w).2
  | ReqSweep => (TradingService.cleanupExpiredSessions now w).2
  | ReqBrokerCleanup => TradingServer.cleanupBrokerConnections w
  | ReqStore store => with_sessions store w
  end.

(** A history of calls, each awaited before the next is made; the
    collaborators and the clock may differ from call to call. *)
Fixpoint replay (history : list (Env * Z * Request)) (w : World) : World :=
  match history with
  | [] => w
  | (E, now, req) :: rest => replay rest (serve E now req w)
  end.

(** How a read method of the service ends for a zerodha handle: it fails
    with the error of [getBrokerInstance] behind [prefix] and sends
    nothing, or it sends the one [call] on the handle it got and returns
    the answer of the Kite client, an error behind both prefixes. *)
Definition read_outcome (E : Env) (now : Z) (u : string) (w : World)
           (prefix inner : string) (call : KiteCall)
           (answer : option string -> Result string)
           (out : (Result string * list KiteCall) * World) : Prop :=
  out.2 = (TradingService.getBrokerInstance E now u "zerodha" w).2 /\
  match (TradingService.getBrokerInstance E now u "zerodha" w).1 with
  | Throw e => out.1 = (Throw (prefix ++ e), [])
  | Ok r =>
      exists bk, heap out.2 !! r = Some bk /\
        out.1 = (match answer (kc_token bk) with
                 | Ok x => Ok x
                 | Throw e => Throw (prefix ++ inner ++ e)
                 end, [call])
  end.

(** A Kite client whose read endpoints all answer. *)
Definition kite_data_ok : KiteData :=
  mkKiteData (fun _ => Ok "positions") (fun _ => Ok "holdings") (fun _ => Ok "orders")
             (fun _ _ => Ok "instruments").

(** The warning [cleanupBrokerConnections] writes for a cache entry, if
    the disconnect of its instance raises. *)
Definition disconnect_warning (w : World) (e : string * nat) : list string :=
  match heap w !! e.2 with
  | Some bk =>
      match disconnect_fault bk with
      | Some err =>
          ["Warning: Failed to disconnect broker " ++ e.1 ++
           ": Failed to disconnect from Zerodha: " ++ err]
      | None => []
      end
  | None => []
  end.

(** Nothing pending can end the process with a failure other than the
    forced-exit timer due at [deadline], and if the process has exited
    with a failure it did so at [deadline]. *)
Definition clean_exit (deadline : N) (p : Process) : Prop :=
  (forall t e, (t, CloseSettled (Some e)) ∉ timers p) /\
  (forall t, (t, ShutdownTimer) ∈ timers p -> t = deadline) /\
  (forall x, exited p = Some x -> x.2 = 0%Z \/ x.1 = deadline).

(** An environment with every required variable set. *)
Definition env_complete : gmap string string :=
  list_to_map
    [("JWT_SECRET", "s1"); ("SESSION_SECRET", "s2"); ("MONGODB_URI", "mongodb://db");
     ("KITE_API_KEY", "key"); ("KITE_API_SECRET", "secret");
     ("NODE_ENV", "production")].

(** The limiter over a history of requests, oldest first: the Map of the
    closure, and the requests that were let through. *)
Definition limiter_step (options : RateLimitOptions)
           (st : list (string * list Z) * list (string * Z)) (req : string * Z)
  : list (string * list Z) * list (string * Z) :=
  let '(ok, requests) := Middleware.rateLimit options req.1 req.2 st.1 in
  (requests, if ok then (st.2 ++ [req])%list else st.2).

Definition limiter (options : RateLimitOptions) (history : list (string * Z))
  : list (string * list Z) * list (string * Z) :=
  fold_left (limiter_step options) history ([], []).

(** The instants at which requests of [key] were let through. *)
Definition times_of (key : string) (passed : list (string * Z)) : list Z :=
  map snd (List.filter (fun req => String.eqb req.1 key) passed).

(** The instants of [times] inside the window that ends at [now]. *)
Definition recent (options : RateLimitOptions) (now : Z) (times : list Z) : list Z :=
  List.filter (fun time => (now - Middleware.windowMs options <? time)%Z) times.

(** What the Map holds for [key]. *)
Definition stored (key : string) (requests : list (string * list Z)) : list Z :=
  default [] (map_get key requests).

(** The limiter of the trading routes:
    [rateLimit({ windowMs: 60 * 1000, max: 100 })]. *)
Definition tradingRateLimit : RateLimitOptions := mkOptions (Some 60000%Z) (Some 100%Z).

(** [n] calls of [getBrokerInstance] for the same zerodha key in flight
    together: the event loop resumes them in turn, each at its start,
    then each after its session query, then each after its handshake. *)
Definition in_flight (E : Env) (now : Z) (n : nat) (u : string) (w : World)
  : list Task * World :=
  TradingService.interleave E now (seq 0 n ++ seq 0 n ++ seq 0 n)
    (replicate n (TStart u "zerodha")) w.

(** One turn of each of the calls [ts], in order. *)
Fixpoint turn_each (E : Env) (now : Z) (ts : list Task) (w : World) : list Task * World :=
  match ts with
  | [] => ([], w)
  | t :: rest =>
      let '(t', w1) := TradingService.step E now t w in
      let '(rest', w2) := turn_each E now rest w1 in
      (t' :: rest', w2)
  end.

(** * Properties *)

(** ** The JavaScript Set and Map models *)

Lemma existsb_eqb_elem (x : Z) (s : list Z) : existsb (Z.eqb x) s = true <-> x ∈ s.
Proof.
  rewrite existsb_exists. split.
  - intros (y & Hy & Heq). apply Z.eqb_eq in Heq. subst. by apply list_elem_of_In.
  - intros Hin. exists x. split; [by apply list_elem_of_In | apply Z.eqb_refl].
Qed.

Lemma set_add_elem (x y : Z) (s : list Z) : y ∈ set_add x s <-> y = x \/ y ∈ s.
Proof.
  unfold set_add. destruct (existsb (Z.eqb x) s) eqn:Hx.
  - apply existsb_eqb_elem in Hx. split; [auto | intros [-> | ?]; done].
  - rewrite elem_of_app, list_elem_of_singleton. tauto.
Qed.

Lemma set_add_present (x : Z) (s : list Z) : x ∈ s -> set_add x s = s.
Proof. intros Hx. unfold set_add. apply existsb_eqb_elem in Hx. by rewrite Hx. Qed.

Lemma add_all_elem (ids s : list Z) (y : Z) :
  y ∈ fold_left (fun s i => set_add i s) ids s <-> y ∈ ids \/ y ∈ s.
Proof.
  revert s. induction ids as [|i ids IH]; intros s; simpl.
  - rewrite elem_of_nil. tauto.
  - rewrite IH, set_add_elem, elem_of_cons. tauto.
Qed.

Lemma add_all_present (ids s : list Z) :
  (forall i, i ∈ ids -> i ∈ s) -> fold_left (fun s i => set_add i s) ids s = s.
Proof.
  revert s. induction ids as [|i ids IH]; intros s Hall; simpl; [done|].
  rewrite set_add_present by (apply Hall; left).
  apply IH. intros j Hj. apply Hall. by right.
Qed.

Lemma add_all_twice (ids s : list Z) :
  let add_all := fold_left (fun s i => set_add i s) ids in
  add_all (add_all s) = add_all s.
Proof.
  simpl. apply add_all_present. intros i Hi. apply add_all_elem. by left.
Qed.

(** ** ZerodhaBroker.disconnect *)

Module DisconnectFacts.
Import ZerodhaBroker.

Lemma disconnect_ok (b : Broker) :
  disconnect_fault b = None ->
  disconnect b = (Ok tt, mkBroker (config b) false (kc_token b) None None
                                  (subscribedInstruments b)).
Proof.
  unfold disconnect_fault, disconnect, ticker_call.
  destruct (ticker b) as [t|]; [|done]. by intros ->.
Qed.

Lemma disconnect_throws (b : Broker) (e : string) :
  disconnect_fault b = Some e ->
  disconnect b = (Throw ("Failed to disconnect from Zerodha: " ++ e), b).
Proof.
  unfold disconnect_fault, disconnect, ticker_call.
  destruct (ticker b) as [t|]; [|done]. by intros ->.
Qed.

Lemma disconnected_no_fault (b : Broker) :
  disconnect_fault (mkBroker (config b) false (kc_token b) None None
                             (subscribedInstruments b)) = None.
Proof. done. Qed.

(** C6, as stated, fails: with a ticker whose [disconnect()] raises, the
    broker's [disconnect()] rethrows the wrapped error and keeps the
    ticker. *)
Lemma disconnect_propagates_ticker_error :
  disconnect (connected_broker (Some stuck_ticker) [])
  = (Throw "Failed to disconnect from Zerodha: socket hang up",
     connected_broker (Some stuck_ticker) []).
Proof. reflexivity. Qed.

(** C6 (amended): [disconnect()] succeeds, releases the ticker and is
    idempotent whenever the ticker is absent or its own [disconnect()]
    returns, in particular on an already disconnected instance; when the
    ticker's [disconnect()] raises [e], the wrapped error is thrown to the
    caller. *)
Theorem disconnect_outcome (b : Broker) :
  match disconnect_fault b with
  | None =>
      (disconnect b).1 = Ok tt /\
      ticker (disconnect b).2 = None /\
      isConnected (disconnect b).2 = false /\
      accessToken (disconnect b).2 = None /\
      disconnect (disconnect b).2 = (Ok tt, (disconnect b).2)
  | Some e =>
      (disconnect b).1 = Throw ("Failed to disconnect from Zerodha: " ++ e)
  end.
Proof.
  destruct (disconnect_fault b) as [e|] eqn:Hf.
  - by rewrite (disconnect_throws b e Hf).
  - rewrite (disconnect_ok b Hf). simpl. repeat split; reflexivity.
Qed.

End DisconnectFacts.

(** ** ZerodhaBroker.subscribeToTicker *)

Module SubscribeFacts.
Import ZerodhaBroker.

(** C8, as stated, fails: without a ticker, [subscribeToTicker] throws and
    nothing is left pending in the set. *)
Lemma subscribe_without_stream_throws :
  subscribeToTicker (InstrArray [256265%Z]) (connected_broker None [])
  = (Throw "WebSocket not connected", connected_broker None [])
  /\ (TradingService.subscribeToTicker kite_ok 1000 "u1" "zerodha"
        (InstrArray [256265%Z])
        (mkWorld [("u1_zerodha", 0)] [connected_broker None []] [] [] [])).1
     = Throw "Failed to subscribe to ticker: WebSocket not connected".
Proof. split; reflexivity. Qed.

(** C8 (amended): without a ticker [subscribeToTicker(ids)] throws
    "WebSocket not connected" and changes nothing; with a ticker whose
    calls return, it issues the wire subscribe and the mode change at
    once, adds the ids to the set, and a second call with the same ids
    leaves the set as it is. *)
Theorem subscribe_outcome (ids : list Z) (b : Broker) :
  (ticker b = None ->
   subscribeToTicker (InstrArray ids) b = (Throw "WebSocket not connected", b))
  /\
  (forall t, ticker b = Some t ->
     tk_throws t MSubscribe = None -> tk_throws t MSetMode = None ->
     exists b' t',
       subscribeToTicker (InstrArray ids) b = (Ok ids, b') /\
       ticker b' = Some t' /\
       tk_wire t' = (tk_wire t ++ [TkSubscribe ids; TkSetMode modeLTP ids])%list /\
       tk_throws t' = tk_throws t /\
       (forall i, i ∈ subscribedInstruments b' <->
                  i ∈ ids \/ i ∈ subscribedInstruments b) /\
       exists b'',
         subscribeToTicker (InstrArray ids) b' = (Ok ids, b'') /\
         subscribedInstruments b'' = subscribedInstruments b').
Proof.
  split.
  - intros Hn. unfold subscribeToTicker. by rewrite Hn.
  - intros t Ht Hs Hm.
    unfold subscribeToTicker, ticker_call. rewrite Ht. simpl.
    rewrite Hs. simpl. rewrite Hm.
    eexists _, _. split; [reflexivity|]. simpl.
    split; [reflexivity|]. split; [by rewrite <- app_assoc|].
    split; [reflexivity|]. split; [apply add_all_elem|].
    rewrite Hs. simpl. rewrite Hm. eexists. split; [reflexivity|].
    simpl. apply add_all_twice.
Qed.

(** A broker with a live ticker that already follows 256265 subscribes to
    256265 and 408065. *)
Lemma subscribe_outcome_witness :
  exists b',
    subscribeToTicker (InstrArray [256265%Z; 408065%Z])
                      (connected_broker (Some live_ticker) [256265%Z])
    = (Ok [256265%Z; 408065%Z], b')
    /\ subscribedInstruments b' = [256265%Z; 408065%Z].
Proof.
  destruct (subscribe_outcome [256265%Z; 408065%Z]
              (connected_broker (Some live_ticker) [256265%Z])) as [_ H].
  destruct (H live_ticker eq_refl eq_refl eq_refl)
    as (b' & t' & Heq & _).
  exists b'. split; [exact Heq|].
  vm_compute in Heq. injection Heq as <-. reflexivity.
Defined.

End SubscribeFacts.

(** ** TradingService.getBrokerInstance *)

Module PoolFacts.
Import TradingService.

Lemma map_get_set_eq {V} (k : string) (v : V) (m : list (string * V)) :
  map_get k (map_set k v m) = Some v.
Proof.
  induction m as [|[k' v'] m IH]; simpl.
  - by rewrite String.eqb_refl.
  - destruct (String.eqb k k') eqn:Hk; simpl.
    + by rewrite String.eqb_refl.
    + by rewrite Hk.
Qed.

Lemma map_get_set_ne {V} (k k' : string) (v : V) (m : list (string * V)) :
  k <> k' -> map_get k' (map_set k v m) = map_get k' m.
Proof.
  intros Hne. induction m as [|[k0 v0] m IH]; simpl.
  - destruct (String.eqb k' k) eqn:Hk; [|done].
    apply String.eqb_eq in Hk. congruence.
  - destruct (String.eqb k k0) eqn:Hk; simpl.
    + apply String.eqb_eq in Hk. subst k0.
      destruct (String.eqb k' k) eqn:Hk'; [|done].
      apply String.eqb_eq in Hk'. congruence.
    + by rewrite IH.
Qed.

(** A cache hit returns the cached handle and touches nothing. *)
Lemma getBrokerInstance_hit (E : Env) (now : Z) (u b : string) (w : World) (r : nat) :
  map_get (sessionKey u b) (activeBrokers w) = Some r ->
  getBrokerInstance E now u b w = (Ok r, w).
Proof. intros H. unfold getBrokerInstance. simpl. by rewrite H. Qed.

(** A call is over after its third turn at the latest. *)
Lemma getBrokerInstance_settles (E : Env) (now : Z) (u b : string) (w : World) :
  exists r w',
    (let '(t1, w1) := step E now (TStart u b) w in
     let '(t2, w2) := step E now t1 w1 in
     step E now t2 w2) = (TDone r, w').
Proof.
  cbn [step]. destruct (map_get _ _); [by eexists _, _|].
  cbn [step]. destruct (TradingSession.findActiveSession _ _ _ _); [|by eexists _, _].
  destruct (getBrokerConfig E b); [|by eexists _, _].
  destruct (BrokerFactory.createBroker b a); [|by eexists _, _].
  destruct (String.eqb b "zerodha"); [|by eexists _, _].
  destruct (ZerodhaBroker.connect_begin _) as [[e b']|b']; [by eexists _, _|].
  cbn [step]. destruct (heap _ !! _); [|by eexists _, _].
  destruct (ZerodhaBroker.connect_end _ _) as [[]?]; by eexists _, _.
Qed.

(** A cache miss without an active session. *)
Lemma getBrokerInstance_no_session (E : Env) (now : Z) (u b : string) (w : World) :
  map_get (sessionKey u b) (activeBrokers w) = None ->
  TradingSession.findActiveSession now u b (sessions w) = None ->
  getBrokerInstance E now u b w
  = (Throw ("Failed to get broker instance: No active " ++ b ++ " session found"),
     emit (DbFindActiveSession u b) w).
Proof.
  intros Hmiss Hnone. unfold getBrokerInstance. simpl. rewrite Hmiss. simpl.
  by rewrite Hnone.
Qed.

Lemma createBroker_zerodha (cfg : BrokerConfig) :
  BrokerFactory.createBroker "zerodha" cfg = Ok (ZerodhaBroker.constructor cfg).
Proof. reflexivity. Qed.

(** A cache miss with an active zerodha session and a handshake that
    succeeds: one query, one handshake, one new instance, cached. *)
Lemma getBrokerInstance_miss (E : Env) (now : Z) (u : string) (w : World)
      (s : Session) (profile : string) :
  map_get (sessionKey u "zerodha") (activeBrokers w) = None ->
  TradingSession.findActiveSession now u "zerodha" (sessions w) = Some s ->
  s_accessToken s <> "" ->
  kc_getProfile E (Some (s_accessToken s)) = Ok profile ->
  getBrokerInstance E now u "zerodha" w
  = (Ok (length (heap w)),
     mkWorld (map_set (sessionKey u "zerodha") (length (heap w)) (activeBrokers w))
             (heap w ++ [fresh_broker E (s_accessToken s)])
             (sessions w)
             (trace w ++ [DbFindActiveSession u "zerodha";
                          KiteGetProfile (Some (s_accessToken s))])
             (console w)).
Proof.
  intros Hmiss Hs Htok Hprof. unfold getBrokerInstance.
  cbn [step]. rewrite Hmiss. cbn [step emit sessions].
  rewrite Hs. cbn [getBrokerConfig String.eqb Ascii.eqb Bool.eqb].
  rewrite createBroker_zerodha.
  unfold ZerodhaBroker.connect_begin, ZerodhaBroker.setAccessToken,
    ZerodhaBroker.constructor, ZerodhaBroker.no_token.
  cbn [accessToken config isConnected ticker subscribedInstruments kc_token].
  destruct (String.eqb (s_accessToken s) "") eqn:Hempty.
  { apply String.eqb_eq in Hempty. done. }
  cbn [step heap emit with_heap].
  rewrite list_lookup_middle by done.
  cbn [kc_token ZerodhaBroker.connect_end]. rewrite Hprof.
  cbn [ZerodhaBroker.connect_end ZerodhaBroker.set_isConnected].
  f_equal. unfold with_pool, with_heap, fresh_broker. cbn.
  f_equal.
  - replace (length (heap w)) with (length (heap w) + 0)%nat at 1 by lia.
    by rewrite insert_app_r.
  - by rewrite <- app_assoc.
Qed.

End PoolFacts.

Module SessionFacts.
Import TradingSession.

Lemma find_none_iff {A} (f : A -> bool) (l : list A) :
  find f l = None <-> forall x, x ∈ l -> f x = false.
Proof.
  induction l as [|a l IH]; simpl.
  - split; [intros _ x Hx; by apply elem_of_nil in Hx | done].
  - destruct (f a) eqn:Hfa.
    + split; [done|]. intros H. specialize (H a). rewrite Hfa in H.
      by discriminate H; left.
    + rewrite IH. split.
      * intros H x Hx. apply elem_of_cons in Hx as [-> | Hx]; auto.
      * intros H x Hx. apply H. by right.
Qed.

Lemma matches_true (now : Z) (u b : string) (s : Session) :
  matches now u b s = true <->
  s_userId s = u /\ s_brokerType s = b /\ s_isActive s = true /\ (now < s_expiresAt s)%Z.
Proof.
  unfold matches. rewrite !andb_true_iff, !String.eqb_eq, Z.ltb_lt. tauto.
Qed.

Lemma findActiveSession_none (now : Z) (u b : string) (store : list Session) :
  findActiveSession now u b store = None <-> no_usable_session now u b store.
Proof.
  unfold findActiveSession, no_usable_session. rewrite find_none_iff. split.
  - intros H s Hs Hu Hb. specialize (H s Hs).
    destruct (s_isActive s) eqn:Ha; [|by left]. right.
    destruct (Z.ltb_spec now (s_expiresAt s)) as [Hlt|Hge]; [|lia].
    assert (matches now u b s = true) by (apply matches_true; auto).
    congruence.
  - intros H s Hs. destruct (matches now u b s) eqn:Hm; [|done].
    apply matches_true in Hm as (Hu & Hb & Ha & Hlt).
    destruct (H s Hs Hu Hb) as [Hina | Hexp]; [congruence | lia].
Qed.

Lemma findActiveSession_some (now : Z) (u b : string) (store : list Session) :
  is_Some (findActiveSession now u b store) <-> session_usable now u b store.
Proof.
  unfold session_usable. split.
  - intros [s Hs]. unfold findActiveSession in Hs.
    pose proof (find_some _ _ Hs) as [Hin Hm].
    exists s. split; [by apply list_elem_of_In|]. by apply matches_true.
  - intros (s & Hin & Hrest).
    destruct (findActiveSession now u b store) eqn:Hf; [by eexists|].
    apply findActiveSession_none in Hf.
    destruct Hrest as (Hu & Hb & Ha & Hlt).
    destruct (Hf s Hin Hu Hb); [congruence | lia].
Qed.

(** Marking the expired sessions inactive does not change which session
    the query finds at the same instant. *)
Lemma findActiveSession_cleanup (now : Z) (u b : string) (store : list Session) :
  findActiveSession now u b (cleanupExpiredSessions now store)
  = findActiveSession now u b store.
Proof.
  unfold findActiveSession, cleanupExpiredSessions.
  induction store as [|s store IH]; simpl; [done|].
  destruct (Z.leb_spec (s_expiresAt s) now) as [Hexp|Hlive].
  - assert (matches now u b s = false) as ->.
    { unfold matches. destruct (Z.ltb_spec now (s_expiresAt s)); [lia|].
      by rewrite andb_false_r. }
    unfold matches at 1. simpl. rewrite andb_false_r. simpl. exact IH.
  - destruct (matches now u b s); [done | exact IH].
Qed.

End SessionFacts.

Module HandleFacts.
Import TradingService PoolFacts.

(** C2, as stated, fails: with no session at all and with an expired
    session the caller gets the very same error. *)
Lemma expired_and_missing_same_error :
  (getBrokerInstance kite_ok 1000 "u1" "zerodha" (world_of [])).1
  = Throw "Failed to get broker instance: No active zerodha session found"
  /\ (getBrokerInstance kite_ok 1000 "u1" "zerodha" (world_of [expired_u1])).1
     = (getBrokerInstance kite_ok 1000 "u1" "zerodha" (world_of [])).1.
Proof. split; reflexivity. Qed.

(** C2 (amended): when no handle is cached for the key and the store has
    no session for it, or only inactive or expired ones, the call fails
    with the single error "No active <brokerType> session found"; the
    cases are not told apart, and no handshake is made. *)
Theorem getBrokerInstance_unauthenticated
        (E : Env) (now : Z) (u b : string) (w : World) :
  map_get (sessionKey u b) (activeBrokers w) = None ->
  no_usable_session now u b (sessions w) ->
  getBrokerInstance E now u b w
  = (Throw ("Failed to get broker instance: No active " ++ b ++ " session found"),
     emit (DbFindActiveSession u b) w).
Proof.
  intros Hmiss Hno. apply getBrokerInstance_no_session; [done|].
  by apply SessionFacts.findActiveSession_none.
Qed.

(** The only session of u1 expired at 500 and the call is made at 1000. *)
Lemma getBrokerInstance_unauthenticated_witness :
  getBrokerInstance kite_ok 1000 "u1" "zerodha" (world_of [expired_u1])
  = (Throw "Failed to get broker instance: No active zerodha session found",
     emit (DbFindActiveSession "u1" "zerodha") (world_of [expired_u1])).
Proof.
  apply (getBrokerInstance_unauthenticated kite_ok 1000 "u1" "zerodha"
                                           (world_of [expired_u1])).
  - reflexivity.
  - intros s Hs _ _. right.
    apply list_elem_of_singleton in Hs. subst s. simpl. lia.
Defined.

(** C1, as stated, fails: two overlapping calls for one key both miss the
    cache, both perform the handshake, and receive different handles. *)
Lemma overlapping_calls_two_handshakes :
  overlapped.1 = [TDone (Ok 0%nat); TDone (Ok 1%nat)]
  /\ handshakes overlapped.2 = 2%nat
  /\ activeBrokers overlapped.2 = [("u1_zerodha", 1%nat)].
Proof. repeat split; reflexivity. Qed.

Lemma sequential_hits (E : Env) (now : Z) (n : nat) (u b : string) (w : World) (r : nat) :
  map_get (sessionKey u b) (activeBrokers w) = Some r ->
  sequential E now n u b w = (replicate n (Ok r), w).
Proof.
  intros Hhit. induction n as [|n IH]; simpl; [done|].
  rewrite (getBrokerInstance_hit E now u b w r Hhit). by rewrite IH.
Qed.

(** C1 (amended): [n >= 1] calls for one key made one after the other,
    each awaited before the next, with an active session and a handshake
    that succeeds, perform exactly one handshake, and every caller
    receives the same handle, which is the cached one; the cache entries of
    the other keys are not touched. *)
Theorem sequential_calls_one_handshake
        (E : Env) (now : Z) (n : nat) (u : string) (w : World)
        (s : Session) (profile : string) :
  (1 <= n)%nat ->
  map_get (sessionKey u "zerodha") (activeBrokers w) = None ->
  TradingSession.findActiveSession now u "zerodha" (sessions w) = Some s ->
  s_accessToken s <> "" ->
  kc_getProfile E (Some (s_accessToken s)) = Ok profile ->
  let handle := length (heap w) in
  (sequential E now n u "zerodha" w).1 = replicate n (Ok handle) /\
  handshakes (sequential E now n u "zerodha" w).2 = (handshakes w + 1)%nat /\
  map_get (sessionKey u "zerodha")
          (activeBrokers (sequential E now n u "zerodha" w).2) = Some handle /\
  forall key, key <> sessionKey u "zerodha" ->
    map_get key (activeBrokers (sequential E now n u "zerodha" w).2)
    = map_get key (activeBrokers w).
Proof.
  intros Hn Hmiss Hs Htok Hprof handle.
  destruct n as [|n]; [lia|]. cbn [sequential].
  rewrite (getBrokerInstance_miss E now u w s profile Hmiss Hs Htok Hprof).
  fold handle.
  set (w1 := mkWorld _ _ _ _ _).
  assert (map_get (sessionKey u "zerodha") (activeBrokers w1) = Some handle) as Hhit.
  { apply map_get_set_eq. }
  rewrite (sequential_hits E now n u "zerodha" w1 handle Hhit). cbn [fst snd].
  split; [done|]. split; [|split; [done|]].
  - unfold handshakes, w1. cbn [trace].
    rewrite List.filter_app, length_app. reflexivity.
  - intros key Hne. unfold w1. cbn [activeBrokers].
    apply map_get_set_ne. congruence.
Qed.

(** Three calls in a row for u1, who has an active session. *)
Lemma sequential_calls_one_handshake_witness :
  (sequential kite_ok 1000 3 "u1" "zerodha" (world_of [session_u1])).1
  = [Ok 0%nat; Ok 0%nat; Ok 0%nat]
  /\ handshakes (sequential kite_ok 1000 3 "u1" "zerodha" (world_of [session_u1])).2
     = 1%nat.
Proof.
  destruct (sequential_calls_one_handshake kite_ok 1000 3 "u1"
              (world_of [session_u1]) session_u1 "profile")
    as (H1 & H2 & _).
  - lia.
  - reflexivity.
  - reflexivity.
  - discriminate.
  - reflexivity.
  - split; [exact H1 | exact H2].
Defined.

End HandleFacts.

(** ** TradingService.placeOrder and validateOrderParams *)

Module OrderFacts.
Import TradingService PoolFacts.

Lemma check_required_throw (fields : list string) (op : gmap string JsValue) (e : string) :
  check_required fields op = Throw e ->
  exists f, f ∈ fields /\ truthy (js_get op f) = false /\
            e = "Missing required field: " ++ f.
Proof.
  induction fields as [|f fields IH]; simpl; [done|].
  destruct (truthy (js_get op f)) eqn:Ht; simpl.
  - intros H. destruct (IH H) as (g & Hg & Hrest). exists g. split; [by right | done].
  - intros [= <-]. exists f. split; [by left | done].
Qed.

Lemma check_required_ok (fields : list string) (op : gmap string JsValue) :
  check_required fields op = Ok tt <->
  forall f, f ∈ fields -> truthy (js_get op f) = true.
Proof.
  induction fields as [|f fields IH]; simpl.
  - split; [intros _ f Hf; by apply elem_of_nil in Hf | done].
  - destruct (truthy (js_get op f)) eqn:Ht; simpl.
    + rewrite IH. split.
      * intros H g Hg. apply elem_of_cons in Hg as [-> | Hg]; auto.
      * intros H g Hg. apply H. by right.
    + split; [done|]. intros H. specialize (H f). rewrite Ht in H.
      by discriminate H; left.
Qed.

Lemma check_enum_throw (f : string) (valid : list string)
      (op : gmap string JsValue) (e : string) :
  check_enum f valid op = Throw e ->
  includes valid (js_get op f) = false /\
  e = "Invalid " ++ f ++ ". Must be one of: " ++ join ", " valid.
Proof.
  unfold check_enum. destruct (includes valid (js_get op f)); simpl; [done|].
  by intros [= <-].
Qed.

Lemma check_enum_ok (f : string) (valid : list string) (op : gmap string JsValue) :
  includes valid (js_get op f) = true -> check_enum f valid op = Ok tt.
Proof. unfold check_enum. by intros ->. Qed.

(** A rejection names a field that is indeed missing or out of its
    enumeration. *)
Lemma validate_sound (op : gmap string JsValue) (e : string) :
  validateOrderParams "zerodha" op = Throw e ->
  exists f,
    (missing_field op f /\ e = "Missing required field: " ++ f) \/
    (exists valid, invalid_enum op f valid /\
       e = "Invalid " ++ f ++ ". Must be one of: " ++ join ", " valid).
Proof.
  unfold validateOrderParams. cbn [String.eqb Ascii.eqb Bool.eqb].
  destruct (check_required requiredFields op) as [[]|e0] eqn:Hreq.
  2:{ intros [= <-]. apply check_required_throw in Hreq as (f & Hf & Ht & ->).
      exists f. left. by split. }
  unfold invalid_enum, enum_table.
  destruct (check_enum "variety" _ op) as [[]|e1] eqn:H1.
  2:{ intros [= <-]. apply check_enum_throw in H1 as [Hi ->].
      exists "variety". right. eexists. split; [|done]. split; [|done].
      repeat constructor. }
  destruct (check_enum "transaction_type" _ op) as [[]|e2] eqn:H2.
  2:{ intros [= <-]. apply check_enum_throw in H2 as [Hi ->].
      exists "transaction_type". right. eexists. split; [|done]. split; [|done].
      repeat constructor. }
  destruct (check_enum "product" _ op) as [[]|e3] eqn:H3.
  2:{ intros [= <-]. apply check_enum_throw in H3 as [Hi ->].
      exists "product". right. eexists. split; [|done]. split; [|done].
      repeat constructor. }
  intros H4. apply check_enum_throw in H4 as [Hi ->].
  exists "order_type". right. eexists. split; [|done]. split; [|done].
  repeat constructor.
Qed.

(** Every missing required field and every value outside its enumeration
    is rejected. *)
Lemma validate_complete (op : gmap string JsValue) (f : string) :
  missing_field op f \/ (exists valid, invalid_enum op f valid) ->
  is_ok (validateOrderParams "zerodha" op) = false.
Proof.
  unfold validateOrderParams. cbn [String.eqb Ascii.eqb Bool.eqb].
  intros H.
  destruct (check_required requiredFields op) as [[]|e0] eqn:Hreq; [|done].
  destruct H as [[Hf Ht] | (valid & Hin & Hinc)].
  { rewrite check_required_ok in Hreq. rewrite (Hreq f Hf) in Ht. done. }
  unfold enum_table in Hin.
  repeat (apply elem_of_cons in Hin as [[= -> ->] | Hin]);
    [ | | | | by apply elem_of_nil in Hin].
  - unfold check_enum. by rewrite Hinc.
  - destruct (check_enum "variety" _ op) as [[]|]; [|done].
    unfold check_enum. by rewrite Hinc.
  - destruct (check_enum "variety" _ op) as [[]|]; [|done].
    destruct (check_enum "transaction_type" _ op) as [[]|]; [|done].
    unfold check_enum. by rewrite Hinc.
  - destruct (check_enum "variety" _ op) as [[]|]; [|done].
    destruct (check_enum "transaction_type" _ op) as [[]|]; [|done].
    destruct (check_enum "product" _ op) as [[]|]; [|done].
    unfold check_enum. by rewrite Hinc.
Qed.

Lemma dispatches_emit (c : IO) (w : World) :
  is_place_order c = false -> dispatches (emit c w) = dispatches w.
Proof.
  intros Hc. unfold dispatches, emit. cbn [trace].
  rewrite List.filter_app. simpl. rewrite Hc. apply app_nil_r.
Qed.

(** A turn of [getBrokerInstance] never dispatches an order. *)
Lemma step_dispatches (E : Env) (now : Z) (t : Task) (w : World) :
  dispatches (step E now t w).2 = dispatches w.
Proof.
  destruct t as [u b | u b key | key r | r]; cbn [step].
  - destruct (map_get _ _); [done|]. by apply dispatches_emit.
  - destruct (TradingSession.findActiveSession _ _ _ _); [|done].
    destruct (getBrokerConfig E b); [|done].
    destruct (BrokerFactory.createBroker b a); [|done].
    destruct (String.eqb b "zerodha"); [|done].
    destruct (ZerodhaBroker.connect_begin _) as [[e b']|b']; [done|].
    cbn [snd]. by rewrite dispatches_emit.
  - destruct (heap w !! r); [|done].
    by destruct (ZerodhaBroker.connect_end _ _) as [[]?].
  - done.
Qed.

Lemma getBrokerInstance_dispatches (E : Env) (now : Z) (u b : string) (w : World) :
  dispatches (getBrokerInstance E now u b w).2 = dispatches w.
Proof.
  unfold getBrokerInstance.
  pose proof (step_dispatches E now (TStart u b) w) as H1.
  destruct (step E now (TStart u b) w) as [t1 w1].
  pose proof (step_dispatches E now t1 w1) as H2.
  destruct (step E now t1 w1) as [t2 w2].
  pose proof (step_dispatches E now t2 w2) as H3.
  destruct (step E now t2 w2) as [t3 w3].
  cbn [snd] in *. destruct t3; cbn [snd]; congruence.
Qed.

(** C5, as stated, fails: on a cache miss the connect handshake goes out
    before the order is validated, so a rejected order has already cost a
    database query and a remote call. *)
Lemma rejected_order_after_handshake :
  (placeOrder kite_ok 1000 "u1" "zerodha" order_hold (world_of [session_u1])).1
  = Throw "Failed to place order: Invalid transaction_type. Must be one of: BUY, SELL"
  /\ trace (placeOrder kite_ok 1000 "u1" "zerodha" order_hold (world_of [session_u1])).2
     = [DbFindActiveSession "u1" "zerodha"; KiteGetProfile (Some "tok")].
Proof. split; vm_compute; reflexivity. Qed.

(** The calls [ZerodhaBroker.placeOrder] issues: none, or the one
    dispatch. *)
Lemma broker_placeOrder_io (E : Env) (op : gmap string JsValue) (b : Broker) :
  (ZerodhaBroker.placeOrder E op b).2 = [] \/
  (ZerodhaBroker.placeOrder E op b).2 = [KitePlaceOrder op].
Proof.
  unfold ZerodhaBroker.placeOrder.
  destruct (ZerodhaBroker._ensureConnected b); [|by left].
  destruct (kc_placeOrder E op); by right.
Qed.

(** C5 (amended): [placeOrder] first obtains the handle, then validates,
    then dispatches.  Whatever the order is, the state the call leaves is
    the one [getBrokerInstance] leaves (on a cache miss: after the session
    query and the connect handshake) followed by at most the one dispatch,
    and a failure to obtain the handle is the error of the call.  Once the
    handle is obtained, every missing required field and every value
    outside its enumeration is rejected with an error naming such a
    field, and the order is never dispatched: the call leaves exactly the
    state [getBrokerInstance] leaves, which on a cache miss with an active
    session holds the query and the handshake, and with a cached handle
    is the state before the call.  In particular "HOLD" is rejected
    naming transaction_type, and an absent quantity is rejected naming
    quantity when the fields checked before it are present. *)
Theorem placeOrder_validates_before_dispatch
        (E : Env) (now : Z) (u : string) (op : gmap string JsValue) (w : World) :
  (forall e, validateOrderParams "zerodha" op = Throw e ->
     (exists f,
        (missing_field op f /\ e = "Missing required field: " ++ f) \/
        (exists valid, invalid_enum op f valid /\
           e = "Invalid " ++ f ++ ". Must be one of: " ++ join ", " valid)) /\
     is_ok (placeOrder E now u "zerodha" op w).1 = false /\
     dispatches (placeOrder E now u "zerodha" op w).2 = dispatches w /\
     (forall r, map_get (sessionKey u "zerodha") (activeBrokers w) = Some r ->
        placeOrder E now u "zerodha" op w = (Throw ("Failed to place order: " ++ e), w)) /\
     placeOrder E now u "zerodha" op w
     = (Throw ("Failed to place order: " ++
               match (getBrokerInstance E now u "zerodha" w).1 with
               | Ok _ => e
               | Throw e' => e'
               end),
        (getBrokerInstance E now u "zerodha" w).2) /\
     (forall s profile,
        map_get (sessionKey u "zerodha") (activeBrokers w) = None ->
        TradingSession.findActiveSession now u "zerodha" (sessions w) = Some s ->
        s_accessToken s <> "" ->
        kc_getProfile E (Some (s_accessToken s)) = Ok profile ->
        placeOrder E now u "zerodha" op w
        = (Throw ("Failed to place order: " ++ e),
           mkWorld (map_set (sessionKey u "zerodha") (length (heap w)) (activeBrokers w))
                   (heap w ++ [fresh_broker E (s_accessToken s)])
                   (sessions w)
                   (trace w ++ [DbFindActiveSession u "zerodha";
                                KiteGetProfile (Some (s_accessToken s))])
                   (console w)) /\
        handshakes (placeOrder E now u "zerodha" op w).2 = (handshakes w + 1)%nat))
  /\
  (forall f, missing_field op f \/ (exists valid, invalid_enum op f valid) ->
     is_ok (validateOrderParams "zerodha" op) = false)
  /\
  ((forall f, f ∈ requiredFields -> truthy (js_get op f) = true) ->
   includes validVarieties (js_get op "variety") = true ->
   js_get op "transaction_type" = JString "HOLD" ->
   validateOrderParams "zerodha" op
   = Throw "Invalid transaction_type. Must be one of: BUY, SELL")
  /\
  ((forall f, f ∈ ["variety"; "exchange"; "tradingsymbol"; "transaction_type"] ->
      truthy (js_get op f) = true) ->
   op !! "quantity" = None ->
   validateOrderParams "zerodha" op = Throw "Missing required field: quantity")
  /\
  (forall e', (getBrokerInstance E now u "zerodha" w).1 = Throw e' ->
     placeOrder E now u "zerodha" op w
     = (Throw ("Failed to place order: " ++ e'),
        (getBrokerInstance E now u "zerodha" w).2))
  /\
  (exists io,
     (placeOrder E now u "zerodha" op w).2
     = fold_left (fun w c => emit c w) io (getBrokerInstance E now u "zerodha" w).2 /\
     (io = [] \/ io = [KitePlaceOrder op])).
Proof.
  split; [|split; [|split; [|split; [|split]]]].
  - intros e He. split; [by apply validate_sound|].
    assert (placeOrder E now u "zerodha" op w
            = (Throw ("Failed to place order: " ++
                      match (getBrokerInstance E now u "zerodha" w).1 with
                      | Ok _ => e
                      | Throw e' => e'
                      end),
               (getBrokerInstance E now u "zerodha" w).2)) as Heq.
    { unfold placeOrder.
      destruct (getBrokerInstance E now u "zerodha" w) as [[r|e'] w1]; [|done].
      by rewrite He. }
    pose proof (getBrokerInstance_dispatches E now u "zerodha" w) as Hd.
    split; [|split; [|split; [|split]]].
    + by rewrite Heq.
    + by rewrite Heq.
    + intros r Hr. rewrite Heq.
      by rewrite (PoolFacts.getBrokerInstance_hit E now u "zerodha" w r Hr).
    + exact Heq.
    + intros s profile Hmiss Hs Htok Hprof. rewrite Heq.
      rewrite (PoolFacts.getBrokerInstance_miss E now u w s profile Hmiss Hs Htok Hprof).
      cbn [fst snd]. split; [done|].
      unfold handshakes. cbn [trace]. rewrite List.filter_app, length_app. cbn. lia.
  - apply validate_complete.
  - intros Hreq Hvar Hhold.
    unfold validateOrderParams. cbn [String.eqb Ascii.eqb Bool.eqb].
    apply check_required_ok in Hreq. rewrite Hreq.
    rewrite (check_enum_ok _ _ _ Hvar).
    unfold check_enum at 1. by rewrite Hhold.
  - intros Hpre Hq.
    unfold validateOrderParams. cbn [String.eqb Ascii.eqb Bool.eqb].
    unfold requiredFields. cbn [check_required].
    rewrite !Hpre by (repeat constructor). cbn [negb].
    unfold js_get at 1. by rewrite Hq.
  - intros e' He'. unfold placeOrder.
    destruct (getBrokerInstance E now u "zerodha" w) as [[r|e0] w1]; [done|].
    cbn [fst snd] in *. by injection He' as ->.
  - unfold placeOrder.
    destruct (getBrokerInstance E now u "zerodha" w) as [[r|e0] w1]; cbn [fst snd];
      [|by exists []; split; [|left]].
    destruct (validateOrderParams "zerodha" op); [|by exists []; split; [|left]].
    destruct (heap w1 !! r) as [b|]; [|by exists []; split; [|left]].
    pose proof (broker_placeOrder_io E op b) as Hio.
    destruct (ZerodhaBroker.placeOrder E op b) as [[id|e0] io]; cbn [fst snd] in *;
      by exists io.
Qed.

(** An order with transaction_type HOLD on a cached handle: nothing leaves
    the process; an order without quantity; and the order with HOLD on a
    cold cache: the session query and the handshake have gone out and the
    handle is cached when the order is rejected. *)
Lemma placeOrder_validates_before_dispatch_witness :
  placeOrder kite_ok 1000 "u1" "zerodha" order_hold world_cached
  = (Throw "Failed to place order: Invalid transaction_type. Must be one of: BUY, SELL",
     world_cached)
  /\ validateOrderParams "zerodha" (delete "quantity" order_hold)
     = Throw "Missing required field: quantity"
  /\ placeOrder kite_ok 1000 "u1" "zerodha" order_hold (world_of [session_u1])
     = (Throw "Failed to place order: Invalid transaction_type. Must be one of: BUY, SELL",
        mkWorld [("u1_zerodha", 0%nat)] [fresh_broker kite_ok "tok"] [session_u1]
                [DbFindActiveSession "u1" "zerodha"; KiteGetProfile (Some "tok")] []).
Proof.
  split; [|split].
  - destruct (placeOrder_validates_before_dispatch kite_ok 1000 "u1" order_hold
                world_cached) as (H & _).
    destruct (H "Invalid transaction_type. Must be one of: BUY, SELL")
      as (_ & _ & _ & Hhit & _); [vm_compute; reflexivity|].
    apply (Hhit 0%nat). reflexivity.
  - destruct (placeOrder_validates_before_dispatch kite_ok 1000 "u1"
                (delete "quantity" order_hold) world_cached) as (_ & _ & _ & H & _).
    apply H.
    + intros f Hf.
      repeat (apply elem_of_cons in Hf as [-> | Hf]; [vm_compute; reflexivity|]).
      by apply elem_of_nil in Hf.
    + vm_compute. reflexivity.
  - destruct (placeOrder_validates_before_dispatch kite_ok 1000 "u1" order_hold
                (world_of [session_u1])) as (H & _).
    destruct (H "Invalid transaction_type. Must be one of: BUY, SELL")
      as (_ & _ & _ & _ & _ & Hcold); [vm_compute; reflexivity|].
    assert (s_accessToken session_u1 <> "") as Htok by discriminate.
    destruct (Hcold session_u1 "profile" eq_refl eq_refl Htok eq_refl) as [Heq _].
    exact Heq.
Defined.

End OrderFacts.

(** ** Subscriptions across a replacement of the connection *)

Module ReplacementFacts.
Import TradingService PoolFacts.

(** C7, as stated, fails: after the connection of u1 was torn down and
    replaced, the stream of the new instance is connected with nothing
    subscribed on it, and the subscription list is empty. *)
Lemma replacement_loses_subscriptions :
  (getSubscribedInstruments kite_ok 1000 "u1" "zerodha" world_subscribed).1
  = Ok [256265%Z]
  /\ (getSubscribedInstruments kite_ok 1000 "u1" "zerodha" world_replaced).1 = Ok []
  /\ map (fun b => option_map tk_wire (ticker b)) (heap world_replaced)
     = [None; Some [TkConnect]]
  /\ activeBrokers world_replaced = [("u1_zerodha", 1%nat)].
Proof. repeat split; vm_compute; reflexivity. Qed.

(** C7 (amended): the subscription set belongs to the instance.  When the
    key has no cached instance (the old one was torn down), connecting the
    stream builds a new instance whose set is empty and whose ticker has
    received [connect()] only; the earlier instances are left as they
    were, and the caller has to subscribe again. *)
Theorem connectWebSocket_on_replacement
        (E : Env) (now : Z) (u : string) (w : World) (s : Session) (profile : string) :
  map_get (sessionKey u "zerodha") (activeBrokers w) = None ->
  TradingSession.findActiveSession now u "zerodha" (sessions w) = Some s ->
  s_accessToken s <> "" ->
  kc_getProfile E (Some (s_accessToken s)) = Ok profile ->
  new_ticker_throws E MConnect = None ->
  exists w' b t,
    connectWebSocket E now u "zerodha" w = (Ok tt, w') /\
    map_get (sessionKey u "zerodha") (activeBrokers w') = Some (length (heap w)) /\
    heap w' = (heap w ++ [b])%list /\
    subscribedInstruments b = [] /\
    ticker b = Some t /\
    tk_wire t = [TkConnect].
Proof.
  intros Hmiss Hs Htok Hprof Hconn.
  unfold connectWebSocket, on_broker.
  rewrite (getBrokerInstance_miss E now u w s profile Hmiss Hs Htok Hprof).
  cbn [heap]. rewrite list_lookup_middle by done.
  unfold ZerodhaBroker.connectWebSocket, fresh_broker. cbn [accessToken].
  destruct (String.eqb (s_accessToken s) "") eqn:Hempty.
  { apply String.eqb_eq in Hempty. done. }
  unfold ticker_call. cbn [tk_throws]. rewrite Hconn.
  eexists _, _, _. split; [reflexivity|].
  cbn [with_heap activeBrokers heap].
  split; [apply map_get_set_eq|].
  split.
  { replace (length (heap w)) with (length (heap w) + 0)%nat at 1 by lia.
    rewrite insert_app_r. reflexivity. }
  cbn. done.
Qed.

(** The stream is connected for u1 after the instance on which the user
    had subscribed to 256265 was torn down: the torn-down instance still
    holds its set, the replacement is a second instance with an empty set
    whose ticker has been asked to connect and nothing else. *)
Lemma connectWebSocket_on_replacement_witness :
  map subscribedInstruments (heap world_torn_down) = [[256265%Z]] /\
  activeBrokers world_torn_down = [] /\
  exists w' b t,
    connectWebSocket kite_ok 1000 "u1" "zerodha" world_torn_down = (Ok tt, w') /\
    map_get (sessionKey "u1" "zerodha") (activeBrokers w') = Some 1%nat /\
    heap w' = (heap world_torn_down ++ [b])%list /\
    subscribedInstruments b = [] /\
    ticker b = Some t /\
    tk_wire t = [TkConnect].
Proof.
  split; [reflexivity|]. split; [reflexivity|].
  assert (s_accessToken renewed_u1 <> "") as Htok by discriminate.
  exact (connectWebSocket_on_replacement kite_ok 1000 "u1" world_torn_down
           renewed_u1 "profile" eq_refl eq_refl Htok eq_refl eq_refl).
Defined.

End ReplacementFacts.

(** ** TradingService.cleanupExpiredSessions *)

Module SweepFacts.
Import TradingService DisconnectFacts.

Lemma split_no_underscore (s : string) :
  no_underscore s = true -> split_underscore s = [s].
Proof.
  induction s as [|c s IH]; simpl; [done|].
  intros [Hc Hs]%andb_true_iff. apply negb_true_iff in Hc. rewrite Hc.
  by rewrite (IH Hs).
Qed.

Lemma split_sessionKey (u b : string) :
  no_underscore u = true -> no_underscore b = true ->
  split_underscore (sessionKey u b) = [u; b].
Proof.
  intros Hu Hb. unfold sessionKey. induction u as [|c u IH]; simpl.
  - change ("" +:+ b) with b. by rewrite (split_no_underscore b Hb).
  - simpl in Hu. apply andb_true_iff in Hu as [Hc Hu].
    apply negb_true_iff in Hc. rewrite Hc. by rewrite (IH Hu).
Qed.

Lemma session_of_sessionKey (now : Z) (u b : string) (store : list Session) :
  no_underscore u = true -> no_underscore b = true ->
  session_of_key now (sessionKey u b) store
  = TradingSession.findActiveSession now u b store.
Proof.
  intros Hu Hb. unfold session_of_key. by rewrite (split_sessionKey u b Hu Hb).
Qed.

Lemma session_of_key_cleanup (now : Z) (key : string) (store : list Session) :
  session_of_key now key (TradingSession.cleanupExpiredSessions now store)
  = session_of_key now key store.
Proof.
  unfold session_of_key. destruct (split_underscore key) as [|u [|b rest]]; try done.
  apply SessionFacts.findActiveSession_cleanup.
Qed.

Lemma kept_cleanup (now : Z) (store : list Session) (e : string * nat) :
  kept now (TradingSession.cleanupExpiredSessions now store) e = kept now store e.
Proof. unfold kept. by rewrite session_of_key_cleanup. Qed.

Lemma map_get_elem {V} (k : string) (v : V) (m : list (string * V)) :
  NoDup (map fst m) -> map_get k m = Some v <-> (k, v) ∈ m.
Proof.
  induction m as [|[k' v'] m IH]; simpl; intros Hnd.
  - split; [done | intros H; by apply elem_of_nil in H].
  - apply NoDup_cons in Hnd as [Hnotin Hnd].
    destruct (String.eqb k k') eqn:Hk.
    + apply String.eqb_eq in Hk. subst k'. split.
      * intros [= ->]. by left.
      * intros [[= ->] | Hin]%elem_of_cons; [done|].
        exfalso. apply Hnotin. apply list_elem_of_fmap. by exists (k, v).
    + apply String.eqb_neq in Hk. rewrite (IH Hnd). split.
      * intros H. by right.
      * intros [[= -> ->] | Hin]%elem_of_cons; [done | done].
Qed.

Lemma map_delete_middle {V} (k : string) (v : V) (done rest : list (string * V)) :
  k ∉ map fst done ->
  map_delete k (done ++ (k, v) :: rest) = (done ++ rest)%list.
Proof.
  induction done as [|[k' v'] done IH]; simpl; intros Hnotin.
  - by rewrite String.eqb_refl.
  - apply not_elem_of_cons in Hnotin as [Hne Hnotin].
    destruct (String.eqb k k') eqn:Hk.
    + apply String.eqb_eq in Hk. done.
    + by rewrite (IH Hnotin).
Qed.

Lemma elem_of_filter_bool {A} (f : A -> bool) (l : list A) (x : A) :
  x ∈ List.filter f l <-> x ∈ l /\ f x = true.
Proof. rewrite !list_elem_of_In. apply filter_In. Qed.

Lemma NoDup_fst_filter {V} (f : string * V -> bool) (m : list (string * V)) :
  NoDup (map fst m) -> NoDup (map fst (List.filter f m)).
Proof.
  induction m as [|e m IH]; simpl; intros Hnd; [constructor|].
  apply NoDup_cons in Hnd as [Hnotin Hnd].
  destruct (f e); simpl; [|by apply IH].
  apply NoDup_cons. split; [|by apply IH].
  intros Hin. apply Hnotin.
  apply list_elem_of_fmap in Hin as (x & -> & Hx).
  apply elem_of_filter_bool in Hx as [Hx _].
  apply list_elem_of_fmap. by exists x.
Qed.


Lemma kept_true (now : Z) (store : list Session) (key : string) (r : nat) (s : Session) :
  session_of_key now key store = Some s -> kept now store (key, r) = true.
Proof. unfold kept. simpl. by intros ->. Qed.

Lemma kept_false (now : Z) (store : list Session) (key : string) (r : nat) :
  session_of_key now key store = None -> kept now store (key, r) = false.
Proof. unfold kept. simpl. by intros ->. Qed.

(** The loop when every disconnect it performs returns: the entries
    without an active session are gone, the instances behind them are
    disconnected, everything else is as before. *)
Lemma sweep_loop_ok (now : Z) (entries : list (string * nat)) :
  forall (done tail : list (string * nat)) (w : World),
    activeBrokers w = (done ++ entries ++ tail)%list ->
    NoDup (map fst (done ++ entries)) ->
    NoDup (map snd entries) ->
    (forall e, e ∈ entries -> kept now (sessions w) e = false ->
       exists b, heap w !! e.2 = Some b /\ disconnect_fault b = None) ->
    exists w',
      sweep_loop now entries w = (Ok tt, w') /\
      activeBrokers w'
      = (done ++ List.filter (kept now (sessions w)) entries ++ tail)%list /\
      sessions w' = sessions w /\
      console w' = console w /\
      (forall r, (forall e, e ∈ entries -> kept now (sessions w) e = false -> e.2 <> r) ->
                 heap w' !! r = heap w !! r) /\
      (forall e, e ∈ entries -> kept now (sessions w) e = false ->
         exists b', heap w' !! e.2 = Some b' /\ disconnected b').
Proof.
  induction entries as [|[key r] rest IH]; intros done tail w Hpool Hkeys Hrefs Hfault.
  { exists w. simpl. repeat split; try done.
    intros e He. by apply elem_of_nil in He. }
  cbn [sweep_loop]. cbn [sessions emit].
  apply NoDup_cons in Hrefs as [Hr_notin Hrefs].
  destruct (session_of_key now key (sessions w)) as [s|] eqn:Hk.
  - (* the entry is kept *)
    pose proof (kept_true now (sessions w) key r s Hk) as Hkept.
    destruct (IH (done ++ [(key, r)])%list tail (emit (query_of_key key) w))
      as (w' & Hrun & Hp & Hs & Hc & Hsame & Hdisc).
    + cbn [activeBrokers emit]. rewrite Hpool. by rewrite <- app_assoc.
    + by rewrite <- app_assoc.
    + done.
    + intros e He Hke. apply Hfault; [by right | done].
    + exists w'. split; [exact Hrun|]. cbn [sessions emit] in *.
      split. { rewrite Hp. cbn [List.filter]. rewrite Hkept.
               by rewrite <- app_assoc. }
      split; [done|]. split; [done|]. split.
      * intros r0 Hr0. apply Hsame. intros e He. apply Hr0. by right.
      * intros e [-> | He]%elem_of_cons Hke; [congruence|]. by apply Hdisc.
  - (* the entry is evicted *)
    pose proof (kept_false now (sessions w) key r Hk) as Hkept.
    destruct (Hfault (key, r)) as (b & Hb & Hnf); [by left | done |].
    cbn [heap emit]. simpl in Hb. rewrite Hb.
    rewrite (disconnect_ok b Hnf).
    set (b' := mkBroker (config b) false (kc_token b) None None
                        (subscribedInstruments b)).
    set (w2 := with_pool _ _).
    assert (key ∉ map fst done) as Hkey_notin.
    { rewrite map_app in Hkeys. apply NoDup_app in Hkeys as (_ & Hdisj & _).
      intros Hin. apply (Hdisj key Hin). simpl. by left. }
    destruct (IH done tail w2) as (w' & Hrun & Hp & Hs & Hc & Hsame & Hdisc).
    + unfold w2. cbn [activeBrokers with_pool with_heap emit]. rewrite Hpool.
      cbn [app]. by apply map_delete_middle.
    + rewrite map_app in Hkeys |- *. simpl in Hkeys.
      apply NoDup_app in Hkeys as (Hd & Hdisj & Hrest).
      apply NoDup_cons in Hrest as [_ Hrest].
      apply NoDup_app. split; [done|]. split; [|done].
      intros x Hx Hx'. apply (Hdisj x Hx). by right.
    + done.
    + intros e He Hke. unfold w2. cbn [heap with_pool with_heap emit sessions] in *.
      destruct (Hfault e) as (be & Hbe & Hnfe); [by right | done |].
      exists be. split; [|done].
      rewrite list_lookup_insert_ne; [done|].
      intros ->. apply Hr_notin. apply list_elem_of_fmap. by exists e.
    + exists w'. split; [exact Hrun|].
      unfold w2 in *. cbn [heap with_pool with_heap emit sessions console] in *.
      split. { rewrite Hp. cbn [List.filter]. by rewrite Hkept. }
      split; [done|]. split; [done|]. split.
      * intros r0 Hr0. rewrite Hsame.
        -- apply list_lookup_insert_ne. apply (Hr0 (key, r)); [by left | done].
        -- intros e He. apply Hr0. by right.
      * intros e [-> | He]%elem_of_cons Hke; [|by apply Hdisc].
        exists b'. split; [|done]. simpl. rewrite Hsame.
        -- apply list_lookup_insert_eq. by apply lookup_lt_Some in Hb.
        -- intros e He _ <-. apply Hr_notin. apply list_elem_of_fmap. by exists e.
Qed.


Lemma sweep_loop_app (now : Z) (l1 l2 : list (string * nat)) (w : World) :
  sweep_loop now (l1 ++ l2) w
  = match sweep_loop now l1 w with
    | (Ok _, w1) => sweep_loop now l2 w1
    | (Throw e, w1) => (Throw e, w1)
    end.
Proof.
  revert w. induction l1 as [|[key r] l1 IH]; intros w; [done|].
  cbn [app sweep_loop].
  destruct (session_of_key now key _); [apply IH|].
  destruct (heap _ !! r); [|done].
  destruct (ZerodhaBroker.disconnect _) as [[[]|e] b']; [apply IH | done].
Qed.

(** The loop stops at the first entry whose disconnect raises. *)
Lemma sweep_loop_stuck (now : Z) (pre post : list (string * nat))
      (key : string) (r : nat) (w : World) (b : Broker) (e : string) :
  activeBrokers w = (pre ++ (key, r) :: post)%list ->
  NoDup (map fst (activeBrokers w)) ->
  NoDup (map snd (activeBrokers w)) ->
  (forall x, x ∈ pre -> kept now (sessions w) x = false ->
     exists bx, heap w !! x.2 = Some bx /\ disconnect_fault bx = None) ->
  kept now (sessions w) (key, r) = false ->
  heap w !! r = Some b ->
  disconnect_fault b = Some e ->
  exists w',
    sweep_loop now (activeBrokers w) w
    = (Throw ("Failed to disconnect from Zerodha: " ++ e), w') /\
    activeBrokers w'
    = (List.filter (kept now (sessions w)) pre ++ (key, r) :: post)%list /\
    sessions w' = sessions w /\
    console w' = console w.
Proof.
  intros Hpool Hkeys Hrefs Hpre Hkept Hb Hfault.
  rewrite Hpool in Hkeys, Hrefs.
  assert (sweep_loop now (activeBrokers w) w
          = sweep_loop now (pre ++ (key, r) :: post) w) as ->
    by (by rewrite Hpool).
  rewrite sweep_loop_app.
  destruct (sweep_loop_ok now pre [] ((key, r) :: post) w)
    as (w1 & Hrun & Hp & Hs & Hc & Hsame & _).
  - by rewrite Hpool.
  - rewrite map_app in Hkeys. by apply NoDup_app in Hkeys as (? & _ & _).
  - rewrite map_app in Hrefs. by apply NoDup_app in Hrefs as (? & _ & _).
  - done.
  - rewrite Hrun. cbn [sweep_loop]. cbn [sessions emit heap].
    rewrite Hs. unfold kept in Hkept. simpl in Hkept.
    destruct (session_of_key now key (sessions w)); [done|].
    rewrite Hsame.
    2:{ intros x Hx _ Heq. rewrite map_app in Hrefs.
        apply NoDup_app in Hrefs as (_ & Hdisj & _).
        apply (Hdisj r).
        - apply list_elem_of_fmap. exists x. by split.
        - simpl. by left. }
    rewrite Hb. rewrite (disconnect_throws b e Hfault).
    eexists. split; [reflexivity|].
    cbn [activeBrokers with_heap emit sessions console].
    split; [exact Hp|]. by split.
Qed.


Lemma kept_usable (now : Z) (store : list Session) (u b : string) (r : nat) :
  no_underscore u = true -> no_underscore b = true ->
  kept now store (sessionKey u b, r) = true <-> session_usable now u b store.
Proof.
  intros Hu Hb. unfold kept. cbn [fst]. rewrite (session_of_sessionKey now u b store Hu Hb).
  rewrite <- SessionFacts.findActiveSession_some.
  destruct (TradingSession.findActiveSession now u b store).
  - split; [by eexists | done].
  - split; [done | by intros [? ?]].
Qed.

Lemma NoDup_snd_inj {A B} (l : list (A * B)) (x y : A * B) :
  NoDup (map snd l) -> x ∈ l -> y ∈ l -> x.2 = y.2 -> x = y.
Proof.
  induction l as [|z l IH]; simpl; intros Hnd Hx Hy Heq.
  { by apply elem_of_nil in Hx. }
  apply NoDup_cons in Hnd as [Hnotin Hnd].
  apply elem_of_cons in Hx as [-> | Hx]; apply elem_of_cons in Hy as [-> | Hy].
  - done.
  - exfalso. apply Hnotin. rewrite Heq. apply list_elem_of_fmap. by exists y.
  - exfalso. apply Hnotin. rewrite <- Heq. apply list_elem_of_fmap. by exists x.
  - by apply IH.
Qed.

Lemma world_mixed_wf : pool_wf world_mixed.
Proof.
  unfold pool_wf, world_mixed. cbn [activeBrokers heap map fst snd].
  split; [|split].
  - apply NoDup_cons. split; [|apply NoDup_singleton].
    intros H%list_elem_of_singleton. discriminate.
  - apply NoDup_cons. split; [|apply NoDup_singleton].
    intros H%list_elem_of_singleton. discriminate.
  - intros e He.
    apply elem_of_cons in He as [-> | He];
      [|apply list_elem_of_singleton in He as ->].
    + split; [by exists "u1", "zerodha" | by eexists].
    + split; [by exists "u2", "zerodha" | by eexists].
Qed.

Lemma world_stuck_wf : pool_wf world_stuck.
Proof.
  unfold pool_wf, world_stuck. cbn [activeBrokers heap map fst snd].
  split; [|split].
  - apply NoDup_cons. split; [|apply NoDup_singleton].
    intros H%list_elem_of_singleton. discriminate.
  - apply NoDup_cons. split; [|apply NoDup_singleton].
    intros H%list_elem_of_singleton. discriminate.
  - intros e He.
    apply elem_of_cons in He as [-> | He];
      [|apply list_elem_of_singleton in He as ->].
    + split; [by exists "u1", "zerodha" | by eexists].
    + split; [by exists "u2", "zerodha" | by eexists].
Qed.

(** C3, as stated, fails: u2 has no session at all, yet its handle is
    still cached after the sweep, because the disconnect of u1's handle
    raised before u2 was looked at. *)
Lemma sweep_leaves_sessionless_handle :
  sessions world_stuck = []
  /\ map_get "u2_zerodha" (activeBrokers (cleanupExpiredSessions 1000 world_stuck).2)
     = Some 1%nat
  /\ (heap (cleanupExpiredSessions 1000 world_stuck).2) !! 1%nat
     = Some (connected_broker None []).
Proof. repeat split; vm_compute; reflexivity. Qed.

(** C3 (amended): for every well-formed pool and every session store, a
    sweep in which every disconnect it performs returns evicts exactly the
    handles whose key has no usable session (none, inactive or expired):
    they are removed from the cache and left disconnected; every other
    handle stays cached and untouched. *)
Theorem sweep_evicts_exactly (now : Z) (w : World) :
  pool_wf w ->
  (forall u b r bk,
     map_get (sessionKey u b) (activeBrokers w) = Some r ->
     ~ session_usable now u b (sessions w) ->
     heap w !! r = Some bk -> disconnect_fault bk = None) ->
  exists w',
    cleanupExpiredSessions now w = (Ok (Some tt), w') /\
    forall u b r,
      no_underscore u = true -> no_underscore b = true ->
      (map_get (sessionKey u b) (activeBrokers w') = Some r <->
       map_get (sessionKey u b) (activeBrokers w) = Some r /\
       session_usable now u b (sessions w)) /\
      (map_get (sessionKey u b) (activeBrokers w) = Some r ->
       session_usable now u b (sessions w) -> heap w' !! r = heap w !! r) /\
      (map_get (sessionKey u b) (activeBrokers w) = Some r ->
       ~ session_usable now u b (sessions w) ->
       exists b', heap w' !! r = Some b' /\ disconnected b').
Proof.
  intros (Hkeys & Hrefs & Hwf) Hfault.
  unfold cleanupExpiredSessions.
  set (w0 := emit DbCleanupExpired _).
  assert (forall e, kept now (sessions w0) e = kept now (sessions w) e) as Hkept_eq.
  { intros e. apply kept_cleanup. }
  destruct (sweep_loop_ok now (activeBrokers w0) [] [] w0)
    as (w' & Hrun & Hp & _ & _ & Hsame & Hdisc).
  - cbn [app]. by rewrite app_nil_r.
  - done.
  - done.
  - intros e He Hke. rewrite Hkept_eq in Hke.
    destruct (Hwf e He) as [(u & b & Hkey & Hu & Hb) [bk Hbk]].
    exists bk. split; [done|].
    apply (Hfault u b e.2 bk); [| |done].
    + rewrite <- Hkey. apply map_get_elem; [done|]. by destruct e.
    + intros Hus. apply (kept_usable now (sessions w) u b e.2 Hu Hb) in Hus.
      destruct e as [k r]. simpl in *. subst k. congruence.
  - rewrite Hrun. exists w'. split; [done|].
    intros u b r Hu Hb.
    cbn [app] in Hp. rewrite app_nil_r in Hp.
    change (activeBrokers w0) with (activeBrokers w) in *.
    change (heap w0) with (heap w) in *.
    pose proof (kept_usable now (sessions w) u b r Hu Hb) as Hku.
    split; [|split].
    + rewrite Hp.
      rewrite (map_get_elem _ _ _ (NoDup_fst_filter _ _ Hkeys)).
      rewrite elem_of_filter_bool, Hkept_eq, Hku.
      by rewrite (map_get_elem _ _ _ Hkeys).
    + intros Hin Hus. apply Hsame. intros e He Hke Heq.
      apply (map_get_elem _ _ _ Hkeys) in Hin.
      assert (e = (sessionKey u b, r)) as ->.
      { by apply (NoDup_snd_inj (activeBrokers w)). }
      rewrite Hkept_eq in Hke. apply Hku in Hus. congruence.
    + intros Hin Hnus. apply (map_get_elem _ _ _ Hkeys) in Hin.
      apply (Hdisc (sessionKey u b, r) Hin).
      rewrite Hkept_eq. apply not_true_is_false. intros Hk. by apply Hku in Hk.
Qed.

(** A sweep at 1000 over the handles of u1 (session expired at 500) and u2
    (session valid until 2000). *)
Lemma sweep_evicts_exactly_witness :
  exists w',
    cleanupExpiredSessions 1000 world_mixed = (Ok (Some tt), w') /\
    (map_get (sessionKey "u1" "zerodha") (activeBrokers w') = Some 0%nat <->
     map_get (sessionKey "u1" "zerodha") (activeBrokers world_mixed) = Some 0%nat /\
     session_usable 1000 "u1" "zerodha" (sessions world_mixed)).
Proof.
  destruct (sweep_evicts_exactly 1000 world_mixed world_mixed_wf) as (w' & Hrun & H).
  - intros u b r bk Hget _ Hbk.
    unfold world_mixed in Hbk. cbn [heap] in Hbk.
    destruct r as [|[|r]]; cbn in Hbk; [| |done];
      injection Hbk as <-; reflexivity.
  - exists w'. split; [exact Hrun|].
    destruct (H "u1" "zerodha" 0%nat eq_refl eq_refl) as (Hiff & _). exact Hiff.
Defined.


(** C4, as stated, fails: the disconnect of u1's handle raises; u2 is
    never looked up and stays cached, and the caller gets [undefined], not
    a report of the failure. *)
Lemma sweep_stops_at_failed_disconnect :
  (cleanupExpiredSessions 1000 world_stuck3).1 = Ok None
  /\ activeBrokers (cleanupExpiredSessions 1000 world_stuck3).2
     = [("u1_zerodha", 1%nat); ("u2_zerodha", 2%nat)]
  /\ trace (cleanupExpiredSessions 1000 world_stuck3).2
     = [DbCleanupExpired; DbFindActiveSession "u0" "zerodha";
        DbFindActiveSession "u1" "zerodha"]
  /\ console (cleanupExpiredSessions 1000 world_stuck3).2
     = ["Cleanup expired sessions error: Failed to disconnect from Zerodha: socket hang up"].
Proof. repeat split; vm_compute; reflexivity. Qed.

(** C4 (amended): a failure while disconnecting a handle is caught inside
    the sweep and written to the console; it is not thrown, and nothing is
    collected for the caller, who receives [undefined] instead of
    [{ success: true }].  The handles visited before the failing one have
    been checked and evicted as usual. *)
Theorem sweep_disconnect_failure_logged
        (now : Z) (w : World) (pre post : list (string * nat))
        (key : string) (r : nat) (b : Broker) (e : string) :
  pool_wf w ->
  activeBrokers w = (pre ++ (key, r) :: post)%list ->
  (forall x bx, x ∈ pre -> kept now (sessions w) x = false ->
                heap w !! x.2 = Some bx -> disconnect_fault bx = None) ->
  kept now (sessions w) (key, r) = false ->
  heap w !! r = Some b ->
  disconnect_fault b = Some e ->
  exists w',
    cleanupExpiredSessions now w = (Ok None, w') /\
    console w'
    = (console w ++
       ["Cleanup expired sessions error: Failed to disconnect from Zerodha: " +:+ e])%list /\
    forall x, x ∈ pre -> (x ∈ activeBrokers w' <-> kept now (sessions w) x = true).
Proof.
  intros (Hkeys & Hrefs & Hwf) Hpool Hpre Hkept Hb Hfault.
  unfold cleanupExpiredSessions.
  set (w0 := emit DbCleanupExpired _).
  assert (forall x, kept now (sessions w0) x = kept now (sessions w) x) as Hkept_eq.
  { intros x. apply kept_cleanup. }
  destruct (sweep_loop_stuck now pre post key r w0 b e)
    as (w' & Hrun & Hp & _ & Hc); try done.
  - intros x Hx Hkx. rewrite Hkept_eq in Hkx.
    destruct (Hwf x) as [_ [bx Hbx]].
    { rewrite Hpool. apply elem_of_app. by left. }
    exists bx. split; [done|]. by apply (Hpre x bx).
  - by rewrite Hkept_eq.
  - rewrite Hrun. eexists. split; [reflexivity|].
    cbn [console console_error activeBrokers]. rewrite Hc.
    split; [done|].
    intros x Hx. rewrite Hp, elem_of_app, elem_of_filter_bool, Hkept_eq.
    split; [|by left].
    intros [[_ ?] | Hin]; [done|]. exfalso.
    rewrite Hpool, map_app in Hkeys.
    apply NoDup_app in Hkeys as (_ & Hdisj & _).
    apply (Hdisj x.1); apply list_elem_of_fmap; by exists x.
Qed.

(** A sweep in which the ticker of the first handle raises on disconnect. *)
Lemma sweep_disconnect_failure_logged_witness :
  exists w',
    cleanupExpiredSessions 1000 world_stuck = (Ok None, w') /\
    console w'
    = ["Cleanup expired sessions error: Failed to disconnect from Zerodha: socket hang up"].
Proof.
  destruct (sweep_disconnect_failure_logged 1000 world_stuck [] [("u2_zerodha", 1%nat)]
              "u1_zerodha" 0%nat (connected_broker (Some stuck_ticker) [])
              "socket hang up" world_stuck_wf)
    as (w' & Hrun & Hc & _).
  - reflexivity.
  - intros x bx Hx. by apply elem_of_nil in Hx.
  - reflexivity.
  - reflexivity.
  - reflexivity.
  - exists w'. split; [exact Hrun | exact Hc].
Defined.

End SweepFacts.

(** ** The shutdown sequence of src/server.js *)

Module ShutdownFacts.
Import TradingServer.

Lemma pop_min_perm (l : list (N * Event)) x rest :
  pop_min l = Some (x, rest) -> l ≡ₚ x :: rest.
Proof.
  revert x rest. induction l as [|a l IH]; intros x rest; simpl; [done|].
  destruct (pop_min l) as [[y rest']|] eqn:Hl.
  - destruct (a.1 <=? y.1)%N; intros [= <- <-]; [done|].
    rewrite (IH y rest' eq_refl). apply Permutation_swap.
  - intros [= <- <-]. destruct l as [|b l]; [done|].
    simpl in Hl. destruct (pop_min l) as [[? ?]|]; [|done].
    by destruct (b.1 <=? p.1)%N.
Qed.

Lemma pop_min_least (l : list (N * Event)) x rest :
  pop_min l = Some (x, rest) -> forall y, y ∈ l -> (x.1 <= y.1)%N.
Proof.
  revert x rest. induction l as [|a l IH]; intros x rest; simpl; [done|].
  destruct (pop_min l) as [[z rest']|] eqn:Hl.
  - destruct (N.leb_spec a.1 z.1) as [Hle|Hgt]; intros [= <- <-] y Hy.
    + apply elem_of_cons in Hy as [-> | Hy]; [lia|].
      specialize (IH z rest' eq_refl y Hy). lia.
    + apply elem_of_cons in Hy as [-> | Hy]; [lia|].
      by apply (IH z rest' eq_refl).
  - intros [= <- <-] y Hy. destruct l as [|b l].
    + apply list_elem_of_singleton in Hy as ->. lia.
    + simpl in Hl. destruct (pop_min l) as [[? ?]|]; [|done].
      by destruct (b.1 <=? p.1)%N.
Qed.

Lemma pop_min_some (l : list (N * Event)) (y : N * Event) :
  y ∈ l -> exists x rest, pop_min l = Some (x, rest).
Proof.
  destruct l as [|a l]; [by intros H%elem_of_nil|]. intros _. simpl.
  destruct (pop_min l) as [[z rest']|]; [|by eexists _, _].
  destruct (a.1 <=? z.1)%N; by eexists _, _.
Qed.

Lemma launch_all_spec (ts : list CleanupTask) (i : nat) (p : Process) :
  launch_all i ts p
  = mkProcess (clock p) (timers p ++ launched_all (clock p) i ts) (shuttingDown p)
              (races p) (log p) (responses p) (exited p).
Proof.
  revert i p. induction ts as [|t ts IH]; intros i p; simpl.
  - rewrite app_nil_r. by destruct p.
  - rewrite IH. unfold launch, start, launched, setTimeout.
    destruct (task_run t); simpl; by rewrite <- !app_assoc.
Qed.

Lemma launched_all_weight (S0 : ServerEnv) (t0 : N) (ts : list CleanupTask) (i : nat) :
  sum_list_with (fun te => weight S0 te.2) (launched_all t0 i ts) <= 2 * length ts.
Proof.
  revert i. induction ts as [|t ts IH]; intros i; simpl; [lia|].
  rewrite sum_list_with_app. specialize (IH (S i)).
  unfold launched. destruct (task_run t); simpl; lia.
Qed.


Lemma settle_cases (i : nat) (o : Settled) (p : Process) :
  (settle i o p = p /\ races p !! i <> Some Pending) \/
  (settle i o p = set_races (<[i := o]> (races p)) p /\
   races p !! i = Some Pending /\
   existsb is_pending (<[i := o]> (races p)) = true) \/
  (settle i o p = finish (set_races (<[i := o]> (races p)) p) /\
   races p !! i = Some Pending /\
   existsb is_pending (<[i := o]> (races p)) = false).
Proof.
  unfold settle. destruct (races p !! i) as [[| |]|]; auto.
  cbn [races set_races].
  destruct (existsb is_pending _) eqn:Hpend; auto.
Qed.

Lemma budget_pop (S0 : ServerEnv) (p : Process) (t : N) (ev : Event) rest :
  shuttingDown p = true ->
  pop_min (timers p) = Some ((t, ev), rest) ->
  budget S0 p = weight S0 ev + sum_list_with (fun te => weight S0 te.2) rest.
Proof.
  intros Hsd Hpop. unfold budget. rewrite Hsd.
  rewrite (pop_min_perm _ _ _ Hpop). simpl. lia.
Qed.

Lemma weight_pos (S0 : ServerEnv) (ev : Event) : 1 <= weight S0 ev.
Proof. destruct ev; simpl; lia. Qed.

(** One delivery while the forced-exit timer is pending: it is due no
    later than the deadline, and either the process exits with it or the
    timer stays pending and fewer deliveries remain. *)
Lemma step_armed (S0 : ServerEnv) (D : N) (p : Process) (t : N) (ev : Event) rest :
  armed D p ->
  pop_min (timers p) = Some ((t, ev), rest) ->
  (t <= D)%N /\
  ((exists code, exited (handle S0 ev (advance t rest p)) = Some (t, code)) \/
   (armed D (handle S0 ev (advance t rest p)) /\
    budget S0 (handle S0 ev (advance t rest p)) < budget S0 p)).
Proof.
  intros (Hin & Hsd & Hex) Hpop.
  pose proof (pop_min_least _ _ _ Hpop _ Hin) as Hle. simpl in Hle.
  split; [done|].
  pose proof (budget_pop S0 p t ev rest Hsd Hpop) as Hb.
  assert (ev <> ShutdownTimer -> (D, ShutdownTimer) ∈ rest) as Hrest.
  { intros Hne. rewrite (pop_min_perm _ _ _ Hpop) in Hin.
    apply elem_of_cons in Hin as [[= _ <-] | Hin]; done. }
  assert (forall r, armed D (set_races r (advance t rest p)) <-> (D, ShutdownTimer) ∈ rest)
    as Harm.
  { intros r. unfold armed. simpl. rewrite Hsd, Hex. tauto. }
  assert (forall r, budget S0 (set_races r (advance t rest p))
                    = sum_list_with (fun te => weight S0 te.2) rest) as Hbud.
  { intros r. unfold budget. simpl. rewrite Hsd. lia. }
  pose proof (weight_pos S0 ev) as Hw.
  destruct ev as [| | |[e|]|i [e|]|i]; cbn [handle].
  - (* ApiRequest *)
    assert (handle S0 ApiRequest (advance t rest p) = advance t rest p) as Hh.
    { cbn. by rewrite Hsd. }
    cbn [handle] in Hh. rewrite Hh. right.
    change (advance t rest p) with (set_races (races p) (advance t rest p)).
    rewrite Harm, Hbud. split; [by apply Hrest | simpl in Hb; lia].
  - (* OrphanRejection *)
    unfold gracefulShutdown. cbn [shuttingDown say advance]. rewrite Hsd. right.
    split.
    + unfold armed. simpl. rewrite Hsd, Hex. split; [by apply Hrest | done].
    + rewrite Hb. unfold budget. simpl. rewrite Hsd. lia.
  - (* ShutdownTimer *)
    left. by exists 1%Z.
  - (* CloseSettled (Some e) *)
    left. by exists 1%Z.
  - (* CloseSettled None *)
    unfold cleanup. rewrite launch_all_spec.
    cbn [races set_races say clock timers shuttingDown log responses exited advance].
    destruct (existsb is_pending _).
    + right. split.
      * unfold armed. simpl. rewrite Hsd, Hex.
        split; [|done]. apply elem_of_app. left. by apply Hrest.
      * unfold budget at 1. simpl. rewrite Hsd, sum_list_with_app.
        pose proof (launched_all_weight S0 t (tasks S0) 0).
        simpl in Hb. lia.
    + left. by exists 0%Z.
  - (* TaskSettled i (Some e) *)
    destruct (settle_cases i (Rejected e) (advance t rest p))
      as [[-> _] | [(-> & _) | (-> & _)]].
    + right. change (advance t rest p) with (set_races (races p) (advance t rest p)).
      rewrite Harm, Hbud. split; [by apply Hrest | lia].
    + right. rewrite Harm, Hbud. split; [by apply Hrest | lia].
    + left. by exists 0%Z.
  - (* TaskSettled i None *)
    set (q := say _ _).
    assert (forall r, armed D (set_races r q) <-> (D, ShutdownTimer) ∈ rest) as Harm'.
    { intros r. unfold armed. simpl. rewrite Hsd, Hex. tauto. }
    assert (forall r, budget S0 (set_races r q)
                      = sum_list_with (fun te => weight S0 te.2) rest) as Hbud'.
    { intros r. unfold budget. simpl. rewrite Hsd. lia. }
    destruct (settle_cases i Fulfilled q) as [[-> _] | [(-> & _) | (-> & _)]].
    + right. change q with (set_races (races q) q).
      rewrite Harm', Hbud'. split; [by apply Hrest | lia].
    + right. rewrite Harm', Hbud'. split; [by apply Hrest | lia].
    + left. by exists 0%Z.
  - (* TaskTimeout i *)
    destruct (settle_cases i (Rejected (name_of S0 i ++ " cleanup timeout"))
                           (advance t rest p))
      as [[-> _] | [(-> & _) | (-> & _)]].
    + right. change (advance t rest p) with (set_races (races p) (advance t rest p)).
      rewrite Harm, Hbud. split; [by apply Hrest | lia].
    + right. rewrite Harm, Hbud. split; [by apply Hrest | lia].
    + left. by exists 0%Z.
Qed.

Lemma run_exited (S0 : ServerEnv) (fuel : nat) (p : Process) x :
  exited p = Some x -> run S0 fuel p = p.
Proof. intros H. destruct fuel; simpl; [done|]. by rewrite H. Qed.

(** With the forced-exit timer pending the process exits, no later than
    the deadline. *)
Lemma run_exits (S0 : ServerEnv) (D : N) (fuel : nat) :
  forall p, budget S0 p < fuel -> armed D p ->
    exists t code, exited (run S0 fuel p) = Some (t, code) /\ (t <= D)%N.
Proof.
  induction fuel as [|fuel IH]; intros p Hfuel Harmed; [lia|].
  pose proof Harmed as (Hin & Hsd & Hex).
  destruct (pop_min_some _ _ Hin) as ([t ev] & rest & Hpop).
  cbn [run]. rewrite Hex, Hpop.
  destruct (step_armed S0 D p t ev rest Harmed Hpop) as [Hle [[code Hexit] | [Harm' Hlt]]].
  - rewrite (run_exited _ _ _ _ Hexit). by exists t, code.
  - apply IH; [lia | done].
Qed.


(** An invariant of the deliveries made while the forced-exit timer is
    pending holds when the event loop stops. *)
Lemma run_preserves (S0 : ServerEnv) (D : N) (I : Process -> Prop) :
  (forall p t ev rest,
      armed D p -> I p -> pop_min (timers p) = Some ((t, ev), rest) ->
      I (handle S0 ev (advance t rest p))) ->
  forall fuel p, armed D p -> I p -> I (run S0 fuel p).
Proof.
  intros Hstep. induction fuel as [|fuel IH]; intros p Harmed HI; [done|].
  pose proof Harmed as (Hin & Hsd & Hex).
  destruct (pop_min_some _ _ Hin) as ([t ev] & rest & Hpop).
  cbn [run]. rewrite Hex, Hpop.
  pose proof (Hstep p t ev rest Harmed HI Hpop) as HI'.
  destruct (step_armed S0 D p t ev rest Harmed Hpop) as [_ [[code Hexit] | [Harm' _]]].
  - by rewrite (run_exited _ _ _ _ Hexit).
  - by apply IH.
Qed.

Lemma pop_min_rest (l : list (N * Event)) x rest y :
  pop_min l = Some (x, rest) -> y ∈ l -> y <> x -> y ∈ rest.
Proof.
  intros Hpop Hy Hne. rewrite (pop_min_perm _ _ _ Hpop) in Hy.
  apply elem_of_cons in Hy as [-> | Hy]; done.
Qed.

Lemma pop_min_sub (l : list (N * Event)) x rest y :
  pop_min l = Some (x, rest) -> y ∈ rest -> y ∈ l.
Proof.
  intros Hpop Hy. rewrite (pop_min_perm _ _ _ Hpop). by right.
Qed.

Lemma say_log (line : string) (p : Process) x :
  x ∈ log p -> x ∈ log (say line p).
Proof. intros H. unfold say. simpl. apply elem_of_app. by left. Qed.

Lemma finish_log (p : Process) x : x ∈ log p -> x ∈ log (finish p).
Proof.
  intros H. unfold finish, process_exit, say, clearTimeout. simpl.
  rewrite !elem_of_app. auto.
Qed.

Lemma settle_log (i : nat) (o : Settled) (p : Process) x :
  x ∈ log p -> x ∈ log (settle i o p).
Proof.
  intros H. destruct (settle_cases i o p) as [[-> _] | [(-> & _) | (-> & _)]];
    [done | done | by apply finish_log].
Qed.

(** The console only grows. *)
Lemma handle_log (S0 : ServerEnv) (ev : Event) (p : Process) x :
  x ∈ log p -> x ∈ log (handle S0 ev p).
Proof.
  intros H. destruct ev as [| | |[e|]|i [e|]|i]; cbn [handle].
  - by destruct (shuttingDown p).
  - unfold gracefulShutdown. cbn [shuttingDown say].
    destruct (shuttingDown p); [by apply say_log|].
    unfold start. destruct (close S0); simpl; rewrite !elem_of_app; auto.
  - simpl. apply elem_of_app. by left.
  - simpl. apply elem_of_app. by left.
  - unfold cleanup. rewrite launch_all_spec. cbn.
    destruct (existsb is_pending _); [|apply finish_log]; simpl;
      rewrite !elem_of_app; auto.
  - by apply settle_log.
  - apply settle_log, say_log. unfold say_all. simpl. apply elem_of_app. by left.
  - by apply settle_log.
Qed.

Lemma run_log (S0 : ServerEnv) (fuel : nat) (p : Process) x :
  x ∈ log p -> x ∈ log (run S0 fuel p).
Proof.
  revert p. induction fuel as [|fuel IH]; intros p H; [done|]. cbn [run].
  destruct (exited p); [done|].
  destruct (pop_min (timers p)) as [[[t ev] rest]|]; [|done].
  apply IH. by apply handle_log.
Qed.


Lemma pending_exists (l : list Settled) (i : nat) :
  l !! i = Some Pending -> existsb is_pending l = true.
Proof.
  intros H. apply existsb_exists. exists Pending. split; [|done].
  apply list_elem_of_In. by apply list_elem_of_lookup_2 in H.
Qed.

Lemma waiting_settle_other (tb : N) (i j : nat) (o : Settled) (p : Process) :
  j <> i -> waiting tb i p -> waiting tb i (settle j o p).
Proof.
  intros Hne (Hex & Hrace & Hev & Hsafe).
  destruct (settle_cases j o p) as [[-> _] | [(-> & _) | (_ & _ & Hnone)]].
  - done.
  - unfold waiting. cbn [exited races timers set_races].
    by rewrite list_lookup_insert_ne.
  - rewrite (pending_exists _ i) in Hnone; [done|].
    by rewrite list_lookup_insert_ne.
Qed.

(** While task [i] is racing with its success due at [tb], every delivery
    either is that success, which is reported, or leaves the race open. *)
Lemma step_waiting (S0 : ServerEnv) (D tb : N) (i : nat)
      (p : Process) (t : N) (ev : Event) rest :
  armed D p ->
  reported S0 i tb p \/ waiting tb i p ->
  pop_min (timers p) = Some ((t, ev), rest) ->
  reported S0 i tb (handle S0 ev (advance t rest p))
  \/ waiting tb i (handle S0 ev (advance t rest p)).
Proof.
  intros (_ & Hsd & _) [[Hdone Hsaid] | (Hex & Hrace & Hev & Hsafe)] Hpop.
  { left. split; [by apply handle_log|]. intros line Hline. by apply handle_log, Hsaid. }
  pose proof (pop_min_least _ _ _ Hpop _ Hev) as Hle. simpl in Hle.
  assert (safe_before tb i (t, ev)) as Hsafe_ev.
  { apply Hsafe. rewrite (pop_min_perm _ _ _ Hpop). by left. }
  assert (forall q, exited q = None -> races q = races p -> timers q = rest ->
                    ev <> TaskSettled i None -> waiting tb i q) as Hkeep.
  { intros q Hq1 Hq2 Hq3 Hne. unfold waiting. rewrite Hq1, Hq2, Hq3.
    split; [done|]. split; [done|]. split.
    - apply (pop_min_rest _ _ _ _ Hpop Hev). by intros [= _ <-].
    - intros te Hte. apply Hsafe. by apply (pop_min_sub _ _ _ _ Hpop). }
  unfold safe_before in Hsafe_ev. cbn [fst snd] in Hsafe_ev.
  destruct ev as [| | |[e|]|j [e|]|j]; cbn [handle]; try done.
  - (* ApiRequest *)
    right. cbn [shuttingDown advance]. rewrite Hsd. by apply Hkeep.
  - (* OrphanRejection *)
    right. unfold gracefulShutdown. cbn [shuttingDown say advance]. rewrite Hsd.
    by apply Hkeep.
  - (* ShutdownTimer *) lia.
  - (* TaskSettled j (Some e) *)
    destruct (decide (j = i)) as [->|Hne]; [by destruct Hsafe_ev|].
    right. apply waiting_settle_other; [done|]. by apply Hkeep.
  - (* TaskSettled j None *)
    destruct (decide (j = i)) as [->|Hne].
    + destruct Hsafe_ev as [_ ->]; [done|]. left. split.
      * apply settle_log. unfold say, say_all. simpl. apply elem_of_app. right.
        by apply list_elem_of_singleton.
      * intros line Hline. apply settle_log, say_log. unfold say_all. simpl.
        apply elem_of_app. right. apply list_elem_of_fmap. by exists line.
    + right. apply waiting_settle_other; [done|]. apply Hkeep; try done.
      by intros [= ->].
  - (* TaskTimeout j *)
    destruct (decide (j = i)) as [->|Hne]; [specialize (Hsafe_ev eq_refl); lia|].
    right. apply waiting_settle_other; [done|]. by apply Hkeep.
Qed.


Lemma launched_all_elem (t0 : N) (ts : list CleanupTask) (i0 : nat) (te : N * Event) :
  te ∈ launched_all t0 i0 ts <->
  exists k task, ts !! k = Some task /\ te ∈ launched t0 (i0 + k) task.
Proof.
  revert i0. induction ts as [|a ts IH]; intros i0; simpl.
  - split; [by intros H%elem_of_nil | by intros (k & task & H & _)].
  - rewrite elem_of_app, IH. split.
    + intros [H | (k & task & Hk & H)].
      * exists 0, a. split; [done|]. by rewrite Nat.add_0_r.
      * exists (S k), task. split; [done|]. by rewrite Nat.add_succ_r.
    + intros ([|k] & task & Hk & H).
      * left. injection Hk as ->. by rewrite Nat.add_0_r in H.
      * right. exists k, task. split; [done|]. by rewrite Nat.add_succ_r in H.
Qed.

Lemma launched_elem (t0 : N) (i : nat) (task : CleanupTask) (te : N * Event) :
  te ∈ launched t0 i task <->
  te = ((t0 + cleanupTimeout)%N, TaskTimeout i) \/
  (exists d, task_run task = Resolves d /\ te = ((t0 + d)%N, TaskSettled i None)) \/
  (exists d e, task_run task = Rejects d e /\ te = ((t0 + d)%N, TaskSettled i (Some e))).
Proof.
  unfold launched. rewrite elem_of_app, list_elem_of_singleton.
  destruct (task_run task) as [d|d e|].
  - rewrite list_elem_of_singleton. split.
    + intros [-> | ->]; [right; left; by exists d | by left].
    + intros [-> | [(d' & [= <-] & ->) | (? & ? & ? & _)]]; [by right | by left | done].
  - rewrite list_elem_of_singleton. split.
    + intros [-> | ->]; [right; right; by exists d, e | by left].
    + intros [-> | [(? & ? & _) | (d' & e' & [= <- <-] & ->)]]; [by right | done | by left].
  - split.
    + intros [H%elem_of_nil | ->]; [done | by left].
    + intros [-> | [(? & ? & _) | (? & ? & ? & _)]]; [by right | done | done].
Qed.

(** The state in which [cleanup()] leaves the process when it has tasks
    to wait for. *)
Lemma cleanup_spec (S0 : ServerEnv) (p : Process) :
  tasks S0 <> [] ->
  cleanup S0 p
  = mkProcess (clock p) (timers p ++ launched_all (clock p) 0 (tasks S0))
              (shuttingDown p) (replicate (length (tasks S0)) Pending)
              (log p ++ [(clock p, "Starting comprehensive cleanup...");
                         (clock p, "Cleared session cleanup interval")])
              (responses p) (exited p).
Proof.
  intros Hne. unfold cleanup. rewrite launch_all_spec.
  cbn [races set_races say clock timers shuttingDown log responses exited].
  destruct (tasks S0) as [|a ts]; [done|]. simpl. by rewrite <- app_assoc.
Qed.

Lemma cleanup_empty (S0 : ServerEnv) (p : Process) :
  tasks S0 = [] -> exited (cleanup S0 p) = Some (clock p, 0%Z).
Proof. intros Hnil. unfold cleanup. rewrite Hnil. reflexivity. Qed.

Lemma pop_min_closing (D tc : N) :
  pop_min [(D, ShutdownTimer); (tc, CloseSettled None)]
  = if (D <=? tc)%N
    then Some ((D, ShutdownTimer), [(tc, CloseSettled None)])
    else Some ((tc, CloseSettled None), [(D, ShutdownTimer)]).
Proof. reflexivity. Qed.

Lemma existsb_pending_lookup (l : list Settled) :
  existsb is_pending l = true -> exists j, l !! j = Some Pending.
Proof.
  intros (x & Hin & Hx)%existsb_exists. destruct x; try done.
  apply list_elem_of_In, list_elem_of_lookup_1 in Hin. exact Hin.
Qed.

(** Once the races are open, every delivery is due no later than the
    task timers, and either ends the process or leaves races open. *)
Lemma step_racing (S0 : ServerEnv) (D T : N) (p : Process) (t : N) (ev : Event) rest :
  armed D p -> racing T p ->
  pop_min (timers p) = Some ((t, ev), rest) ->
  (t <= T)%N /\
  ((exists code, exited (handle S0 ev (advance t rest p)) = Some (t, code)) \/
   (exited (handle S0 ev (advance t rest p)) = None /\
    racing T (handle S0 ev (advance t rest p)))).
Proof.
  intros (_ & Hsd & Hex) (Hnoclose & Hpend & Htimers) Hpop.
  destruct (existsb_pending_lookup _ Hpend) as [j0 Hj0].
  pose proof (pop_min_least _ _ _ Hpop _ (Htimers j0 Hj0)) as Hle. simpl in Hle.
  split; [done|].
  assert (forall t' e, (t', CloseSettled e) ∉ rest) as Hnoclose'.
  { intros t' e Hin. apply (Hnoclose t' e). by apply (pop_min_sub _ _ _ _ Hpop). }
  assert (forall q, exited q = None -> races q = races p -> timers q = rest ->
                    (forall j, ev = TaskTimeout j -> races p !! j <> Some Pending) ->
                    exited q = None /\ racing T q) as Hkeep.
  { intros q Hq1 Hq2 Hq3 Hne. split; [done|]. unfold racing. rewrite Hq2, Hq3.
    split; [done|]. split; [done|].
    intros j Hj. apply (pop_min_rest _ _ _ _ Hpop (Htimers j Hj)).
    intros [= _ <-]. by apply (Hne j). }
  assert (forall q j o, exited q = None -> races q = races p -> timers q = rest ->
                        clock q = t -> is_pending o = false ->
                        (ev = TaskTimeout j \/ exists e, ev = TaskSettled j e) ->
                        (exists code, exited (settle j o q) = Some (t, code)) \/
                        (exited (settle j o q) = None /\ racing T (settle j o q)))
    as Hsettle.
  { intros q j o Hq1 Hq2 Hq3 Hq4 Ho Hev.
    destruct (settle_cases j o q) as [[-> Hnp] | [(-> & Hp & He) | (-> & _)]].
    - right. apply Hkeep; try done. intros j' ->.
      destruct Hev as [[= ->] | [e [=]]]. by rewrite <- Hq2.
    - right. split; [done|]. unfold racing. cbn [races timers set_races].
      rewrite Hq3. split; [done|]. split; [done|].
      intros k Hk. rewrite Hq2 in Hk, Hp.
      assert (k <> j) as Hkj.
      { intros ->. rewrite list_lookup_insert_eq in Hk by (by eapply lookup_lt_Some).
        injection Hk as ->. done. }
      rewrite list_lookup_insert_ne in Hk by done.
      apply (pop_min_rest _ _ _ _ Hpop (Htimers k Hk)).
      destruct Hev as [-> | [e ->]]; [by intros [= _ <-] | done].
    - left. exists 0%Z. unfold finish. simpl. by rewrite Hq4. }
  destruct ev as [| | |[e|]|i [e|]|i]; cbn [handle].
  - right. cbn [shuttingDown advance]. rewrite Hsd. by apply Hkeep.
  - right. unfold gracefulShutdown. cbn [shuttingDown say advance]. rewrite Hsd.
    by apply Hkeep.
  - left. by exists 1%Z.
  - left. by exists 1%Z.
  - exfalso. apply (Hnoclose t None). rewrite (pop_min_perm _ _ _ Hpop). by left.
  - apply Hsettle; try done. right. by eexists.
  - apply Hsettle; try done. right. by eexists.
  - apply Hsettle; try done. by left.
Qed.


Lemma finish_timers_sub (p : Process) te : te ∈ timers (finish p) -> te ∈ timers p.
Proof.
  unfold finish, process_exit, say, clearTimeout. simpl.
  rewrite list_elem_of_In, filter_In, <- list_elem_of_In. tauto.
Qed.

(** *** From the call of [gracefulShutdown] *)

Lemma shutdown_start_armed (S0 : ServerEnv) (reason : string) (t0 : N) :
  armed (t0 + shutdownTimeout) (gracefulShutdown S0 reason (boot t0)).
Proof.
  unfold gracefulShutdown, armed, start. cbn [shuttingDown boot].
  destruct (close S0); simpl; (split; [|done]); repeat constructor.
Qed.

Lemma shutdown_start_closing (S0 : ServerEnv) (reason : string) (t0 c : N) :
  close S0 = Resolves c ->
  closing (t0 + shutdownTimeout) (t0 + c) (gracefulShutdown S0 reason (boot t0)).
Proof.
  intros Hc. unfold gracefulShutdown, closing, start. cbn [shuttingDown boot].
  rewrite Hc. by simpl.
Qed.

(** The wait of [cleanup()] is bounded by the task timers: once
    [fastify.close()] has resolved at [c], the process is gone
    [cleanupTimeout] later at the latest. *)
Lemma shutdown_task_bound (S0 : ServerEnv) (reason : string) (t0 c : N) (fuel : nat) x :
  close S0 = Resolves c ->
  exited (shutdown S0 reason t0 fuel) = Some x ->
  (x.1 <= t0 + c + cleanupTimeout)%N.
Proof.
  intros Hc.
  set (D := (t0 + shutdownTimeout)%N). set (tc := (t0 + c)%N).
  set (T := (t0 + c + cleanupTimeout)%N).
  set (I := fun p : Process =>
              (forall x, exited p = Some x -> (x.1 <= T)%N) /\
              (exited p = None -> closing D tc p \/ racing T p)).
  assert (I (shutdown S0 reason t0 fuel)) as [Hdone _]; [|by apply Hdone].
  apply (run_preserves S0 D I); subst I; cbn beta.
  - intros p t ev rest Harmed [_ Hopen] Hpop.
    pose proof Harmed as (_ & _ & Hex).
    destruct (Hopen Hex) as [[_ Htimers] | Hracing].
    + (* fastify.close() is about to settle, or the deadline comes first *)
      rewrite Htimers, pop_min_closing in Hpop.
      destruct (N.leb_spec D tc) as [Hle|Hgt]; injection Hpop as <- <- <-.
      * split; [|done]. intros y [= <-]. simpl. unfold T, tc, cleanupTimeout in *. lia.
      * cbn [handle].
        destruct (decide (tasks S0 = [])) as [Hnil|Hne].
        -- rewrite (cleanup_empty S0 _ Hnil). split; [|done].
           intros y [= <-]. simpl. unfold T, tc, cleanupTimeout. lia.
        -- rewrite (cleanup_spec S0 _ Hne).
           cbn [clock timers advance exited shuttingDown log responses races].
           split; [by rewrite Hex|]. intros _. right. unfold racing. cbn [timers races].
           split; [|split].
           ++ intros t' e Hin. apply elem_of_cons in Hin as [[=] | Hin].
              apply launched_all_elem in Hin as (k & task & _ & Hin).
              by apply launched_elem in Hin as [[=] | [(? & _ & [=]) | (? & ? & _ & [=])]].
           ++ destruct (tasks S0); [done|]. reflexivity.
           ++ intros j Hj. apply lookup_replicate in Hj as [_ Hj].
              apply lookup_lt_is_Some_2 in Hj as [task Htask].
              right. apply launched_all_elem. exists j, task. split; [done|].
              apply launched_elem. by left.
    + destruct (step_racing S0 D T p t ev rest Harmed Hracing Hpop)
        as [Hle [[code Hexit] | [Hnone Hr]]].
      * split; [|by rewrite Hexit]. rewrite Hexit. by intros y [= <-].
      * split; [by rewrite Hnone | auto].
  - apply shutdown_start_armed.
  - split.
    + intros y Hy. destruct (shutdown_start_armed S0 reason t0) as (_ & _ & He).
      by rewrite He in Hy.
    + intros _. left. by apply shutdown_start_closing.
Qed.

(** A task that resolves before its timer, and before the deadline, has
    its own lines and its success on the console when the process exits,
    whatever the other tasks do. *)
Lemma shutdown_sibling_logged (S0 : ServerEnv) (reason : string) (t0 c d : N)
      (i : nat) (task : CleanupTask) (fuel : nat) x :
  close S0 = Resolves c ->
  tasks S0 !! i = Some task ->
  task_run task = Resolves d ->
  (d < cleanupTimeout)%N -> (c + d < shutdownTimeout)%N ->
  exited (shutdown S0 reason t0 fuel) = Some x ->
  reported S0 i (t0 + c + d) (shutdown S0 reason t0 fuel).
Proof.
  intros Hc Htask Hrun_d Hd Hcd Hexit.
  set (D := (t0 + shutdownTimeout)%N). set (tc := (t0 + c)%N).
  set (tb := (t0 + c + d)%N).
  set (I := fun p : Process =>
              reported S0 i tb p \/ waiting tb i p \/ closing D tc p).
  assert (I (shutdown S0 reason t0 fuel)) as [Hl | [(Hw & _) | (Hw & _)]];
    [|done|congruence|congruence].
  apply (run_preserves S0 D I); subst I; cbn beta.
  - intros p t ev rest Harmed [Hl | [Hw | [Hex Htimers]]] Hpop.
    + destruct (step_waiting S0 D tb i p t ev rest Harmed (or_introl Hl) Hpop);
        [by left | by right; left].
    + destruct (step_waiting S0 D tb i p t ev rest Harmed (or_intror Hw) Hpop);
        [by left | by right; left].
    + rewrite Htimers, pop_min_closing in Hpop.
      destruct (N.leb_spec D tc) as [Hle|Hgt];
        [unfold D, tc, shutdownTimeout in *; lia|].
      injection Hpop as <- <- <-. cbn [handle].
      assert (tasks S0 <> []) as Hne by (by intros Hnil; rewrite Hnil in Htask).
      rewrite (cleanup_spec S0 _ Hne).
           cbn [clock timers advance exited shuttingDown log responses races].
      right. left. unfold waiting. cbn [exited races timers].
      split; [done|]. split.
      { apply lookup_replicate. split; [done|]. by apply lookup_lt_Some in Htask. }
      split.
      { right. apply launched_all_elem. eexists i, _. split; [exact Htask|].
        apply launched_elem. right. left. exists d. split; [done|].
        reflexivity. }
      intros te Hin. apply elem_of_cons in Hin as [-> | Hin].
      { unfold safe_before. simpl. unfold tb, D, shutdownTimeout in *. lia. }
      apply launched_all_elem in Hin as (k & task' & Hk & Hin).
      apply launched_elem in Hin as [-> | [(d' & Hrun & ->) | (d' & e & Hrun & ->)]];
        unfold safe_before; simpl.
      * intros _. unfold tb, tc, cleanupTimeout in *. lia.
      * intros ->. rewrite Htask in Hk. injection Hk as <-. rewrite Hrun_d in Hrun.
        injection Hrun as <-. split; [done|]. unfold tb, tc. lia.
      * intros ->. rewrite Htask in Hk. injection Hk as <-. congruence.
  - apply shutdown_start_armed.
  - right. right. by apply shutdown_start_closing.
Qed.


(** C9, as stated, fails: task A never completes and its race is
    rejected by its timer after five seconds, yet nothing about it is
    written anywhere: the console has the successes of B and C only, and
    the array of settled outcomes is dropped. *)
Lemma timed_out_task_not_recorded :
  exited (shutdown scenario_three "SIGTERM" 0 20) = Some (5000%N, 0%Z)
  /\ races (shutdown scenario_three "SIGTERM" 0 20)
     = [Rejected "A cleanup timeout"; Fulfilled; Fulfilled]
  /\ log (shutdown scenario_three "SIGTERM" 0 20)
     = [(0%N, "initiating graceful shutdown: SIGTERM");
        (0%N, "Starting comprehensive cleanup...");
        (0%N, "Cleared session cleanup interval");
        (1000%N, "B cleanup completed");
        (2000%N, "C cleanup completed");
        (5000%N, "Comprehensive cleanup completed");
        (5000%N, "graceful shutdown complete")].
Proof. repeat split; vm_compute; reflexivity. Qed.

(** C9 (amended): started at [t0], the shutdown always ends in
    [process.exit], at or before [t0 + 8000] ms, even if tasks never
    complete; once [fastify.close()] has resolved after [c] ms every task
    is bounded by its own 5000 ms timer, so the exit comes at or before
    [t0 + c + 5000]; and a task that hangs or fails does not abort its
    siblings: every task that returns within its timer and before the
    deadline has, at the instant it returns, the lines it writes itself
    (the warning of its own failure, or its report) and its "cleanup
    completed" line on the console when the process exits. *)
Theorem shutdown_bounded_and_isolated
        (S0 : ServerEnv) (reason : string) (t0 : N) (fuel : nat) :
  budget S0 (gracefulShutdown S0 reason (boot t0)) < fuel ->
  exists t code,
    exited (shutdown S0 reason t0 fuel) = Some (t, code) /\
    (t <= t0 + shutdownTimeout)%N /\
    (forall c, close S0 = Resolves c -> (t <= t0 + c + cleanupTimeout)%N) /\
    (forall c i task d,
        close S0 = Resolves c ->
        tasks S0 !! i = Some task ->
        task_run task = Resolves d ->
        (d < cleanupTimeout)%N -> (c + d < shutdownTimeout)%N ->
        ((t0 + c + d)%N, task_name task ++ " cleanup completed")
          ∈ log (shutdown S0 reason t0 fuel) /\
        forall line, line ∈ task_says task ->
          ((t0 + c + d)%N, line) ∈ log (shutdown S0 reason t0 fuel)).
Proof.
  intros Hfuel.
  destruct (run_exits S0 (t0 + shutdownTimeout) fuel _ Hfuel
                      (shutdown_start_armed S0 reason t0))
    as (t & code & Hexit & Hle).
  fold (shutdown S0 reason t0 fuel) in Hexit.
  exists t, code. split; [done|]. split; [done|]. split.
  - intros c Hc. by apply (shutdown_task_bound S0 reason t0 c fuel (t, code)).
  - intros c i task d Hc Htask Hrun Hd Hcd.
    pose proof (shutdown_sibling_logged S0 reason t0 c d i task fuel (t, code)
                  Hc Htask Hrun Hd Hcd Hexit) as Hrep.
    unfold reported, name_of, says_of in Hrep. by rewrite Htask in Hrep.
Qed.

(** The three-task scenario: A hangs, B needs one second, C two; and the
    server of the source with a sweep that fails and a database that
    hangs: the error line of the sweep and its "cleanup completed" line
    are both on the console. *)
Lemma shutdown_bounded_and_isolated_witness :
  (exists t code,
     exited (shutdown scenario_three "SIGTERM" 0 20) = Some (t, code) /\
     (t <= 8000)%N /\
     (1000%N, "B cleanup completed") ∈ log (shutdown scenario_three "SIGTERM" 0 20)) /\
  (exists t code,
     exited (shutdown scenario_failing "SIGTERM" 0 20) = Some (t, code) /\
     (t <= 5000)%N /\
     (1000%N, "Cleanup expired sessions error: Failed to disconnect from Zerodha: socket hang up")
       ∈ log (shutdown scenario_failing "SIGTERM" 0 20) /\
     (1000%N, "Trading service cleanup completed")
       ∈ log (shutdown scenario_failing "SIGTERM" 0 20)).
Proof.
  split.
  - destruct (shutdown_bounded_and_isolated scenario_three "SIGTERM" 0 20)
      as (t & code & Hexit & Hle & _ & Hlogged).
    + vm_compute. lia.
    + exists t, code. split; [exact Hexit|]. split; [exact Hle|].
      destruct (Hlogged 0%N 1%nat (mkTask "B" (Resolves 1000) []) 1000%N)
        as [Hdone _]; try reflexivity.
      exact Hdone.
  - destruct (shutdown_bounded_and_isolated scenario_failing "SIGTERM" 0 20)
      as (t & code & Hexit & _ & Hbound & Hlogged).
    + vm_compute. lia.
    + exists t, code. split; [exact Hexit|]. split; [by apply (Hbound 0%N)|].
      destruct (Hlogged 0%N 0%nat
                  (mkTask "Trading service" (Resolves 1000)
                     ["Cleanup expired sessions error: Failed to disconnect from Zerodha: socket hang up"])
                  1000%N) as [Hdone Hsaid]; try reflexivity.
      split; [|exact Hdone]. apply Hsaid. by left.
Defined.

Lemma handle_shuttingDown (S0 : ServerEnv) (ev : Event) (p : Process) :
  shuttingDown p = true -> shuttingDown (handle S0 ev p) = true.
Proof.
  intros Hsd. destruct ev as [| | |[e|]|i [e|]|i]; cbn [handle]; try done.
  - by rewrite Hsd.
  - unfold gracefulShutdown. cbn [shuttingDown say]. by rewrite Hsd.
  - unfold cleanup. rewrite launch_all_spec. cbn.
    by destruct (existsb is_pending _).
  - by destruct (settle_cases i (Rejected e) p) as [[-> _] | [(-> & _) | (-> & _)]].
  - by destruct (settle_cases i Fulfilled
                   (say (name_of S0 i ++ " cleanup completed")
                        (say_all (says_of S0 i) p)))
      as [[-> _] | [(-> & _) | (-> & _)]].
  - by destruct (settle_cases i (Rejected (name_of S0 i ++ " cleanup timeout")) p)
      as [[-> _] | [(-> & _) | (-> & _)]].
Qed.

(** One delivery while the server is still serving and a dropped promise
    of the [/api] handler is due at [T]: the delivery is due no later than
    [T], and the process exits with it, or it starts the shutdown, or the
    rejection is still to come. *)
Lemma step_serving (S0 : ServerEnv) (T : N) (p : Process) (t : N) (ev : Event) rest :
  exited p = None -> shuttingDown p = false ->
  (T, OrphanRejection) ∈ timers p ->
  pop_min (timers p) = Some ((t, ev), rest) ->
  (t <= T)%N /\
  ((exists code, exited (handle S0 ev (advance t rest p)) = Some (t, code)) \/
   (armed (t + shutdownTimeout) (handle S0 ev (advance t rest p)) /\
    budget S0 (handle S0 ev (advance t rest p)) < budget S0 p) \/
   (exited (handle S0 ev (advance t rest p)) = None /\
    shuttingDown (handle S0 ev (advance t rest p)) = false /\
    (T, OrphanRejection) ∈ timers (handle S0 ev (advance t rest p)) /\
    budget S0 (handle S0 ev (advance t rest p)) < budget S0 p)).
Proof.
  intros Hex Hsd Hin Hpop.
  pose proof (pop_min_least _ _ _ Hpop _ Hin) as Hle. simpl in Hle.
  split; [done|].
  assert (budget S0 p = weight S0 ev
                        + sum_list_with (fun te => weight S0 te.2) rest
                        + (2 + 2 * length (tasks S0))) as Hb.
  { unfold budget. rewrite Hsd, (pop_min_perm _ _ _ Hpop). simpl. lia. }
  assert (ev <> OrphanRejection -> (T, OrphanRejection) ∈ rest) as Hrest.
  { intros Hne. apply (pop_min_rest _ _ _ _ Hpop Hin). by intros [= _ <-]. }
  assert (forall q j o, exited q = None -> shuttingDown q = false -> timers q = rest ->
                        clock q = t -> ev <> OrphanRejection -> weight S0 ev = 1 ->
                        (exists code, exited (settle j o q) = Some (t, code)) \/
                        (armed (t + shutdownTimeout) (settle j o q) /\
                         budget S0 (settle j o q) < budget S0 p) \/
                        (exited (settle j o q) = None /\
                         shuttingDown (settle j o q) = false /\
                         (T, OrphanRejection) ∈ timers (settle j o q) /\
                         budget S0 (settle j o q) < budget S0 p)) as Hsettle.
  { intros q j o Hq1 Hq2 Hq3 Hq4 Hne Hw.
    destruct (settle_cases j o q) as [[-> _] | [(-> & _) | (-> & _)]].
    - right. right. rewrite Hq3. split; [done|]. split; [done|].
      split; [by apply Hrest|]. rewrite Hb. unfold budget. rewrite Hq2, Hq3. lia.
    - right. right. cbn [exited shuttingDown timers set_races]. rewrite Hq3.
      split; [done|]. split; [done|]. split; [by apply Hrest|].
      rewrite Hb. unfold budget. cbn [shuttingDown timers set_races]. rewrite Hq2, Hq3. lia.
    - left. exists 0%Z. unfold finish. simpl. by rewrite Hq4. }
  destruct ev as [| | |[e|]|i [e|]|i]; cbn [handle].
  - (* ApiRequest *)
    right. right. cbn [shuttingDown advance]. rewrite Hsd.
    cbn [exited shuttingDown timers reply setTimeout].
    split; [done|]. split; [done|]. split.
    + apply elem_of_app. left. by apply Hrest.
    + unfold budget at 1. simpl. rewrite ?Hsd, sum_list_with_app. simpl in *. lia.
  - (* OrphanRejection *)
    right. left. unfold gracefulShutdown, start. cbn [shuttingDown say advance]. rewrite Hsd.
    split.
    + unfold armed. destruct (close S0); simpl; (split; [|done]);
        rewrite !elem_of_app, !list_elem_of_singleton; auto.
    + unfold budget at 1. destruct (close S0); simpl;
        rewrite ?sum_list_with_app; simpl; simpl in Hb; lia.
  - left. by exists 1%Z.
  - left. by exists 1%Z.
  - (* CloseSettled None *)
    unfold cleanup. rewrite launch_all_spec.
    cbn [races set_races say clock timers shuttingDown log responses exited advance].
    destruct (existsb is_pending _).
    + right. right. cbn [exited shuttingDown timers].
      split; [done|]. split; [done|]. split.
      * apply elem_of_app. left. by apply Hrest.
      * unfold budget at 1. cbn [shuttingDown timers]. rewrite Hsd, sum_list_with_app.
        pose proof (launched_all_weight S0 t (tasks S0) 0). simpl in Hb. lia.
    + left. by exists 0%Z.
  - by apply Hsettle.
  - by apply Hsettle.
  - by apply Hsettle.
Qed.

(** A server that has a dropped promise of the [/api] handler pending
    exits, at the latest [shutdownTimeout] after the rejection is due. *)
Lemma run_exits_serving (S0 : ServerEnv) (T : N) (fuel : nat) :
  forall p, budget S0 p < fuel ->
    exited p = None -> shuttingDown p = false ->
    (T, OrphanRejection) ∈ timers p ->
    exists t code, exited (run S0 fuel p) = Some (t, code) /\
                   (t <= T + shutdownTimeout)%N.
Proof.
  induction fuel as [|fuel IH]; intros p Hfuel Hex Hsd Hin; [lia|].
  destruct (pop_min_some _ _ Hin) as ([t ev] & rest & Hpop).
  cbn [run]. rewrite Hex, Hpop.
  destruct (step_serving S0 T p t ev rest Hex Hsd Hin Hpop)
    as [Hle [[code Hexit] | [[Harmed Hlt] | (Hex' & Hsd' & Hin' & Hlt)]]].
  - rewrite (run_exited _ _ _ _ Hexit). exists t, code. split; [done|].
    unfold shutdownTimeout. lia.
  - assert (budget S0 (handle S0 ev (advance t rest p)) < fuel) as Hf by lia.
    destruct (run_exits S0 (t + shutdownTimeout) fuel _ Hf Harmed)
      as (t' & code & Hexit & Hle').
    exists t', code. split; [done|]. unfold shutdownTimeout in *. lia.
  - apply IH; [lia | done | done | done].
Qed.

(** C10: every [GET /api] that is served answers 200 and leaves behind a
    promise that rejects 10 ms later with nobody listening; when that
    rejection is delivered the [unhandledRejection] handler starts the
    graceful shutdown, so the process exits at the latest 8000 ms after the
    rejection is due, whatever else is pending and whatever
    [fastify.close()] and the cleanup tasks do.  On a server with nothing
    else pending, the shutdown starts exactly 10 ms after the request. *)
Theorem api_request_shuts_down (S0 : ServerEnv) (p : Process) (fuel : nat) :
  exited p = None -> shuttingDown p = false ->
  budget S0 (handle S0 ApiRequest p) < fuel ->
  responses (handle S0 ApiRequest p) = (responses p ++ [(clock p, 200)])%list /\
  timers (handle S0 ApiRequest p)
  = (timers p ++ [((clock p + 10)%N, OrphanRejection)])%list /\
  (exists t code,
      exited (run S0 fuel (handle S0 ApiRequest p)) = Some (t, code) /\
      (t <= clock p + 10 + shutdownTimeout)%N) /\
  (timers p = [] ->
   shuttingDown (run S0 fuel (handle S0 ApiRequest p)) = true /\
   ((clock p + 10)%N, "unhandledRejection")
     ∈ log (run S0 fuel (handle S0 ApiRequest p)) /\
   ((clock p + 10)%N, "initiating graceful shutdown: unhandledRejection")
     ∈ log (run S0 fuel (handle S0 ApiRequest p))).
Proof.
  intros Hex Hsd Hfuel.
  assert (handle S0 ApiRequest p = reply 200 (setTimeout 10 OrphanRejection p)) as Hserved.
  { cbn [handle]. by rewrite Hsd. }
  rewrite Hserved in *.
  split; [done|]. split; [done|]. split.
  - apply run_exits_serving; try done.
    cbn [timers reply setTimeout]. apply elem_of_app. right. by apply list_elem_of_singleton.
  - intros Hempty. destruct fuel as [|fuel]; [lia|].
    set (p2 := handle S0 OrphanRejection
                      (advance (clock p + 10) [] (reply 200 (setTimeout 10 OrphanRejection p)))).
    assert (run S0 (S fuel) (reply 200 (setTimeout 10 OrphanRejection p)) = run S0 fuel p2) as ->.
    { cbn [run]. cbn [exited timers reply setTimeout]. by rewrite Hex, Hempty. }
    assert (armed (clock p + 10 + shutdownTimeout) p2) as Harmed.
    { unfold p2, armed. cbn [handle]. unfold gracefulShutdown, start. cbn. rewrite Hsd.
      destruct (close S0); simpl; (split; [|done]); repeat constructor. }
    assert (((clock p + 10)%N, "unhandledRejection") ∈ log p2 /\
            ((clock p + 10)%N, "initiating graceful shutdown: unhandledRejection") ∈ log p2)
      as [Hl1 Hl2].
    { unfold p2. cbn [handle]. unfold gracefulShutdown, start. cbn. rewrite Hsd.
      destruct (close S0); simpl; rewrite !elem_of_app, !list_elem_of_singleton; auto. }
    split; [|split].
    + apply (run_preserves S0 (clock p + 10 + shutdownTimeout)
                           (fun q => shuttingDown q = true));
        [|done|by destruct Harmed as (_ & ? & _)].
      intros q t' ev rest _ Hq _. by apply handle_shuttingDown.
    + by apply run_log.
    + by apply run_log.
Qed.

(** One request at 100 ms on a server whose database never disconnects. *)
Lemma api_request_shuts_down_witness :
  exists t code,
    exited (run scenario_server 20 (handle scenario_server ApiRequest (boot 100)))
    = Some (t, code) /\ (t <= 8110)%N.
Proof.
  destruct (api_request_shuts_down scenario_server (boot 100) 20)
    as (_ & _ & (t & code & Hexit & Hle) & _).
  - reflexivity.
  - reflexivity.
  - vm_compute. lia.
  - exists t, code. split; [exact Hexit | exact Hle].
Defined.

End ShutdownFacts.

(** * Further properties of the code *)

Module BrokerFacts.
Import ZerodhaBroker.

Lemma del_all_filter (ids s : list Z) :
  fold_left (fun s i => set_delete i s) ids s = filter (fun y => y ∉ ids) s.
Proof.
  revert s. induction ids as [|i ids IH]; intros s; simpl.
  - induction s as [|x s IHs]; [done|].
    rewrite filter_cons_True; [by rewrite <- IHs|]. apply not_elem_of_nil.
  - rewrite IH. unfold set_delete. rewrite list_filter_filter.
    apply list_filter_iff. intros x. rewrite not_elem_of_cons. tauto.
Qed.

Lemma add_all_app (ids s : list Z) :
  exists extra, fold_left (fun s i => set_add i s) ids s = (s ++ extra)%list /\
                forall x, x ∈ extra -> x ∈ ids.
Proof.
  revert s. induction ids as [|i ids IH]; intros s; simpl.
  - exists []. split; [by rewrite app_nil_r|]. intros x Hx. by apply elem_of_nil in Hx.
  - destruct (IH (set_add i s)) as (extra & -> & Hsub). unfold set_add.
    destruct (existsb (Z.eqb i) s).
    + exists extra. split; [done|]. intros x Hx. right. by apply Hsub.
    + exists (i :: extra). split; [by rewrite <- app_assoc|].
      intros x Hx. apply elem_of_cons in Hx as [->|Hx]; [left|right; by apply Hsub].
Qed.

Lemma set_add_NoDup (x : Z) (s : list Z) : NoDup s -> NoDup (set_add x s).
Proof.
  intros Hs. unfold set_add. destruct (existsb (Z.eqb x) s) eqn:Hx; [done|].
  apply NoDup_app. split; [done|]. split; [|apply NoDup_singleton].
  intros y Hy Hy'. apply list_elem_of_singleton in Hy' as ->.
  apply existsb_eqb_elem in Hy. congruence.
Qed.

Lemma add_all_NoDup (ids s : list Z) :
  NoDup s -> NoDup (fold_left (fun s i => set_add i s) ids s).
Proof.
  revert s. induction ids as [|i ids IH]; intros s Hs; simpl; [done|].
  apply IH. by apply set_add_NoDup.
Qed.


Lemma ensure_throws (b : Broker) :
  isConnected b = false \/ no_token (accessToken b) = true ->
  _ensureConnected b = Throw "Broker not connected. Please authenticate first.".
Proof.
  unfold _ensureConnected. intros [-> | ->]; [done|]. by rewrite orb_true_r.
Qed.

Lemma read_not_connected (prefix : string) (call : KiteCall) (answer : Result string)
      (b : Broker) :
  isConnected b = false \/ no_token (accessToken b) = true ->
  read prefix call answer b
  = (Throw "Broker not connected. Please authenticate first.", []).
Proof. intros H. unfold read. by rewrite (ensure_throws b H). Qed.

(** X1: once [disconnect()] has returned, the instance refuses every
    operation before anything leaves the process: the five read methods and
    [placeOrder] throw "Broker not connected" without a call to the Kite
    client, [connectWebSocket] throws for want of a token, and the two
    subscription methods throw "WebSocket not connected"; the set of
    subscribed instruments is still the one from before the disconnect. *)
Theorem disconnected_handle_refuses (E : Env) (K : KiteData) (b : Broker) :
  disconnect_fault b = None ->
  let not_connected := Throw "Broker not connected. Please authenticate first." in
  let b' := (disconnect b).2 in
  getProfile E b' = (not_connected, []) /\
  getPositions K b' = (not_connected, []) /\
  getHoldings K b' = (not_connected, []) /\
  getOrders K b' = (not_connected, []) /\
  (forall exchange, getInstruments K exchange b' = (not_connected, [])) /\
  (forall orderParams, placeOrder E orderParams b' = (not_connected, [])) /\
  connectWebSocket E b' = (Throw "Access token not set for WebSocket connection", b') /\
  (forall ins, subscribeToTicker ins b' = (Throw "WebSocket not connected", b')) /\
  (forall ins, unsubscribeFromTicker ins b' = (Throw "WebSocket not connected", b')) /\
  getSubscribedInstruments b' = getSubscribedInstruments b.
Proof.
  intros Hf. cbn zeta. rewrite (DisconnectFacts.disconnect_ok b Hf). cbn [snd].
  repeat split; intros; try (apply read_not_connected; by left); reflexivity.
Qed.

Lemma disconnected_handle_refuses_witness :
  getPositions (mkKiteData (fun _ => Ok "p") (fun _ => Ok "h") (fun _ => Ok "o")
                           (fun _ _ => Ok "i"))
               (disconnect (connected_broker (Some live_ticker) [256265%Z])).2
  = (Throw "Broker not connected. Please authenticate first.", []).
Proof.
  apply (disconnected_handle_refuses kite_ok
           (mkKiteData (fun _ => Ok "p") (fun _ => Ok "h") (fun _ => Ok "o")
                       (fun _ _ => Ok "i"))
           (connected_broker (Some live_ticker) [256265%Z])).
  reflexivity.
Defined.

(** X2: [connect()] returns exactly when it leaves the instance usable:
    its result is a success if and only if [_ensureConnected()] passes
    afterwards.  A failed connect (no token, or the handshake rejected)
    always leaves [isConnected] false, also on an instance that was
    connected before. *)
Theorem connect_gates_use (E : Env) (b : Broker) :
  is_ok (connect E b).1 = is_ok (_ensureConnected (connect E b).2) /\
  (is_ok (connect E b).1 = false -> isConnected (connect E b).2 = false).
Proof.
  unfold connect, connect_begin.
  destruct (no_token (accessToken b)) eqn:Htok; cbn.
  - done.
  - destruct (kc_getProfile E (accessToken b)) as [p|e]; cbn.
    + unfold _ensureConnected. cbn. by rewrite Htok.
    + done.
Qed.

(** X3: [unsubscribeFromTicker(ids)] without a ticker throws "WebSocket not
    connected"; when [ticker.unsubscribe] raises [e] it throws "Failed to
    unsubscribe from ticker: e"; in both cases the instance is unchanged.
    Otherwise it returns the ids, sends one [unsubscribe(ids)] to the
    ticker, and the subscribed set becomes the old one without the ids,
    in the old order. *)
Theorem unsubscribe_outcome (ids : list Z) (b : Broker) :
  (ticker b = None ->
   unsubscribeFromTicker (InstrArray ids) b = (Throw "WebSocket not connected", b))
  /\
  (forall t e, ticker b = Some t -> tk_throws t MUnsubscribe = Some e ->
     unsubscribeFromTicker (InstrArray ids) b
     = (Throw ("Failed to unsubscribe from ticker: " ++ e), b))
  /\
  (forall t, ticker b = Some t -> tk_throws t MUnsubscribe = None ->
     exists b' t',
       unsubscribeFromTicker (InstrArray ids) b = (Ok ids, b') /\
       ticker b' = Some t' /\
       tk_wire t' = (tk_wire t ++ [TkUnsubscribe ids])%list /\
       subscribedInstruments b'
       = filter (fun i => i ∉ ids) (subscribedInstruments b) /\
       (forall i, i ∈ subscribedInstruments b' <->
                  i ∈ subscribedInstruments b /\ i ∉ ids)).
Proof.
  unfold unsubscribeFromTicker, ticker_call. cbn [to_array].
  split; [|split].
  - by intros ->.
  - intros t e -> ->. reflexivity.
  - intros t -> ->. eexists _, _. split; [reflexivity|]. cbn.
    split; [reflexivity|]. split; [reflexivity|].
    rewrite del_all_filter. split; [reflexivity|].
    intros i. rewrite list_elem_of_filter. tauto.
Qed.

Lemma unsubscribe_outcome_witness :
  exists b' t',
    unsubscribeFromTicker (InstrArray [408065%Z; 5%Z])
      (connected_broker (Some live_ticker) [256265%Z; 408065%Z])
    = (Ok [408065%Z; 5%Z], b') /\
    ticker b' = Some t' /\
    tk_wire t' = [TkConnect; TkUnsubscribe [408065%Z; 5%Z]] /\
    subscribedInstruments b' = [256265%Z].
Proof.
  destruct (unsubscribe_outcome [408065%Z; 5%Z]
              (connected_broker (Some live_ticker) [256265%Z; 408065%Z]))
    as (_ & _ & H).
  destruct (H live_ticker eq_refl eq_refl) as (b' & t' & H1 & H2 & H3 & H4 & _).
  exists b', t'. repeat split; [exact H1 | exact H2 | exact H3 |].
  rewrite H4. reflexivity.
Defined.

(** X4: subscribing to [ids] and then unsubscribing from the same [ids]
    (no call of the ticker raising) leaves the subscribed set as the one
    before the two calls without the ids: the pair gives back the old set
    exactly when none of the ids was subscribed before, and otherwise
    drops the ones that were. *)
Theorem subscribe_then_unsubscribe (ids : list Z) (b : Broker) (t : KiteTicker) :
  ticker b = Some t ->
  tk_throws t MSubscribe = None -> tk_throws t MSetMode = None ->
  tk_throws t MUnsubscribe = None ->
  exists b1 b2,
    subscribeToTicker (InstrArray ids) b = (Ok ids, b1) /\
    unsubscribeFromTicker (InstrArray ids) b1 = (Ok ids, b2) /\
    subscribedInstruments b2 = filter (fun i => i ∉ ids) (subscribedInstruments b) /\
    ((forall i, i ∈ ids -> i ∉ subscribedInstruments b) ->
     subscribedInstruments b2 = subscribedInstruments b) /\
    (forall i, i ∈ ids -> i ∉ subscribedInstruments b2).
Proof.
  intros Ht Hs Hm Hu.
  unfold subscribeToTicker, unsubscribeFromTicker, ticker_call. cbn [to_array].
  rewrite Ht. cbn. rewrite Hs. cbn. rewrite Hm. cbn.
  eexists _, _. split; [reflexivity|]. cbn. rewrite Hu.
  split; [reflexivity|]. cbn.
  rewrite del_all_filter.
  assert (filter (fun i => i ∉ ids)
                 (fold_left (fun s i => set_add i s) ids (subscribedInstruments b))
          = filter (fun i => i ∉ ids) (subscribedInstruments b)) as Heq.
  { destruct (add_all_app ids (subscribedInstruments b)) as (extra & -> & Hsub).
    rewrite filter_app.
    assert (filter (fun i => i ∉ ids) extra = []) as ->; [|by rewrite app_nil_r].
    clear -Hsub. induction extra as [|x extra IH]; [done|].
    rewrite filter_cons_False.
    - apply IH. intros y Hy. apply Hsub. by right.
    - intros Hn. apply Hn, Hsub. by left. }
  rewrite Heq. split; [reflexivity|]. split.
  - intros Hfresh. clear -Hfresh.
    induction (subscribedInstruments b) as [|x s IH]; [done|].
    rewrite filter_cons_True.
    + f_equal. apply IH. intros i Hi Hin. apply (Hfresh i Hi). by right.
    + intros Hx. apply (Hfresh x Hx). by left.
  - intros i Hi Hin. apply list_elem_of_filter in Hin as [Hn _]. by apply Hn.
Qed.

Lemma subscribe_then_unsubscribe_witness :
  exists b1 b2,
    subscribeToTicker (InstrArray [408065%Z; 256265%Z])
                      (connected_broker (Some live_ticker) [256265%Z; 7%Z])
    = (Ok [408065%Z; 256265%Z], b1) /\
    unsubscribeFromTicker (InstrArray [408065%Z; 256265%Z]) b1
    = (Ok [408065%Z; 256265%Z], b2) /\
    subscribedInstruments b2 = [7%Z].
Proof.
  destruct (subscribe_then_unsubscribe [408065%Z; 256265%Z]
              (connected_broker (Some live_ticker) [256265%Z; 7%Z]) live_ticker
              eq_refl eq_refl eq_refl eq_refl)
    as (b1 & b2 & H1 & H2 & H3 & _).
  exists b1, b2. split; [exact H1|]. split; [exact H2|]. rewrite H3. reflexivity.
Defined.

End BrokerFacts.

Module CacheFacts.
Import TradingService.

(** The three ways a call of [getBrokerInstance] ends: a hit, a failure
    that leaves the cache alone, or a new connected instance. *)
Lemma getBrokerInstance_cases (E : Env) (now : Z) (u b : string) (w : World) :
  (exists r, map_get (sessionKey u b) (activeBrokers w) = Some r /\
             getBrokerInstance E now u b w = (Ok r, w)) \/
  (map_get (sessionKey u b) (activeBrokers w) = None /\
   exists e ext tr,
     getBrokerInstance E now u b w
     = (Throw ("Failed to get broker instance: " ++ e),
        mkWorld (activeBrokers w) (heap w ++ ext) (sessions w)
                (trace w ++ DbFindActiveSession u b :: tr) (console w))) \/
  (b = "zerodha" /\
   map_get (sessionKey u b) (activeBrokers w) = None /\
   exists s profile,
     TradingSession.findActiveSession now u b (sessions w) = Some s /\
     s_accessToken s <> "" /\
     kc_getProfile E (Some (s_accessToken s)) = Ok profile /\
     getBrokerInstance E now u b w
     = (Ok (length (heap w)),
        mkWorld (map_set (sessionKey u b) (length (heap w)) (activeBrokers w))
                (heap w ++ [fresh_broker E (s_accessToken s)])
                (sessions w)
                (trace w ++ [DbFindActiveSession u b;
                             KiteGetProfile (Some (s_accessToken s))])
                (console w))).
Proof.
  destruct (map_get (sessionKey u b) (activeBrokers w)) as [r|] eqn:Hget.
  { left. exists r. split; [done|]. by apply PoolFacts.getBrokerInstance_hit. }
  right.
  destruct (TradingSession.findActiveSession now u b (sessions w)) as [s|] eqn:Hs.
  2:{ left. split; [done|]. eexists _, [], [].
      rewrite (PoolFacts.getBrokerInstance_no_session E now u b w Hget Hs).
      rewrite app_nil_r. reflexivity. }
  destruct (String.eqb b "zerodha") eqn:Hb.
  2:{ left. split; [done|]. eexists _, [], [].
      unfold getBrokerInstance. cbn [step]. rewrite Hget. cbn [step emit sessions].
      rewrite Hs. unfold getBrokerConfig. rewrite Hb. cbn. rewrite app_nil_r.
      reflexivity. }
  apply String.eqb_eq in Hb. subst b.
  destruct (String.eqb (s_accessToken s) "") eqn:Hempty.
  { left. split; [done|]. eexists _, [_], [].
    unfold getBrokerInstance. cbn [step]. rewrite Hget. cbn [step emit sessions].
    rewrite Hs. cbn [getBrokerConfig String.eqb Ascii.eqb Bool.eqb].
    rewrite PoolFacts.createBroker_zerodha.
    unfold ZerodhaBroker.connect_begin, ZerodhaBroker.setAccessToken,
      ZerodhaBroker.constructor, ZerodhaBroker.no_token.
    cbn [accessToken config isConnected ticker subscribedInstruments kc_token].
    rewrite Hempty. cbn. reflexivity. }
  assert (s_accessToken s <> "") as Htok.
  { intros Heq. rewrite Heq in Hempty. discriminate. }
  destruct (kc_getProfile E (Some (s_accessToken s))) as [profile|e] eqn:Hprof.
  { right. split; [done|]. split; [done|]. exists s, profile.
    repeat split; try done. by apply PoolFacts.getBrokerInstance_miss with profile. }
  left. split; [done|]. eexists _, [_], [_].
  unfold getBrokerInstance. cbn [step]. rewrite Hget. cbn [step emit sessions].
  rewrite Hs. cbn [getBrokerConfig String.eqb Ascii.eqb Bool.eqb].
  rewrite PoolFacts.createBroker_zerodha.
  unfold ZerodhaBroker.connect_begin, ZerodhaBroker.setAccessToken,
    ZerodhaBroker.constructor, ZerodhaBroker.no_token.
  cbn [accessToken config isConnected ticker subscribedInstruments kc_token].
  rewrite Hempty. cbn [step heap emit with_heap].
  rewrite list_lookup_middle by done.
  cbn [kc_token ZerodhaBroker.connect_end]. rewrite Hprof.
  cbn [ZerodhaBroker.connect_end ZerodhaBroker.set_isConnected].
  unfold failed. f_equal. unfold with_heap. cbn. f_equal.
  - replace (length (heap w)) with (length (heap w) + 0)%nat at 1 by lia.
    rewrite insert_app_r. reflexivity.
  - by rewrite <- app_assoc.
Qed.


Lemma map_get_None {V} (k : string) (m : list (string * V)) :
  map_get k m = None <-> k ∉ map fst m.
Proof.
  induction m as [|[k' v] m IH]; simpl.
  - split; [intros _; apply not_elem_of_nil | done].
  - rewrite not_elem_of_cons. destruct (String.eqb k k') eqn:Hk.
    + apply String.eqb_eq in Hk. split; [done|]. intros [Hne _]. done.
    + apply String.eqb_neq in Hk. rewrite IH. tauto.
Qed.

Lemma map_set_fresh {V} (k : string) (v : V) (m : list (string * V)) :
  map_get k m = None -> map_set k v m = (m ++ [(k, v)])%list.
Proof.
  induction m as [|[k' v'] m IH]; simpl; [done|].
  destruct (String.eqb k k'); [done|]. intros H. by rewrite IH.
Qed.

Lemma map_delete_elem {V} (k : string) (m : list (string * V)) (e : string * V) :
  NoDup (map fst m) -> e ∈ map_delete k m <-> e ∈ m /\ e.1 <> k.
Proof.
  induction m as [|[k' v'] m IH]; simpl; intros Hnd.
  - split; [by intros ?%elem_of_nil | by intros [?%elem_of_nil _]].
  - apply NoDup_cons in Hnd as [Hk' Hnd].
    destruct (String.eqb k k') eqn:Hk.
    + apply String.eqb_eq in Hk. subst k'. rewrite elem_of_cons. split.
      * intros He. split; [by right|]. intros Heq. apply Hk'.
        apply list_elem_of_fmap. by exists e.
      * intros [[-> | He] Hne]; [done | done].
    + apply String.eqb_neq in Hk. rewrite !elem_of_cons, (IH Hnd). split.
      * intros [-> | [He Hne]]; [split; [by left | by intros <-] | split; [by right | done]].
      * intros [[-> | He] Hne]; [by left | by right].
Qed.

Lemma map_delete_NoDup_fst {V} (k : string) (m : list (string * V)) :
  NoDup (map fst m) -> NoDup (map fst (map_delete k m)).
Proof.
  induction m as [|[k' v'] m IH]; simpl; [done|]. intros Hnd.
  apply NoDup_cons in Hnd as [Hk' Hnd].
  destruct (String.eqb k k'); [done|]. simpl. apply NoDup_cons. split; [|by apply IH].
  intros Hin. apply Hk'. apply list_elem_of_fmap in Hin as (e & -> & He).
  apply (map_delete_elem k m e Hnd) in He as [He _].
  apply list_elem_of_fmap. by exists e.
Qed.

Lemma map_delete_NoDup_snd {V} (k : string) (m : list (string * V)) :
  NoDup (map fst m) -> NoDup (map snd m) -> NoDup (map snd (map_delete k m)).
Proof.
  induction m as [|[k' v'] m IH]; simpl; [done|]. intros Hk Hnd.
  apply NoDup_cons in Hk as [Hk' Hk]. apply NoDup_cons in Hnd as [Hv' Hnd].
  destruct (String.eqb k k'); [done|]. simpl. apply NoDup_cons. split; [|by apply IH].
  intros Hin. apply Hv'. apply list_elem_of_fmap in Hin as (e & -> & He).
  apply (map_delete_elem k m e Hk) in He as [He _].
  apply list_elem_of_fmap. by exists e.
Qed.

Lemma map_get_delete {V} (k : string) (m : list (string * V)) :
  NoDup (map fst m) -> map_get k (map_delete k m) = None.
Proof.
  intros Hnd. apply map_get_None. intros Hin.
  apply list_elem_of_fmap in Hin as (e & -> & He).
  apply (map_delete_elem _ m e Hnd) in He as [_ Hne]. done.
Qed.

Lemma map_get_delete_ne {V} (k k' : string) (m : list (string * V)) :
  k <> k' -> map_get k' (map_delete k m) = map_get k' m.
Proof.
  intros Hne. induction m as [|[k0 v0] m IH]; simpl; [done|].
  destruct (String.eqb k k0) eqn:Hk.
  - apply String.eqb_eq in Hk. subst k0.
    destruct (String.eqb k' k) eqn:Hk'; [|done].
    apply String.eqb_eq in Hk'. congruence.
  - simpl. by rewrite IH.
Qed.

(** ** The cache invariant *)

Lemma live_frame (w w' : World) :
  pool_live w ->
  activeBrokers w' = activeBrokers w ->
  (forall r b, heap w !! r = Some b -> ZerodhaBroker._ensureConnected b = Ok tt ->
     exists b', heap w' !! r = Some b' /\ ZerodhaBroker._ensureConnected b' = Ok tt) ->
  pool_live w'.
Proof.
  intros (Hk & Hr & Hall) Hp Hh. unfold pool_live. rewrite Hp.
  split; [done|]. split; [done|]. intros k r Hin.
  destruct (Hall k r Hin) as [Hu (b & Hb & Hc)]. split; [done|]. by apply (Hh r b).
Qed.

Lemma live_same_heap (w w' : World) :
  pool_live w -> activeBrokers w' = activeBrokers w -> heap w' = heap w -> pool_live w'.
Proof.
  intros Hl Hp Hh. apply (live_frame w w' Hl Hp). intros r b Hb Hc.
  exists b. by rewrite Hh.
Qed.

Lemma live_update (w w' : World) (r : nat) (b' : Broker) :
  pool_live w ->
  activeBrokers w' = activeBrokers w ->
  heap w' = <[r := b']> (heap w) ->
  (forall b, heap w !! r = Some b -> ZerodhaBroker._ensureConnected b = Ok tt ->
     ZerodhaBroker._ensureConnected b' = Ok tt) ->
  pool_live w'.
Proof.
  intros Hl Hp Hh Hb'. apply (live_frame w w' Hl Hp). intros r0 b Hb Hc.
  rewrite Hh. destruct (decide (r0 = r)) as [->|Hne].
  - exists b'. split; [|by apply (Hb' b)].
    apply list_lookup_insert_eq. by apply lookup_lt_Some in Hb.
  - exists b. split; [|done]. by rewrite list_lookup_insert_ne.
Qed.

Lemma live_evict (w w' : World) (key : string) (r : nat) (b' : Broker) :
  pool_live w ->
  map_get key (activeBrokers w) = Some r ->
  activeBrokers w' = map_delete key (activeBrokers w) ->
  heap w' = <[r := b']> (heap w) ->
  pool_live w'.
Proof.
  intros (Hk & Hr & Hall) Hget Hp Hh. unfold pool_live. rewrite Hp.
  split; [by apply map_delete_NoDup_fst|]. split; [by apply map_delete_NoDup_snd|].
  intros k r0 Hin. apply (map_delete_elem key _ _ Hk) in Hin as [Hin Hne].
  destruct (Hall k r0 Hin) as [Hu (b & Hb & Hc)]. split; [done|].
  exists b. split; [|done]. rewrite Hh. rewrite list_lookup_insert_ne; [done|].
  intros ->. apply Hne. simpl.
  apply (SweepFacts.map_get_elem _ _ _ Hk) in Hget.
  by pose proof (SweepFacts.NoDup_snd_inj _ (k, r0) (key, r0) Hr Hin Hget eq_refl)
    as [= ->].
Qed.

Lemma fresh_broker_connected (E : Env) (tok : string) :
  tok <> "" -> ZerodhaBroker._ensureConnected (fresh_broker E tok) = Ok tt.
Proof.
  intros Htok. unfold ZerodhaBroker._ensureConnected, fresh_broker. cbn.
  destruct (String.eqb tok "") eqn:He; [|done]. by apply String.eqb_eq in He.
Qed.

Lemma getBrokerInstance_live (E : Env) (now : Z) (u b : string) (w : World) :
  pool_live w ->
  pool_live (getBrokerInstance E now u b w).2 /\
  forall r, (getBrokerInstance E now u b w).1 = Ok r ->
    exists bk, heap (getBrokerInstance E now u b w).2 !! r = Some bk /\
               ZerodhaBroker._ensureConnected bk = Ok tt.
Proof.
  intros Hl.
  destruct (getBrokerInstance_cases E now u b w)
    as [(r & Hget & ->) | [(Hget & e & ext & tr & ->) |
        (-> & Hget & s & profile & Hs & Htok & Hprof & ->)]]; cbn [fst snd].
  - split; [done|]. intros r0 [= <-].
    destruct Hl as (Hk & _ & Hall).
    apply (SweepFacts.map_get_elem _ _ _ Hk) in Hget. by apply (Hall _ _ Hget).
  - split; [|done]. apply (live_frame w _ Hl); [done|].
    intros r b0 Hb Hc. exists b0. split; [|done]. cbn.
    by apply lookup_app_l_Some.
  - assert ((heap w ++ [fresh_broker E (s_accessToken s)])%list !! length (heap w)
            = Some (fresh_broker E (s_accessToken s))) as Hnew.
    { by apply list_lookup_middle. }
    split.
    + destruct Hl as (Hk & Hr & Hall). unfold pool_live. cbn [activeBrokers heap].
      rewrite (map_set_fresh _ _ _ Hget). rewrite !map_app. cbn [map fst snd].
      split; [|split].
      * apply NoDup_app. split; [done|]. split; [|apply NoDup_singleton].
        intros k Hin ->%list_elem_of_singleton. by apply map_get_None in Hget.
      * apply NoDup_app. split; [done|]. split; [|apply NoDup_singleton].
        intros r Hin ->%list_elem_of_singleton.
        apply list_elem_of_fmap in Hin as ([k r] & Heq & Hin). simpl in Heq.
        destruct (Hall k r Hin) as [_ (b0 & Hb & _)].
        apply lookup_lt_Some in Hb. lia.
      * intros k r [Hin | Heq%list_elem_of_singleton]%elem_of_app.
        -- destruct (Hall k r Hin) as [Hu (b0 & Hb & Hc)]. split; [done|].
           exists b0. split; [|done]. by apply lookup_app_l_Some.
        -- injection Heq as -> ->. split; [by exists u|].
           eexists. split; [exact Hnew|]. by apply fresh_broker_connected.
    + intros r [= <-]. cbn [heap]. eexists. split; [exact Hnew|].
      by apply fresh_broker_connected.
Qed.


Lemma on_broker_live {A} (E : Env) (now : Z) (prefix u b : string)
      (method : Broker -> Result A * Broker) (w : World) :
  (forall bk, ZerodhaBroker._ensureConnected bk = Ok tt ->
              ZerodhaBroker._ensureConnected (method bk).2 = Ok tt) ->
  pool_live w -> pool_live (on_broker E now prefix u b method w).2.
Proof.
  intros Hm Hl. unfold on_broker.
  destruct (getBrokerInstance_live E now u b w Hl) as [Hl1 _].
  destruct (getBrokerInstance E now u b w) as [[r|e] w1]; cbn [snd] in *; [|done].
  destruct (heap w1 !! r) as [bk|] eqn:Hbk; [|done].
  specialize (Hm bk). destruct (method bk) as [[a|e] bk']; cbn [snd] in *.
  - apply (live_update w1 _ r bk' Hl1); [done | done |].
    intros b0 Hb0 Hc. apply Hm. congruence.
  - apply (live_update w1 _ r bk' Hl1); [done | done |].
    intros b0 Hb0 Hc. apply Hm. congruence.
Qed.

Lemma connectWebSocket_keeps (E : Env) (bk : Broker) :
  ZerodhaBroker._ensureConnected (ZerodhaBroker.connectWebSocket E bk).2
  = ZerodhaBroker._ensureConnected bk.
Proof.
  unfold ZerodhaBroker.connectWebSocket. destruct (accessToken bk) as [tok|]; [|done].
  destruct (String.eqb tok ""); [done|].
  by destruct (ticker_call _ _ _).
Qed.

Lemma subscribe_keeps (ins : Instruments) (bk : Broker) :
  ZerodhaBroker._ensureConnected (ZerodhaBroker.subscribeToTicker ins bk).2
  = ZerodhaBroker._ensureConnected bk.
Proof.
  unfold ZerodhaBroker.subscribeToTicker. destruct (ticker bk) as [t|]; [|done].
  destruct (ticker_call _ _ t); [|done]. by destruct (ticker_call _ _ _).
Qed.

Lemma unsubscribe_keeps (ins : Instruments) (bk : Broker) :
  ZerodhaBroker._ensureConnected (ZerodhaBroker.unsubscribeFromTicker ins bk).2
  = ZerodhaBroker._ensureConnected bk.
Proof.
  unfold ZerodhaBroker.unsubscribeFromTicker. destruct (ticker bk) as [t|]; [|done].
  by destruct (ticker_call _ _ t).
Qed.

Lemma emits_pool (io : list IO) (w : World) :
  activeBrokers (fold_left (fun w c => emit c w) io w) = activeBrokers w /\
  heap (fold_left (fun w c => emit c w) io w) = heap w.
Proof.
  revert w. induction io as [|c io IH]; intros w; simpl; [done|].
  destruct (IH (emit c w)) as [-> ->]. done.
Qed.

Lemma placeOrder_live (E : Env) (now : Z) (u b : string)
      (op : gmap string JsValue) (w : World) :
  pool_live w -> pool_live (placeOrder E now u b op w).2.
Proof.
  intros Hl. unfold placeOrder.
  destruct (getBrokerInstance_live E now u b w Hl) as [Hl1 _].
  destruct (getBrokerInstance E now u b w) as [[r|e] w1]; cbn [snd] in *; [|done].
  destruct (validateOrderParams b op); [|done].
  destruct (heap w1 !! r) as [bk|]; [|done].
  destruct (ZerodhaBroker.placeOrder E op bk) as [[res|e] io]; cbn [snd];
    apply (live_same_heap w1 _ Hl1); apply emits_pool.
Qed.

Lemma disconnect_cases (bk : Broker) :
  (exists e, ZerodhaBroker.disconnect bk = (Throw e, bk)) \/
  (exists bk', ZerodhaBroker.disconnect bk = (Ok tt, bk')).
Proof.
  destruct (disconnect_fault bk) as [e|] eqn:Hf.
  - left. eexists. by apply DisconnectFacts.disconnect_throws.
  - right. eexists. by apply DisconnectFacts.disconnect_ok.
Qed.

Lemma disconnectBroker_live (u b : string) (w : World) :
  pool_live w -> pool_live (disconnectBroker u b w).2.
Proof.
  intros Hl. unfold disconnectBroker.
  destruct (map_get (sessionKey u b) (activeBrokers w)) as [r|] eqn:Hget; cbn [snd].
  2:{ by apply (live_same_heap w _ Hl). }
  destruct (heap w !! r) as [bk|] eqn:Hbk; [|done].
  destruct (disconnect_cases bk) as [[e ->] | [bk' ->]]; cbn [snd].
  - apply (live_update w _ r bk Hl); [done | done |]. intros b0 Hb0. congruence.
  - by apply (live_evict w _ (sessionKey u b) r bk' Hl).
Qed.

Lemma sweep_loop_live (now : Z) (entries : list (string * nat)) :
  forall (seen : list (string * nat)) (w : World),
    activeBrokers w = (seen ++ entries)%list ->
    pool_live w -> pool_live (sweep_loop now entries w).2.
Proof.
  induction entries as [|[key r] rest IH]; intros seen w Hpool Hl; [done|].
  cbn [sweep_loop]. set (w1 := emit (query_of_key key) w).
  assert (pool_live w1) as Hl1 by (by apply (live_same_heap w _ Hl)).
  destruct (session_of_key now key (sessions w1)).
  { apply (IH (seen ++ [(key, r)])%list); [|done].
    cbn. rewrite Hpool. by rewrite <- app_assoc. }
  destruct (heap w1 !! r) as [bk|] eqn:Hbk; [|done].
  destruct (disconnect_cases bk) as [[e ->] | [bk' ->]]; cbn [snd].
  - apply (live_update w1 _ r bk Hl1); [done | done |]. intros b0 Hb0. congruence.
  - pose proof Hl1 as (Hk & _ & _).
    assert (key ∉ map fst seen) as Hnotin.
    { change (activeBrokers w1) with (activeBrokers w) in Hk. rewrite Hpool in Hk.
      rewrite map_app in Hk. apply NoDup_app in Hk as (_ & Hdisj & _).
      intros Hin. apply (Hdisj key Hin). simpl. by left. }
    apply (IH seen).
    + cbn. rewrite Hpool. by apply SweepFacts.map_delete_middle.
    + apply (live_evict w1 _ key r bk' Hl1); [|done | done].
      apply (SweepFacts.map_get_elem _ _ _ Hk).
      change (activeBrokers w1) with (activeBrokers w). rewrite Hpool.
      apply elem_of_app. right. by left.
Qed.

Lemma cleanupExpiredSessions_live (now : Z) (w : World) :
  pool_live w -> pool_live (cleanupExpiredSessions now w).2.
Proof.
  intros Hl. unfold cleanupExpiredSessions. set (w0 := emit DbCleanupExpired _).
  assert (pool_live w0) as Hl0 by (by apply (live_same_heap w _ Hl)).
  pose proof (sweep_loop_live now (activeBrokers w0) [] w0 eq_refl Hl0) as Hl1.
  destruct (sweep_loop now (activeBrokers w0) w0) as [[[]|e] w1]; cbn [snd] in *; [done|].
  by apply (live_same_heap w1 _ Hl1).
Qed.

(** The loop of [cleanupBrokerConnections] reaches its end whenever the
    references it visits are allocated; it never changes the Map. *)
Lemma disconnect_loop_ok (entries : list (string * nat)) :
  forall w : World,
    (forall e, e ∈ entries -> is_Some (heap w !! e.2)) ->
    exists w',
      TradingServer.disconnect_loop entries w = (Ok tt, w') /\
      activeBrokers w' = activeBrokers w /\
      sessions w' = sessions w /\
      trace w' = trace w /\
      length (heap w') = length (heap w).
Proof.
  induction entries as [|[key r] rest IH]; intros w Hall; [by exists w|].
  cbn [TradingServer.disconnect_loop].
  destruct (Hall (key, r)) as [bk Hbk]; [by left|]. simpl in Hbk. rewrite Hbk.
  assert (forall (b' : Broker) e, e ∈ rest -> is_Some (<[r := b']> (heap w) !! e.2))
    as Hrest.
  { intros b' e He. apply lookup_lt_is_Some. rewrite length_insert.
    apply lookup_lt_is_Some. apply Hall. by right. }
  destruct (ZerodhaBroker.disconnect bk) as [[[]|e] bk'].
  - destruct (IH (with_heap (<[r := bk']> (heap w)) w)) as (w' & -> & Hp & Hs & Ht & Hlen).
    { apply Hrest. }
    exists w'. cbn in *. rewrite length_insert in Hlen. done.
  - destruct (IH (console_error
                    ("Warning: Failed to disconnect broker " ++ key ++ ": " ++ e)
                    (with_heap (<[r := bk']> (heap w)) w)))
      as (w' & -> & Hp & Hs & Ht & Hlen).
    { apply Hrest. }
    exists w'. cbn in *. rewrite length_insert in Hlen. done.
Qed.

Lemma cleanupBrokerConnections_live (w : World) :
  pool_live w -> pool_live (TradingServer.cleanupBrokerConnections w).
Proof.
  intros (_ & _ & Hall).
  unfold TradingServer.cleanupBrokerConnections,
    TradingServer.cleanupBrokerConnections_begin.
  destruct (disconnect_loop_ok (activeBrokers w) w) as (w' & -> & _).
  { intros [k r] Hin. destruct (Hall k r Hin) as [_ (bk & Hbk & _)]. by exists bk. }
  cbn. split; [apply NoDup_nil_2|]. split; [apply NoDup_nil_2|].
  intros k r Hin. by apply elem_of_nil in Hin.
Qed.

Lemma serve_live (E : Env) (now : Z) (req : Request) (w : World) :
  pool_live w -> pool_live (serve E now req w).
Proof.
  intros Hl. destruct req; cbn [serve].
  - by apply getBrokerInstance_live.
  - apply on_broker_live; [|done]. intros bk. by rewrite connectWebSocket_keeps.
  - apply on_broker_live; [|done]. intros bk. by rewrite subscribe_keeps.
  - apply on_broker_live; [|done]. intros bk. by rewrite unsubscribe_keeps.
  - by apply on_broker_live.
  - by apply placeOrder_live.
  - by apply disconnectBroker_live.
  - by apply cleanupExpiredSessions_live.
  - by apply cleanupBrokerConnections_live.
  - by apply (live_same_heap w).
Qed.

Lemma replay_live (history : list (Env * Z * Request)) :
  forall w, pool_live w -> pool_live (replay history w).
Proof.
  induction history as [|[[E now] req] rest IH]; intros w Hl; [done|].
  cbn [replay]. apply IH. by apply serve_live.
Qed.

(** X5: whatever calls the service has served since it started (handle
    requests, stream and order calls, disconnects, sweeps, the shutdown
    cleanup, changes of the session collection; each awaited before the
    next), the cache holds one entry per key and one instance per entry,
    and every cached instance is connected and holds its token.  So
    every handle [getBrokerInstance] then returns passes
    [_ensureConnected()]. *)
Theorem served_handles_are_connected
        (history : list (Env * Z * Request)) (store : list Session) :
  pool_live (replay history (world_of store)) /\
  forall E now u b r w',
    getBrokerInstance E now u b (replay history (world_of store)) = (Ok r, w') ->
    exists bk, heap w' !! r = Some bk /\ ZerodhaBroker._ensureConnected bk = Ok tt.
Proof.
  assert (pool_live (replay history (world_of store))) as Hl.
  { apply replay_live. split; [apply NoDup_nil_2|]. split; [apply NoDup_nil_2|].
    intros k r Hin. by apply elem_of_nil in Hin. }
  split; [done|]. intros E now u b r w' Hget.
  destruct (getBrokerInstance_live E now u b _ Hl) as [_ Hok].
  rewrite Hget in Hok. by apply Hok.
Qed.

Lemma served_handles_are_connected_witness :
  exists bk,
    heap (replay [(kite_ok, 1000%Z, ReqBroker "u1" "zerodha");
                  (kite_ok, 1200%Z, ReqConnectWebSocket "u1" "zerodha");
                  (kite_ok, 1500%Z, ReqSweep)]
                 (world_of [session_u1])) !! 0%nat = Some bk /\
    ZerodhaBroker._ensureConnected bk = Ok tt.
Proof.
  destruct (served_handles_are_connected
              [(kite_ok, 1000%Z, ReqBroker "u1" "zerodha");
               (kite_ok, 1200%Z, ReqConnectWebSocket "u1" "zerodha");
               (kite_ok, 1500%Z, ReqSweep)]
              [session_u1]) as [_ H].
  apply (H kite_ok 1600%Z "u1" "zerodha" 0%nat). reflexivity.
Defined.

End CacheFacts.

Module KeyFacts.
Import TradingService.

Lemma sessionKey_cons (c : ascii) (u b : string) :
  sessionKey (String c u) b = String c (sessionKey u b).
Proof. reflexivity. Qed.

(** X6: the cache key separates users: for user ids without an underscore
    (the hexadecimal form of an ObjectId) two keys are equal only if both
    the user id and the broker type are, whatever the broker types
    contain; and [key.split('_')] gives back the user id in its first
    part, and the broker type in its second when that has no underscore
    either. *)
Theorem sessionKey_separates_users (u1 b1 u2 b2 : string) :
  no_underscore u1 = true -> no_underscore u2 = true ->
  (sessionKey u1 b1 = sessionKey u2 b2 -> u1 = u2 /\ b1 = b2) /\
  (exists parts, split_underscore (sessionKey u1 b1) = u1 :: parts) /\
  (no_underscore b1 = true -> split_underscore (sessionKey u1 b1) = [u1; b1]).
Proof.
  intros Hu1 Hu2. split; [|split].
  - revert u2 Hu2. induction u1 as [|c1 u1 IH]; intros [|c2 u2] Hu2 Heq.
    + change (String "_" b1 = String "_" b2) in Heq. by injection Heq as ->.
    + rewrite sessionKey_cons in Heq. change (sessionKey "" b1) with (String "_" b1) in Heq.
      injection Heq as <- _. simpl in Hu2. done.
    + rewrite sessionKey_cons in Heq. change (sessionKey "" b2) with (String "_" b2) in Heq.
      injection Heq as -> _. simpl in Hu1. done.
    + rewrite !sessionKey_cons in Heq. injection Heq as -> Heq.
      simpl in Hu1, Hu2. apply andb_prop in Hu1 as [_ Hu1].
      apply andb_prop in Hu2 as [_ Hu2].
      destruct (IH Hu1 u2 Hu2 Heq) as [-> ->]. done.
  - clear Hu2. induction u1 as [|c1 u1 IH].
    + by eexists.
    + simpl in Hu1. apply andb_prop in Hu1 as [Hc Hu1].
      destruct (IH Hu1) as [parts Hp]. exists parts.
      rewrite sessionKey_cons. cbn [split_underscore].
      apply negb_true_iff in Hc. rewrite Hc, Hp. done.
  - intros Hb1. by apply SweepFacts.split_sessionKey.
Qed.

Lemma sessionKey_separates_users_witness :
  (sessionKey "64b7f0c2a1" "zerodha" = sessionKey "64b7f0c2a1" "zerodha" ->
   "64b7f0c2a1" = "64b7f0c2a1" /\ "zerodha" = "zerodha") /\
  (exists parts, split_underscore (sessionKey "64b7f0c2a1" "zerodha")
                 = "64b7f0c2a1" :: parts) /\
  (no_underscore "zerodha" = true ->
   split_underscore (sessionKey "64b7f0c2a1" "zerodha") = ["64b7f0c2a1"; "zerodha"]).
Proof.
  apply (sessionKey_separates_users "64b7f0c2a1" "zerodha" "64b7f0c2a1" "zerodha");
    reflexivity.
Defined.

End KeyFacts.

Module HandshakeFacts.
Import TradingService.

(** X7: only the broker type spelled exactly "zerodha" can get a handle.
    For any other broker type (also "ZERODHA", which [createBroker] would
    accept) a call that misses the cache fails after its session query:
    with "No active ... session found" when there is no usable session,
    with "Unsupported broker: ..." when there is one; no instance is
    made, nothing is cached and no handshake is sent. *)
Theorem getBrokerInstance_other_broker
        (E : Env) (now : Z) (u b : string) (w : World) :
  b <> "zerodha" ->
  map_get (sessionKey u b) (activeBrokers w) = None ->
  getBrokerInstance E now u b w
  = (Throw ("Failed to get broker instance: " ++
            match TradingSession.findActiveSession now u b (sessions w) with
            | None => "No active " ++ b ++ " session found"
            | Some _ => "Unsupported broker: " ++ b
            end),
     emit (DbFindActiveSession u b) w).
Proof.
  intros Hb Hmiss. unfold getBrokerInstance. cbn [step]. rewrite Hmiss.
  cbn [step emit sessions].
  destruct (TradingSession.findActiveSession now u b (sessions w)); [|done].
  unfold getBrokerConfig. apply String.eqb_neq in Hb. rewrite Hb. done.
Qed.

Lemma getBrokerInstance_other_broker_witness :
  getBrokerInstance kite_ok 1000 "u1" "ZERODHA"
                    (world_of [mkSession "u1" "ZERODHA" "tok" 2000 true])
  = (Throw "Failed to get broker instance: Unsupported broker: ZERODHA",
     emit (DbFindActiveSession "u1" "ZERODHA")
          (world_of [mkSession "u1" "ZERODHA" "tok" 2000 true])).
Proof.
  apply (getBrokerInstance_other_broker kite_ok 1000 "u1" "ZERODHA"
           (world_of [mkSession "u1" "ZERODHA" "tok" 2000 true])).
  - discriminate.
  - reflexivity.
Defined.

Lemma handshakes_app (w : World) (tr : list IO) :
  length (List.filter is_handshake (trace w ++ tr))
  = (handshakes w + length (List.filter is_handshake tr))%nat.
Proof. unfold handshakes. by rewrite List.filter_app, length_app. Qed.

(** A cache miss whose handshake is rejected: one query, one handshake,
    one instance allocated and left unconnected, nothing cached. *)
Lemma getBrokerInstance_rejected (E : Env) (now : Z) (u : string) (w : World)
      (s : Session) (e : string) :
  map_get (sessionKey u "zerodha") (activeBrokers w) = None ->
  TradingSession.findActiveSession now u "zerodha" (sessions w) = Some s ->
  s_accessToken s <> "" ->
  kc_getProfile E (Some (s_accessToken s)) = Throw e ->
  getBrokerInstance E now u "zerodha" w
  = (Throw ("Failed to get broker instance: Failed to connect to Zerodha: " ++ e),
     mkWorld (activeBrokers w)
             (heap w ++ [ZerodhaBroker.set_isConnected false
                           (fresh_broker E (s_accessToken s))])
             (sessions w)
             (trace w ++ [DbFindActiveSession u "zerodha";
                          KiteGetProfile (Some (s_accessToken s))])
             (console w)).
Proof.
  intros Hmiss Hs Htok Hprof. unfold getBrokerInstance.
  cbn [step]. rewrite Hmiss. cbn [step emit sessions].
  rewrite Hs. cbn [getBrokerConfig String.eqb Ascii.eqb Bool.eqb].
  rewrite PoolFacts.createBroker_zerodha.
  unfold ZerodhaBroker.connect_begin, ZerodhaBroker.setAccessToken,
    ZerodhaBroker.constructor, ZerodhaBroker.no_token.
  cbn [accessToken config isConnected ticker subscribedInstruments kc_token].
  destruct (String.eqb (s_accessToken s) "") eqn:Hempty.
  { apply String.eqb_eq in Hempty. done. }
  cbn [step heap emit with_heap].
  rewrite list_lookup_middle by done.
  cbn [kc_token ZerodhaBroker.connect_end]. rewrite Hprof.
  cbn [ZerodhaBroker.connect_end ZerodhaBroker.set_isConnected].
  unfold failed. f_equal. unfold with_heap, fresh_broker. cbn. f_equal.
  - replace (length (heap w)) with (length (heap w) + 0)%nat at 1 by lia.
    by rewrite insert_app_r.
  - by rewrite <- app_assoc.
Qed.

(** X8: a rejected handshake is not remembered.  With an active session
    whose handshake the Kite client rejects with [e], each of [n] calls
    made one after the other fails with "Failed to get broker instance:
    Failed to connect to Zerodha: e", sends a handshake of its own and
    allocates an instance of its own; the cache is left as it was. *)
Theorem rejected_handshake_is_retried
        (E : Env) (now : Z) (n : nat) (u : string) (w : World)
        (s : Session) (e : string) :
  map_get (sessionKey u "zerodha") (activeBrokers w) = None ->
  TradingSession.findActiveSession now u "zerodha" (sessions w) = Some s ->
  s_accessToken s <> "" ->
  kc_getProfile E (Some (s_accessToken s)) = Throw e ->
  (sequential E now n u "zerodha" w).1
  = replicate n
      (Throw ("Failed to get broker instance: Failed to connect to Zerodha: " ++ e)) /\
  handshakes (sequential E now n u "zerodha" w).2 = (handshakes w + n)%nat /\
  activeBrokers (sequential E now n u "zerodha" w).2 = activeBrokers w /\
  length (heap (sequential E now n u "zerodha" w).2) = (length (heap w) + n)%nat.
Proof.
  intros Hmiss Hs Htok Hprof. revert w Hmiss Hs.
  induction n as [|n IH]; intros w Hmiss Hs.
  { cbn. repeat split; lia. }
  cbn [sequential].
  rewrite (getBrokerInstance_rejected E now u w s e Hmiss Hs Htok Hprof).
  set (w1 := mkWorld _ _ _ _ _).
  destruct (IH w1 Hmiss Hs) as (Hr & Hh & Hp & Hl).
  destruct (sequential E now n u "zerodha" w1) as [rs w2]. cbn [fst snd] in *.
  split; [by rewrite Hr|]. split; [|split].
  - rewrite Hh. unfold w1, handshakes at 1. cbn [trace].
    rewrite handshakes_app. cbn. lia.
  - by rewrite Hp.
  - rewrite Hl. unfold w1. cbn [heap]. rewrite length_app. cbn. lia.
Qed.

Lemma rejected_handshake_is_retried_witness :
  (sequential (mkEnv (fun _ => Throw "TokenException") (fun _ => Ok "order-1")
                     (fun _ => None) "key" "secret")
              1000 3 "u1" "zerodha" (world_of [session_u1])).1
  = replicate 3
      (Throw "Failed to get broker instance: Failed to connect to Zerodha: TokenException")
  /\ handshakes
       (sequential (mkEnv (fun _ => Throw "TokenException") (fun _ => Ok "order-1")
                          (fun _ => None) "key" "secret")
                   1000 3 "u1" "zerodha" (world_of [session_u1])).2 = 3%nat.
Proof.
  destruct (rejected_handshake_is_retried
              (mkEnv (fun _ => Throw "TokenException") (fun _ => Ok "order-1")
                     (fun _ => None) "key" "secret")
              1000 3 "u1" (world_of [session_u1]) session_u1 "TokenException")
    as (H1 & H2 & _); try reflexivity; [discriminate|].
  split; [exact H1 | exact H2].
Defined.

End HandshakeFacts.

Module DisconnectBrokerFacts.
Import TradingService.

Lemma deactivate_none (now : Z) (u b : string) (store : list Session) :
  TradingSession.findActiveSession now u b (TradingSession.deactivate u b store) = None.
Proof.
  apply SessionFacts.find_none_iff. intros x Hx.
  apply list_elem_of_fmap in Hx as (s & -> & _).
  destruct (String.eqb (s_userId s) u && String.eqb (s_brokerType s) b && s_isActive s)
    eqn:Hc.
  - unfold TradingSession.matches. cbn. by rewrite andb_false_r.
  - unfold TradingSession.matches.
    destruct (String.eqb (s_userId s) u && String.eqb (s_brokerType s) b && s_isActive s);
      [done|]. done.
Qed.

Lemma deactivate_other (now : Z) (u b u' b' : string) (store : list Session) :
  (u', b') <> (u, b) ->
  TradingSession.findActiveSession now u' b' (TradingSession.deactivate u b store)
  = TradingSession.findActiveSession now u' b' store.
Proof.
  intros Hne. unfold TradingSession.findActiveSession, TradingSession.deactivate.
  induction store as [|s store IH]; [done|]. cbn [map find].
  destruct (String.eqb (s_userId s) u && String.eqb (s_brokerType s) b && s_isActive s)
    eqn:Hc.
  - apply andb_prop in Hc as [Hc _]. apply andb_prop in Hc as [Hu Hb].
    apply String.eqb_eq in Hu, Hb.
    assert (TradingSession.matches now u' b' s = false) as ->.
    { unfold TradingSession.matches. rewrite Hu, Hb.
      destruct (String.eqb u u') eqn:H1; [|done].
      destruct (String.eqb b b') eqn:H2; [|done].
      apply String.eqb_eq in H1, H2. congruence. }
    assert (TradingSession.matches now u' b'
              (mkSession (s_userId s) (s_brokerType s) (s_accessToken s)
                         (s_expiresAt s) false) = false) as ->.
    { unfold TradingSession.matches. cbn. by rewrite andb_false_r. }
    exact IH.
  - destruct (TradingSession.matches now u' b' s); [done | exact IH].
Qed.

(** X9: [disconnectBroker] for a key whose handle is cached.  If the
    ticker of the handle raises [e] on disconnect, the call throws "Failed
    to disconnect broker: Failed to disconnect from Zerodha: e" and changes
    nothing at all: the handle stays cached and the sessions stay active.
    Otherwise the handle is disconnected, its entry is removed and the
    entries of all other keys are kept; the sessions of the key are
    deactivated, those of other keys are as before; and the next
    [getBrokerInstance] for the key never gets the old handle back: it
    fails with "No active ... session found". *)
Theorem disconnectBroker_outcome
        (E : Env) (now : Z) (u b : string) (w : World) (r : nat) (bk : Broker) :
  NoDup (map fst (activeBrokers w)) ->
  map_get (sessionKey u b) (activeBrokers w) = Some r ->
  heap w !! r = Some bk ->
  match disconnect_fault bk with
  | Some e =>
      disconnectBroker u b w
      = (Throw ("Failed to disconnect broker: Failed to disconnect from Zerodha: " ++ e), w)
  | None =>
      exists w1 bk',
        disconnectBroker u b w = (Ok tt, w1) /\
        heap w1 !! r = Some bk' /\ disconnected bk' /\
        map_get (sessionKey u b) (activeBrokers w1) = None /\
        (forall k, k <> sessionKey u b ->
           map_get k (activeBrokers w1) = map_get k (activeBrokers w)) /\
        (forall u' b', (u', b') <> (u, b) ->
           TradingSession.findActiveSession now u' b' (sessions w1)
           = TradingSession.findActiveSession now u' b' (sessions w)) /\
        getBrokerInstance E now u b w1
        = (Throw ("Failed to get broker instance: No active " ++ b ++ " session found"),
           emit (DbFindActiveSession u b) w1)
  end.
Proof.
  intros Hk Hget Hbk. destruct (disconnect_fault bk) as [e|] eqn:Hf.
  - unfold disconnectBroker. rewrite Hget, Hbk.
    rewrite (DisconnectFacts.disconnect_throws bk e Hf).
    rewrite list_insert_id by done. by destruct w.
  - eexists _, _. unfold disconnectBroker. rewrite Hget, Hbk.
    rewrite (DisconnectFacts.disconnect_ok bk Hf).
    split; [reflexivity|]. cbn [heap activeBrokers sessions emit with_pool with_heap
                                 with_sessions].
    split. { apply list_lookup_insert_eq. by apply lookup_lt_Some in Hbk. }
    split; [done|].
    assert (map_get (sessionKey u b) (map_delete (sessionKey u b) (activeBrokers w)) = None)
      as Hgone by (by apply CacheFacts.map_get_delete).
    split; [done|].
    split. { intros k Hne. by apply CacheFacts.map_get_delete_ne. }
    split. { intros u' b' Hne. by apply deactivate_other. }
    apply PoolFacts.getBrokerInstance_no_session; [done|]. apply deactivate_none.
Qed.

Lemma disconnectBroker_outcome_witness :
  exists w1 bk',
    disconnectBroker "u1" "zerodha" world_subscribed = (Ok tt, w1) /\
    heap w1 !! 0%nat = Some bk' /\ disconnected bk' /\
    map_get (sessionKey "u1" "zerodha") (activeBrokers w1) = None /\
    getBrokerInstance kite_ok 1000 "u1" "zerodha" w1
    = (Throw "Failed to get broker instance: No active zerodha session found",
       emit (DbFindActiveSession "u1" "zerodha") w1).
Proof.
  pose proof (disconnectBroker_outcome kite_ok 1000 "u1" "zerodha" world_subscribed 0
                (connected_broker
                   (Some (mkTicker "key" "tok"
                            [TkConnect; TkSubscribe [256265%Z];
                             TkSetMode modeLTP [256265%Z]] no_fault))
                   [256265%Z])) as H.
  destruct H as (w1 & bk' & H1 & H2 & H3 & H4 & _ & _ & H5).
  - vm_compute. apply NoDup_singleton.
  - reflexivity.
  - reflexivity.
  - exists w1, bk'. repeat split; try done. all: by destruct H3 as (? & ? & ?).
Defined.

End DisconnectBrokerFacts.

Module SweepMoreFacts.
Import TradingService.

(** A sweep over entries that all have a session only adds its queries to
    the trace. *)
Lemma sweep_loop_all_kept (now : Z) (entries : list (string * nat)) :
  forall w : World,
    (forall e, e ∈ entries -> kept now (sessions w) e = true) ->
    exists tr,
      sweep_loop now entries w
      = (Ok tt, mkWorld (activeBrokers w) (heap w) (sessions w) (trace w ++ tr)
                        (console w)).
Proof.
  induction entries as [|[key r] rest IH]; intros w Hall.
  { exists []. rewrite app_nil_r. by destruct w. }
  cbn [sweep_loop]. cbn [sessions emit].
  pose proof (Hall (key, r) ltac:(by left)) as Hk. unfold kept in Hk. cbn [fst] in Hk.
  destruct (session_of_key now key (sessions w)); [|done].
  destruct (IH (emit (query_of_key key) w)) as [tr ->].
  { intros e He. apply Hall. by right. }
  eexists. cbn. by rewrite <- app_assoc.
Qed.

(** A sweep in which every disconnect returns. *)
Lemma sweep_clean (now : Z) (w : World) :
  pool_wf w ->
  (forall u b r bk,
     map_get (sessionKey u b) (activeBrokers w) = Some r ->
     ~ session_usable now u b (sessions w) ->
     heap w !! r = Some bk -> disconnect_fault bk = None) ->
  exists w',
    cleanupExpiredSessions now w = (Ok (Some tt), w') /\
    activeBrokers w' = List.filter (kept now (sessions w)) (activeBrokers w) /\
    sessions w' = TradingSession.cleanupExpiredSessions now (sessions w) /\
    console w' = console w /\
    (forall e, e ∈ activeBrokers w' -> heap w' !! e.2 = heap w !! e.2).
Proof.
  intros (Hkeys & Hrefs & Hwf) Hfault.
  unfold cleanupExpiredSessions.
  set (w0 := emit DbCleanupExpired _).
  assert (forall e, kept now (sessions w0) e = kept now (sessions w) e) as Hkept_eq.
  { intros e. apply SweepFacts.kept_cleanup. }
  destruct (SweepFacts.sweep_loop_ok now (activeBrokers w0) [] [] w0)
    as (w' & Hrun & Hp & Hs & Hc & Hsame & Hdisc).
  - cbn [app]. by rewrite app_nil_r.
  - done.
  - done.
  - intros e He Hke. rewrite Hkept_eq in Hke.
    destruct (Hwf e He) as [(u & b & Hkey & Hu & Hb) [bk Hbk]].
    exists bk. split; [done|].
    apply (Hfault u b e.2 bk); [| |done].
    + rewrite <- Hkey. apply SweepFacts.map_get_elem; [done|]. by destruct e.
    + intros Hus. apply (SweepFacts.kept_usable now (sessions w) u b e.2 Hu Hb) in Hus.
      destruct e as [k r]. simpl in *. subst k. congruence.
  - rewrite Hrun. exists w'. split; [done|].
    cbn [app] in Hp. rewrite app_nil_r in Hp.
    change (activeBrokers w0) with (activeBrokers w) in *.
    change (heap w0) with (heap w) in *.
    assert (List.filter (kept now (sessions w0)) (activeBrokers w)
            = List.filter (kept now (sessions w)) (activeBrokers w)) as Hfl.
    { apply List.filter_ext. intros e. apply Hkept_eq. }
    rewrite Hfl in Hp.
    split; [done|]. split; [done|]. split; [done|].
    intros e He. rewrite Hp in He.
    apply SweepFacts.elem_of_filter_bool in He as [He Hke].
    apply Hsame. intros e' He' Hke' Heq.
    assert (e' = e) as -> by (by apply (SweepFacts.NoDup_snd_inj (activeBrokers w))).
    rewrite Hkept_eq in Hke'. congruence.
Qed.


Lemma cleanup_sessions_idempotent (now : Z) (store : list Session) :
  TradingSession.cleanupExpiredSessions now
    (TradingSession.cleanupExpiredSessions now store)
  = TradingSession.cleanupExpiredSessions now store.
Proof.
  unfold TradingSession.cleanupExpiredSessions. rewrite map_map.
  apply map_ext. intros s. destruct (s_expiresAt s <=? now)%Z eqn:He; cbn.
  - by rewrite He.
  - by rewrite He.
Qed.

(** X10: sweeping twice finds nothing the second time.  After a sweep in
    which every disconnect returned, a second sweep at the same instant
    succeeds, evicts and disconnects nothing, and leaves the cache, the
    instances, the sessions and the console as the first sweep left
    them. *)
Theorem sweep_twice (now : Z) (w : World) :
  pool_wf w ->
  (forall u b r bk,
     map_get (sessionKey u b) (activeBrokers w) = Some r ->
     ~ session_usable now u b (sessions w) ->
     heap w !! r = Some bk -> disconnect_fault bk = None) ->
  exists w1 w2,
    cleanupExpiredSessions now w = (Ok (Some tt), w1) /\
    cleanupExpiredSessions now w1 = (Ok (Some tt), w2) /\
    activeBrokers w2 = activeBrokers w1 /\
    heap w2 = heap w1 /\
    sessions w2 = sessions w1 /\
    console w2 = console w1.
Proof.
  intros Hwf Hfault.
  destruct (sweep_clean now w Hwf Hfault) as (w1 & Hrun & Hp & Hs & Hc & _).
  exists w1. unfold cleanupExpiredSessions at 2.
  set (w0 := emit DbCleanupExpired _).
  destruct (sweep_loop_all_kept now (activeBrokers w0) w0) as [tr Hloop].
  { intros e He. change (activeBrokers w0) with (activeBrokers w1) in He.
    rewrite Hp in He. apply SweepFacts.elem_of_filter_bool in He as [_ Hke].
    unfold w0. cbn [sessions emit with_sessions].
    rewrite Hs, !SweepFacts.kept_cleanup. exact Hke. }
  rewrite Hloop. eexists. split; [exact Hrun|]. split; [reflexivity|].
  cbn. split; [done|]. split; [done|]. split; [|done].
  rewrite Hs. apply cleanup_sessions_idempotent.
Qed.

Lemma sweep_twice_witness :
  exists w1 w2,
    cleanupExpiredSessions 1000 world_mixed = (Ok (Some tt), w1) /\
    cleanupExpiredSessions 1000 w1 = (Ok (Some tt), w2) /\
    activeBrokers w2 = activeBrokers w1 /\
    heap w2 = heap w1.
Proof.
  destruct (sweep_twice 1000 world_mixed SweepFacts.world_mixed_wf)
    as (w1 & w2 & H1 & H2 & H3 & H4 & _).
  - intros u b r bk Hget _ Hbk.
    destruct r as [|[|r]]; [| |done]; injection Hbk as <-; reflexivity.
  - exists w1, w2. done.
Defined.

(** X11: what the cache vouches for after a sweep.  After a sweep in which
    every disconnect returned, a user without a usable session gets no
    handle, cached before or not: [getBrokerInstance] fails with "No
    active ... session found"; a user with a usable session and a cached
    handle gets that same handle, untouched, without any query or
    handshake. *)
Theorem sweep_then_getBrokerInstance (E : Env) (now : Z) (u b : string) (w : World) :
  pool_wf w ->
  (forall u b r bk,
     map_get (sessionKey u b) (activeBrokers w) = Some r ->
     ~ session_usable now u b (sessions w) ->
     heap w !! r = Some bk -> disconnect_fault bk = None) ->
  no_underscore u = true -> no_underscore b = true ->
  exists w1,
    cleanupExpiredSessions now w = (Ok (Some tt), w1) /\
    (~ session_usable now u b (sessions w) ->
     getBrokerInstance E now u b w1
     = (Throw ("Failed to get broker instance: No active " ++ b ++ " session found"),
        emit (DbFindActiveSession u b) w1)) /\
    (forall r, map_get (sessionKey u b) (activeBrokers w) = Some r ->
       session_usable now u b (sessions w) ->
       getBrokerInstance E now u b w1 = (Ok r, w1) /\
       heap w1 !! r = heap w !! r).
Proof.
  intros Hwf Hfault Hu Hb.
  destruct (sweep_clean now w Hwf Hfault) as (w1 & Hrun & Hp & Hs & _ & Hheap).
  destruct Hwf as (Hkeys & _ & _).
  exists w1. split; [done|]. split.
  - intros Hnus. apply PoolFacts.getBrokerInstance_no_session.
    + destruct (map_get (sessionKey u b) (activeBrokers w1)) as [r|] eqn:Hget; [|done].
      exfalso. apply Hnus. rewrite Hp in Hget.
      apply (SweepFacts.map_get_elem _ _ _ (SweepFacts.NoDup_fst_filter _ _ Hkeys)) in Hget.
      apply SweepFacts.elem_of_filter_bool in Hget as [_ Hke].
      by apply (SweepFacts.kept_usable now (sessions w) u b r Hu Hb).
    + rewrite Hs, SessionFacts.findActiveSession_cleanup.
      apply SessionFacts.findActiveSession_none.
      intros s Hin Hsu Hsb.
      destruct (s_isActive s) eqn:Ha; [|by left]. right.
      destruct (decide (s_expiresAt s <= now)%Z) as [|Hgt]; [done|].
      exfalso. apply Hnus. exists s. repeat split; try done. lia.
  - intros r Hget Hus.
    assert ((sessionKey u b, r) ∈ activeBrokers w1) as Hin.
    { rewrite Hp. apply SweepFacts.elem_of_filter_bool. split.
      - by apply (SweepFacts.map_get_elem _ _ _ Hkeys).
      - by apply (SweepFacts.kept_usable now (sessions w) u b r Hu Hb). }
    split; [|by apply (Hheap _ Hin)].
    apply PoolFacts.getBrokerInstance_hit.
    apply SweepFacts.map_get_elem; [|done].
    rewrite Hp. by apply SweepFacts.NoDup_fst_filter.
Qed.

Lemma sweep_then_getBrokerInstance_witness :
  exists w1,
    cleanupExpiredSessions 1000 world_mixed = (Ok (Some tt), w1) /\
    getBrokerInstance kite_ok 1000 "u1" "zerodha" w1
    = (Throw "Failed to get broker instance: No active zerodha session found",
       emit (DbFindActiveSession "u1" "zerodha") w1) /\
    getBrokerInstance kite_ok 1000 "u2" "zerodha" w1 = (Ok 1%nat, w1).
Proof.
  assert (forall u b r bk,
            map_get (sessionKey u b) (activeBrokers world_mixed) = Some r ->
            ~ session_usable 1000 u b (sessions world_mixed) ->
            heap world_mixed !! r = Some bk -> disconnect_fault bk = None) as Hfault.
  { intros u b r bk _ _ Hbk.
    destruct r as [|[|r]]; [| |done]; injection Hbk as <-; reflexivity. }
  destruct (sweep_then_getBrokerInstance kite_ok 1000 "u1" "zerodha" world_mixed
              SweepFacts.world_mixed_wf Hfault eq_refl eq_refl) as (w1 & H1 & H2 & _).
  destruct (sweep_then_getBrokerInstance kite_ok 1000 "u2" "zerodha" world_mixed
              SweepFacts.world_mixed_wf Hfault eq_refl eq_refl) as (w1' & H1' & _ & H3).
  assert (w1' = w1) as -> by congruence.
  exists w1. split; [exact H1|]. split.
  - apply H2. intros (s & Hin & Hsu & Hsb & Ha & Hexp).
    apply elem_of_cons in Hin as [-> | Hin].
    + cbn in Hexp. lia.
    + apply list_elem_of_singleton in Hin as ->. discriminate.
  - apply (H3 1%nat); [reflexivity|].
    exists (mkSession "u2" "zerodha" "tok" 2000 true).
    repeat split; try (cbn; lia). right. by left.
Defined.

End SweepMoreFacts.

Module ReadFacts.
Import TradingService.

Lemma on_broker_read_outcome (E : Env) (now : Z) (u : string) (w : World)
      (prefix inner : string) (call : KiteCall)
      (answer : option string -> Result string) :
  pool_live w ->
  read_outcome E now u w prefix inner call answer
    (on_broker_read E now prefix u "zerodha"
       (fun bk => ZerodhaBroker.read inner call (answer (kc_token bk)) bk) w).
Proof.
  intros Hl. unfold read_outcome, on_broker_read.
  destruct (CacheFacts.getBrokerInstance_live E now u "zerodha" w Hl) as [_ Hok].
  destruct (getBrokerInstance E now u "zerodha" w) as [[r|e] w1]; cbn [fst snd] in *;
    [|done].
  destruct (Hok r eq_refl) as (bk & Hbk & Hc). rewrite Hbk.
  unfold ZerodhaBroker.read. rewrite Hc.
  destruct (answer (kc_token bk)) as [x|e] eqn:Ha; cbn [fst snd].
  - split; [done|]. exists bk. by rewrite Ha.
  - split; [done|]. exists bk. by rewrite Ha.
Qed.

(** X12: the read methods of the service on a cache that holds connected
    handles only (as it does in every state the service reaches).  Each of
    [getUserProfile], [getPositions], [getHoldings], [getOrders] and
    [getInstruments] for the broker type zerodha either fails with the
    error of [getBrokerInstance] behind its own prefix, having sent no
    read call to the Kite client (a handshake that [getBrokerInstance]
    made is in its trace), or sends exactly one call of its endpoint
    on the handle and returns the client's answer; an error of the client
    comes back behind the prefix of the service and the prefix of the
    broker.  It never fails with "Broker not connected". *)
Theorem service_reads (E : Env) (K : KiteData) (now : Z) (u : string) (w : World)
        (exchange : option string) :
  pool_live w ->
  read_outcome E now u w "Failed to get user profile: " "Failed to get profile: "
    CallGetProfile (kc_getProfile E) (getUserProfile E now u "zerodha" w) /\
  read_outcome E now u w "Failed to get positions: " "Failed to get positions: "
    CallGetPositions (kc_getPositions K) (getPositions E K now u "zerodha" w) /\
  read_outcome E now u w "Failed to get holdings: " "Failed to get holdings: "
    CallGetHoldings (kc_getHoldings K) (getHoldings E K now u "zerodha" w) /\
  read_outcome E now u w "Failed to get orders: " "Failed to get orders: "
    CallGetOrders (kc_getOrders K) (getOrders E K now u "zerodha" w) /\
  read_outcome E now u w "Failed to get instruments: " "Failed to get instruments: "
    (CallGetInstruments exchange) (kc_getInstruments K exchange)
    (getInstruments E K now u "zerodha" exchange w).
Proof.
  intros Hl. repeat split; by apply on_broker_read_outcome.
Qed.

Lemma service_reads_witness :
  getPositions kite_ok kite_data_ok 1000 "u1" "zerodha" world_cached
  = ((Ok "positions", [CallGetPositions]), world_cached)
  /\ getOrders kite_ok kite_data_ok 1000 "u9" "zerodha" world_cached
     = ((Throw "Failed to get orders: Failed to get broker instance: No active zerodha session found",
         []),
        emit (DbFindActiveSession "u9" "zerodha") world_cached).
Proof.
  assert (pool_live world_cached) as Hl.
  { split; [apply NoDup_singleton|]. split; [apply NoDup_singleton|].
    intros k r Hin. apply list_elem_of_singleton in Hin. injection Hin as -> ->.
    split; [by exists "u1"|]. by eexists. }
  pose proof (service_reads kite_ok kite_data_ok 1000 "u1" world_cached None Hl)
    as (_ & (H1 & bk & Hb & H2) & _).
  pose proof (service_reads kite_ok kite_data_ok 1000 "u9" world_cached None Hl)
    as (_ & _ & _ & (H3 & H4) & _).
  split.
  - apply injective_projections; [|exact H1]. rewrite H2. reflexivity.
  - apply injective_projections; [exact H4 | exact H3].
Defined.

End ReadFacts.

Module StoreFacts.
Import TradingSession.

(** X13: the bulk deactivation [cleanupExpiredSessions] of the session
    model.  Afterwards every session that is still active expires later
    than [now]; a document keeps its place and all its other fields, and
    is never activated; running it again at a later instant is the same
    as running it once at that instant; and it does not change what
    [findActiveSession] answers at [now] or later. *)
Theorem cleanupExpiredSessions_laws (now : Z) (store : list Session) :
  (forall s, s ∈ cleanupExpiredSessions now store ->
             s_isActive s = true -> (now < s_expiresAt s)%Z) /\
  map (fun s => (s_userId s, s_brokerType s, s_accessToken s, s_expiresAt s))
      (cleanupExpiredSessions now store)
  = map (fun s => (s_userId s, s_brokerType s, s_accessToken s, s_expiresAt s)) store /\
  map s_isActive (cleanupExpiredSessions now store)
  = map (fun s => s_isActive s && (now <? s_expiresAt s)%Z) store /\
  (forall later, (now <= later)%Z ->
     cleanupExpiredSessions later (cleanupExpiredSessions now store)
     = cleanupExpiredSessions later store) /\
  (forall later u b, (now <= later)%Z ->
     findActiveSession later u b (cleanupExpiredSessions now store)
     = findActiveSession later u b store).
Proof.
  unfold cleanupExpiredSessions. split; [|split; [|split; [|split]]].
  - intros s Hin Ha. apply list_elem_of_fmap in Hin as (s0 & -> & _).
    destruct (s_expiresAt s0 <=? now)%Z eqn:He; [done|]. lia.
  - rewrite map_map. apply map_ext. intros s.
    by destruct (s_expiresAt s <=? now)%Z.
  - rewrite map_map. apply map_ext. intros s.
    destruct (s_expiresAt s <=? now)%Z eqn:He; cbn.
    + assert ((now <? s_expiresAt s)%Z = false) as -> by lia. by rewrite andb_false_r.
    + assert ((now <? s_expiresAt s)%Z = true) as -> by lia. by rewrite andb_true_r.
  - intros later Hle. rewrite map_map. apply map_ext. intros s.
    destruct (s_expiresAt s <=? now)%Z eqn:He; cbn.
    + assert ((s_expiresAt s <=? later)%Z = true) as -> by lia. done.
    + done.
  - intros later u b Hle. unfold findActiveSession.
    induction store as [|s store IH]; [done|]. cbn [map find].
    destruct (s_expiresAt s <=? now)%Z eqn:He.
    + assert (matches later u b s = false) as ->.
      { unfold matches. assert ((later <? s_expiresAt s)%Z = false) as -> by lia.
        by rewrite andb_false_r. }
      assert (matches later u b
                (mkSession (s_userId s) (s_brokerType s) (s_accessToken s)
                           (s_expiresAt s) false) = false) as ->.
      { unfold matches. cbn. by rewrite andb_false_r. }
      exact IH.
    + destruct (matches later u b s); [done | exact IH].
Qed.

(** X14: [getActiveSessions] and [findActiveSession] agree.  A broker type
    is listed for a user exactly when [findActiveSession] finds a session
    for the user and that broker type; the session it finds is listed
    with its expiry; and every listed expiry is later than [now]. *)
Theorem getActiveSessions_agrees (now : Z) (u : string) (store : list Session) :
  (forall b, (exists expiresAt, (b, expiresAt) ∈ TradingService.getActiveSessions now u store)
             <-> is_Some (findActiveSession now u b store)) /\
  (forall b s, findActiveSession now u b store = Some s ->
     (b, s_expiresAt s) ∈ TradingService.getActiveSessions now u store) /\
  (forall b expiresAt, (b, expiresAt) ∈ TradingService.getActiveSessions now u store ->
     (now < expiresAt)%Z).
Proof.
  assert (forall b expiresAt,
            (b, expiresAt) ∈ TradingService.getActiveSessions now u store <->
            exists s, s ∈ store /\ matches now u b s = true /\ s_expiresAt s = expiresAt)
    as Hlisted.
  { intros b expiresAt. unfold TradingService.getActiveSessions.
    rewrite list_elem_of_fmap. split.
    - intros (s & Heq & Hin). injection Heq as -> ->.
      apply SweepFacts.elem_of_filter_bool in Hin as [Hin Hf].
      exists s. split; [done|]. split; [|done].
      apply andb_prop in Hf as [Hf Ht]. apply andb_prop in Hf as [Hu Ha].
      unfold matches. rewrite Hu, Ha, Ht. by rewrite String.eqb_refl.
    - intros (s & Hin & Hm & <-). apply SessionFacts.matches_true in Hm
        as (Hu & Hb & Ha & Ht).
      exists s. split; [by rewrite Hb|].
      apply SweepFacts.elem_of_filter_bool. split; [done|].
      rewrite Ha. apply String.eqb_eq in Hu. rewrite Hu. cbn. lia. }
  split; [|split].
  - intros b. rewrite SessionFacts.findActiveSession_some. split.
    + intros (expiresAt & (s & Hin & Hm & _)%Hlisted).
      apply SessionFacts.matches_true in Hm as (Hu & Hb & Ha & Ht). by exists s.
    + intros (s & Hin & Hu & Hb & Ha & Ht). exists (s_expiresAt s).
      apply Hlisted. exists s. split; [done|]. split; [|done].
      by apply SessionFacts.matches_true.
  - intros b s Hfind. apply Hlisted. exists s.
    apply find_some in Hfind as [Hin Hm]. split; [by apply list_elem_of_In|]. done.
  - intros b expiresAt (s & _ & Hm & <-)%Hlisted.
    by apply SessionFacts.matches_true in Hm as (_ & _ & _ & Ht).
Qed.

End StoreFacts.

Module BrokerCleanupFacts.
Import TradingServer.

Lemma disconnect_loop_spec (entries : list (string * nat)) :
  forall w : World,
    NoDup (map snd entries) ->
    (forall e, e ∈ entries -> is_Some (heap w !! e.2)) ->
    exists w',
      disconnect_loop entries w = (Ok tt, w') /\
      activeBrokers w' = activeBrokers w /\
      sessions w' = sessions w /\
      trace w' = trace w /\
      console w' = (console w ++ concat (map (disconnect_warning w) entries))%list /\
      (forall r, r ∉ map snd entries -> heap w' !! r = heap w !! r) /\
      (forall e bk, e ∈ entries -> heap w !! e.2 = Some bk ->
         heap w' !! e.2 = Some (ZerodhaBroker.disconnect bk).2).
Proof.
  induction entries as [|[key r] rest IH]; intros w Hnd Hall.
  { exists w. cbn. rewrite app_nil_r. repeat split; try done.
    intros e bk He. by apply elem_of_nil in He. }
  cbn [map snd] in Hnd. apply NoDup_cons in Hnd as [Hr Hnd].
  cbn [disconnect_loop].
  destruct (Hall (key, r)) as [bk Hbk]; [by left|]. cbn [snd] in Hbk. rewrite Hbk.
  assert (forall w1 : World,
            heap w1 = <[r := (ZerodhaBroker.disconnect bk).2]> (heap w) ->
            (forall e, e ∈ rest -> is_Some (heap w1 !! e.2)) /\
            (forall e, e ∈ rest -> heap w1 !! e.2 = heap w !! e.2) /\
            concat (map (disconnect_warning w1) rest)
            = concat (map (disconnect_warning w) rest)) as Hstep.
  { intros w1 Hh.
    assert (forall e, e ∈ rest -> heap w1 !! e.2 = heap w !! e.2) as Hsame.
    { intros e He. rewrite Hh. apply list_lookup_insert_ne. intros ->.
      apply Hr. apply list_elem_of_fmap. by exists e. }
    split; [|split; [done|]].
    - intros e He. rewrite (Hsame e He). apply Hall. by right.
    - f_equal. apply map_ext_in. intros e He%list_elem_of_In.
      unfold disconnect_warning. by rewrite (Hsame e He). }
  assert (heap (with_heap (<[r := (ZerodhaBroker.disconnect bk).2]> (heap w)) w) !! r
          = Some (ZerodhaBroker.disconnect bk).2) as Hat.
  { cbn. apply list_lookup_insert_eq. by apply lookup_lt_Some in Hbk. }
  cbn [map concat]. unfold disconnect_warning at 1. cbn [fst snd]. rewrite Hbk.
  destruct (disconnect_fault bk) as [err|] eqn:Hf.
  - rewrite (DisconnectFacts.disconnect_throws bk err Hf) in *. cbn [snd] in *.
    set (w1 := console_error _ _).
    destruct (Hstep w1 eq_refl) as (Hall1 & Hsame1 & Hwarn1).
    destruct (IH w1 Hnd Hall1) as (w' & -> & Hp & Hs & Ht & Hc & Hout & Hin).
    exists w'. split; [done|]. split; [done|]. split; [done|]. split; [done|].
    split; [|split].
    + rewrite Hc, Hwarn1. unfold w1. cbn. by rewrite <- app_assoc.
    + intros r0 Hr0. cbn [map snd] in Hr0. apply not_elem_of_cons in Hr0 as [Hne Hr0].
      rewrite (Hout r0 Hr0). unfold w1. cbn. by apply list_lookup_insert_ne.
    + intros e bk0 [-> | He]%elem_of_cons Hbk0.
      * cbn [snd] in *. rewrite (Hout r Hr). unfold w1. cbn.
        rewrite Hbk in Hbk0. injection Hbk0 as <-.
        rewrite (DisconnectFacts.disconnect_throws bk err Hf). cbn [snd].
        apply list_lookup_insert_eq. by apply lookup_lt_Some in Hbk.
      * apply Hin; [done|]. by rewrite (Hsame1 e He).
  - rewrite (DisconnectFacts.disconnect_ok bk Hf) in *. cbn [snd] in *.
    set (w1 := with_heap _ _).
    destruct (Hstep w1 eq_refl) as (Hall1 & Hsame1 & Hwarn1).
    destruct (IH w1 Hnd Hall1) as (w' & -> & Hp & Hs & Ht & Hc & Hout & Hin).
    exists w'. split; [done|]. split; [done|]. split; [done|]. split; [done|].
    split; [|split].
    + rewrite Hc, Hwarn1. done.
    + intros r0 Hr0. cbn [map snd] in Hr0. apply not_elem_of_cons in Hr0 as [Hne Hr0].
      rewrite (Hout r0 Hr0). unfold w1. cbn. by apply list_lookup_insert_ne.
    + intros e bk0 [-> | He]%elem_of_cons Hbk0.
      * cbn [snd] in *. rewrite (Hout r Hr). unfold w1. cbn.
        rewrite Hbk in Hbk0. injection Hbk0 as <-.
        rewrite (DisconnectFacts.disconnect_ok bk Hf). cbn [snd].
        apply list_lookup_insert_eq. by apply lookup_lt_Some in Hbk.
      * apply Hin; [done|]. by rewrite (Hsame1 e He).
Qed.

(** X15: the shutdown cleanup of the broker connections.  On a cache with
    one allocated instance per entry it empties the cache whatever the
    disconnects do; an instance whose disconnect returns is left
    disconnected; an instance whose ticker raises is left as it was, and
    one warning naming its key is written for it, in the order of the
    cache; instances outside the cache, the sessions and the trace of
    remote calls are untouched. *)
Theorem cleanupBrokerConnections_outcome (w : World) :
  NoDup (map snd (activeBrokers w)) ->
  (forall e, e ∈ activeBrokers w -> is_Some (heap w !! e.2)) ->
  let w' := cleanupBrokerConnections w in
  activeBrokers w' = [] /\
  sessions w' = sessions w /\
  trace w' = trace w /\
  console w' = (console w ++ concat (map (disconnect_warning w) (activeBrokers w)))%list /\
  (forall r, r ∉ map snd (activeBrokers w) -> heap w' !! r = heap w !! r) /\
  (forall key r bk, (key, r) ∈ activeBrokers w -> heap w !! r = Some bk ->
     match disconnect_fault bk with
     | None => exists bk', heap w' !! r = Some bk' /\ disconnected bk'
     | Some _ => heap w' !! r = Some bk
     end).
Proof.
  intros Hnd Hall. cbn zeta.
  unfold cleanupBrokerConnections, cleanupBrokerConnections_begin.
  destruct (disconnect_loop_spec (activeBrokers w) w Hnd Hall)
    as (w1 & -> & Hp & Hs & Ht & Hc & Hout & Hin).
  cbn. repeat split; try done.
  intros key r bk He Hbk. pose proof (Hin (key, r) bk He Hbk) as Hr. cbn [snd] in Hr.
  destruct (disconnect_fault bk) as [err|] eqn:Hf.
  - by rewrite (DisconnectFacts.disconnect_throws bk err Hf) in Hr.
  - rewrite (DisconnectFacts.disconnect_ok bk Hf) in Hr. eexists. split; [exact Hr|].
    done.
Qed.

Lemma cleanupBrokerConnections_outcome_witness :
  activeBrokers (cleanupBrokerConnections world_stuck3) = [] /\
  console (cleanupBrokerConnections world_stuck3)
  = ["Warning: Failed to disconnect broker u1_zerodha: Failed to disconnect from Zerodha: socket hang up"] /\
  exists bk', heap (cleanupBrokerConnections world_stuck3) !! 2%nat = Some bk' /\
              disconnected bk'.
Proof.
  destruct (cleanupBrokerConnections_outcome world_stuck3)
    as (H1 & _ & _ & H2 & _ & H3).
  - apply (bool_decide_unpack _). by vm_compute.
  - intros e He. vm_compute in He.
    repeat (apply elem_of_cons in He as [-> | He]; [by eexists|]).
    by apply elem_of_nil in He.
  - split; [exact H1|]. split; [exact H2|].
    apply (H3 "u2_zerodha" 2%nat (connected_broker None [])); [|reflexivity].
    vm_compute. right. right. left.
Defined.

End BrokerCleanupFacts.

Module ExitFacts.
Import TradingServer.

Lemma clean_exit_sub (D : N) (p p' : Process) :
  clean_exit D p ->
  (forall te, te ∈ timers p' -> te ∈ timers p) ->
  (exited p' = exited p \/ exists t, exited p' = Some (t, 0%Z)) ->
  clean_exit D p'.
Proof.
  intros (Hnc & Hst & Hcode) Hsub Hex. split; [|split].
  - intros t e Hin. by apply (Hnc t e), Hsub.
  - intros t Hin. by apply Hst, Hsub.
  - intros x Hx. destruct Hex as [Heq | [t Heq]].
    + apply Hcode. by rewrite <- Heq.
    + rewrite Heq in Hx. injection Hx as <-. by left.
Qed.

Lemma finish_exit (p : Process) : exited (finish p) = Some (clock p, 0%Z).
Proof. reflexivity. Qed.

Lemma settle_exit (i : nat) (o : Settled) (p : Process) :
  (forall te, te ∈ timers (settle i o p) -> te ∈ timers p) /\
  (exited (settle i o p) = exited p \/ exists t, exited (settle i o p) = Some (t, 0%Z)).
Proof.
  destruct (ShutdownFacts.settle_cases i o p) as [[-> _] | [[-> _] | [-> _]]].
  - split; [done | by left].
  - split; [done | by left].
  - split.
    + intros te Hin. by apply ShutdownFacts.finish_timers_sub in Hin.
    + right. eexists. apply finish_exit.
Qed.

Lemma step_clean_exit (S0 : ServerEnv) (D : N) (p : Process) (t : N) (ev : Event) rest :
  armed D p -> clean_exit D p ->
  pop_min (timers p) = Some ((t, ev), rest) ->
  clean_exit D (handle S0 ev (advance t rest p)).
Proof.
  intros (_ & Hsd & Hex) Hc Hpop.
  assert (forall y, y ∈ rest -> y ∈ timers p) as Hsub.
  { intros y. by apply ShutdownFacts.pop_min_sub with (t, ev). }
  assert ((t, ev) ∈ timers p) as Hin.
  { rewrite (ShutdownFacts.pop_min_perm _ _ _ Hpop). by left. }
  assert (clean_exit D (advance t rest p)) as Hc0.
  { apply (clean_exit_sub D p); [done | done | by left]. }
  destruct ev as [| | |[e|]|i [e|]|i].
  - cbn [handle advance shuttingDown]. by rewrite Hsd.
  - cbn [handle]. unfold gracefulShutdown. cbn [say advance shuttingDown]. rewrite Hsd.
    apply (clean_exit_sub D (advance t rest p)); [done | done | by left].
  - destruct Hc as (_ & Hst & _). rewrite (Hst t Hin) in *.
    destruct Hc0 as (Hnc0 & Hst0 & _). split; [done|]. split; [done|].
    intros x [= <-]. by right.
  - destruct Hc as (Hnc & _ & _). by destruct (Hnc t e).
  - cbn [handle]. unfold cleanup. rewrite ShutdownFacts.launch_all_spec.
    cbn [say set_races advance clock timers shuttingDown races log responses exited].
    set (p4 := mkProcess _ _ _ _ _ _ _).
    assert (clean_exit D p4) as Hc4.
    { destruct Hc0 as (Hnc0 & Hst0 & Hcode0). split; [|split].
      - intros t1 e1 [Hin1 | Hin1]%elem_of_app; [by apply (Hnc0 t1 e1)|].
        apply ShutdownFacts.launched_all_elem in Hin1 as (k & task & _ & Hin1).
        apply ShutdownFacts.launched_elem in Hin1
          as [Heq | [(d & _ & Heq) | (d & e & _ & Heq)]]; discriminate.
      - intros t1 [Hin1 | Hin1]%elem_of_app; [by apply Hst0|].
        apply ShutdownFacts.launched_all_elem in Hin1 as (k & task & _ & Hin1).
        apply ShutdownFacts.launched_elem in Hin1
          as [Heq | [(d & _ & Heq) | (d & e & _ & Heq)]]; discriminate.
      - intros x Hx. cbn in Hx. congruence. }
    destruct (existsb is_pending _); [done|].
    apply (clean_exit_sub D p4 _ Hc4).
    + intros te Hte. by apply ShutdownFacts.finish_timers_sub in Hte.
    + right. eexists. apply finish_exit.
  - cbn [handle]. destruct (settle_exit i (Rejected e) (advance t rest p)) as [H1 H2].
    by apply (clean_exit_sub D (advance t rest p)).
  - cbn [handle].
    destruct (settle_exit i Fulfilled
                (say (name_of S0 i ++ " cleanup completed")
                     (say_all (says_of S0 i) (advance t rest p))))
      as [H1 H2].
    by apply (clean_exit_sub D (advance t rest p)).
  - cbn [handle].
    destruct (settle_exit i (Rejected (name_of S0 i ++ " cleanup timeout"))
                (advance t rest p)) as [H1 H2].
    by apply (clean_exit_sub D (advance t rest p)).
Qed.

(** X16: failing cleanup never fails the shutdown.  When [fastify.close()]
    resolves early enough for the 5 s task timeout to pass before the
    8 s forced exit, the process exits with code 0, at the latest 5 s
    after the close, whatever the cleanup tasks do: resolve, reject or
    never settle. *)
Theorem shutdown_exit_code_zero
        (S0 : ServerEnv) (reason : string) (t0 c : N) (fuel : nat) :
  close S0 = Resolves c ->
  (c + cleanupTimeout < shutdownTimeout)%N ->
  budget S0 (gracefulShutdown S0 reason (boot t0)) < fuel ->
  exists t,
    exited (shutdown S0 reason t0 fuel) = Some (t, 0%Z) /\
    (t <= t0 + c + cleanupTimeout)%N.
Proof.
  intros Hclose Hearly Hfuel.
  pose proof (ShutdownFacts.shutdown_start_armed S0 reason t0) as Harmed.
  destruct (ShutdownFacts.run_exits S0 (t0 + shutdownTimeout) fuel _ Hfuel Harmed)
    as (t & code & Hex & _).
  fold (shutdown S0 reason t0 fuel) in Hex.
  pose proof (ShutdownFacts.shutdown_task_bound S0 reason t0 c fuel (t, code) Hclose Hex)
    as Hbound. cbn [fst] in Hbound.
  assert (clean_exit (t0 + shutdownTimeout) (shutdown S0 reason t0 fuel)) as Hclean.
  { unfold shutdown.
    apply (ShutdownFacts.run_preserves S0 (t0 + shutdownTimeout)
             (clean_exit (t0 + shutdownTimeout))); [|done|].
    - intros p t1 ev rest Ha Hc Hpop. by apply (step_clean_exit S0 _ p t1 ev rest).
    - destruct (ShutdownFacts.shutdown_start_closing S0 reason t0 c Hclose) as [He Ht].
      split; [|split].
      + intros t1 e. rewrite Ht. intros [Hin | Hin%list_elem_of_singleton]%elem_of_cons;
          discriminate.
      + intros t1. rewrite Ht.
        intros [Hin | Hin%list_elem_of_singleton]%elem_of_cons; [|discriminate].
        by injection Hin as ->.
      + intros x Hx. congruence. }
  destruct Hclean as (_ & _ & Hcode).
  destruct (Hcode (t, code) Hex) as [Hz | Hd]; cbn [fst snd] in *.
  - subst code. by exists t.
  - unfold cleanupTimeout, shutdownTimeout in *. lia.
Qed.

Lemma shutdown_exit_code_zero_witness :
  exists t,
    exited (shutdown scenario_server "SIGTERM" 100 20) = Some (t, 0%Z) /\
    (t <= 7100)%N.
Proof.
  apply (shutdown_exit_code_zero scenario_server "SIGTERM" 100 2000 20).
  - reflexivity.
  - reflexivity.
  - vm_compute. lia.
Defined.

(** X17: a shutdown whose [fastify.close()] fails never starts the
    cleanup.  If the close never settles, the process is ended by the
    forced-exit timer exactly 8 s after the trigger, with code 1; if the
    close rejects before that, the process exits with code 1 at that
    instant and the forced-exit timer is cleared.  In both cases the
    console holds the announcement and one error line, and no cleanup
    task was launched.  (The timer is made with [.unref()]: this is
    about a process that is kept alive until then, as it is by the
    connections a hanging close waits for.) *)
Theorem shutdown_close_fails (S0 : ServerEnv) (reason : string) (t0 : N) (fuel : nat) :
  (close S0 = Hangs ->
   exited (shutdown S0 reason t0 (S fuel)) = Some ((t0 + shutdownTimeout)%N, 1%Z) /\
   log (shutdown S0 reason t0 (S fuel))
   = [(t0, "initiating graceful shutdown: " ++ reason);
      ((t0 + shutdownTimeout)%N, "forced exit after timeout")] /\
   races (shutdown S0 reason t0 (S fuel)) = []) /\
  (forall c e, close S0 = Rejects c e -> (c < shutdownTimeout)%N ->
     exited (shutdown S0 reason t0 (S fuel)) = Some ((t0 + c)%N, 1%Z) /\
     log (shutdown S0 reason t0 (S fuel))
     = [(t0, "initiating graceful shutdown: " ++ reason);
        ((t0 + c)%N, "error during shutdown")] /\
     timers (shutdown S0 reason t0 (S fuel)) = [] /\
     races (shutdown S0 reason t0 (S fuel)) = []).
Proof.
  split.
  - intros Hclose. unfold shutdown, gracefulShutdown, start. rewrite Hclose.
    cbn -[N.add shutdownTimeout].
    rewrite (ShutdownFacts.run_exited S0 fuel _ ((t0 + shutdownTimeout)%N, 1%Z));
      [|reflexivity].
    done.
  - intros c e Hclose Hc. unfold shutdown, gracefulShutdown, start. rewrite Hclose.
    cbn -[N.add N.leb shutdownTimeout].
    assert ((t0 + shutdownTimeout <=? t0 + c)%N = false) as -> by (apply N.leb_gt; lia).
    cbn -[N.add shutdownTimeout].
    rewrite (ShutdownFacts.run_exited S0 fuel _ ((t0 + c)%N, 1%Z)); [|reflexivity].
    done.
Qed.

Lemma shutdown_close_fails_witness :
  exited (shutdown (mkServerEnv Hangs []) "SIGTERM" 0 1) = Some (8000%N, 1%Z) /\
  exited (shutdown (mkServerEnv (Rejects 250 "ERR_SERVER_NOT_RUNNING") []) "SIGTERM" 0 1)
  = Some (250%N, 1%Z).
Proof.
  split.
  - apply (shutdown_close_fails (mkServerEnv Hangs []) "SIGTERM" 0 0). reflexivity.
  - apply (shutdown_close_fails (mkServerEnv (Rejects 250 "ERR_SERVER_NOT_RUNNING") [])
             "SIGTERM" 0 0) with "ERR_SERVER_NOT_RUNNING"; reflexivity.
Defined.

End ExitFacts.

Module EnvironmentFacts.
Import TradingServer.

Lemma is_missing_false (env : gmap string string) (v : string) :
  is_missing env v = false <->
  exists s, env !! v = Some s /\ s <> "" /\ s <> "enter your value".
Proof.
  unfold is_missing. destruct (env !! v) as [s|].
  - rewrite orb_false_iff, !String.eqb_neq. split.
    + intros [H1 H2]. by exists s.
    + intros (s' & [= <-] & H1 & H2). done.
  - split; [done|]. by intros (s & ? & _).
Qed.

Lemma filter_nil_iff {A} (f : A -> bool) (l : list A) :
  List.filter f l = [] <-> forall x, x ∈ l -> f x = false.
Proof.
  induction l as [|a l IH]; simpl.
  - split; [|done]. intros _ x Hx. by apply elem_of_nil in Hx.
  - destruct (f a) eqn:Ha.
    + split; [done|]. intros H. specialize (H a ltac:(by left)). congruence.
    + rewrite IH. split.
      * intros H x [-> | Hx]%elem_of_cons; [done | by apply H].
      * intros H x Hx. apply H. by right.
Qed.

(** X18: the environment check at start-up.  It passes exactly when each
    of the five required variables is set to a value that is neither
    empty nor the placeholder "enter your value".  Otherwise it reports
    the offending variables in the order of the list, and ends the
    process with code 1 only when NODE_ENV is "production"; with any
    other NODE_ENV, or none, the server goes on with the incomplete
    configuration. *)
Theorem validateEnvironment_outcome (env : gmap string string) :
  (validateEnvironment env = EnvPassed <->
   forall v, v ∈ requiredVars ->
     exists s, env !! v = Some s /\ s <> "" /\ s <> "enter your value") /\
  (List.filter (is_missing env) requiredVars <> [] ->
   validateEnvironment env
   = if bool_decide (env !! "NODE_ENV" = Some "production")
     then EnvExit (List.filter (is_missing env) requiredVars)
     else EnvContinued (List.filter (is_missing env) requiredVars)) /\
  (forall missingVars, validateEnvironment env = EnvExit missingVars ->
     env !! "NODE_ENV" = Some "production" /\
     forall v, v ∈ missingVars <-> v ∈ requiredVars /\ is_missing env v = true).
Proof.
  unfold validateEnvironment.
  destruct (List.filter (is_missing env) requiredVars) as [|m ms] eqn:Hm.
  - cbn. split; [|split; [done|done]]. split; [|done]. intros _ v Hv.
    apply is_missing_false. by apply (proj1 (filter_nil_iff _ _) Hm).
  - cbn [length Nat.ltb Nat.leb]. split; [|split].
    + split; [by destruct (bool_decide _)|]. intros Hall. exfalso.
      assert (List.filter (is_missing env) requiredVars = []) as Hnil.
      { apply filter_nil_iff. intros x Hx. by apply is_missing_false, Hall. }
      congruence.
    + intros _. by destruct (bool_decide _).
    + intros missingVars. destruct (bool_decide _) eqn:Hp; cbn; [|done].
      intros [= <-]. split; [by apply bool_decide_eq_true in Hp|].
      intros v. rewrite <- Hm. apply SweepFacts.elem_of_filter_bool.
Qed.

Lemma validateEnvironment_outcome_witness :
  validateEnvironment env_complete = EnvPassed /\
  validateEnvironment (<["KITE_API_SECRET" := "enter your value"]> env_complete)
  = EnvExit ["KITE_API_SECRET"] /\
  validateEnvironment (delete "NODE_ENV" (delete "JWT_SECRET" env_complete))
  = EnvContinued ["JWT_SECRET"].
Proof.
  split; [|split].
  - apply (validateEnvironment_outcome env_complete). intros v Hv.
    repeat (apply elem_of_cons in Hv as [-> | Hv]; [by eexists|]).
    by apply elem_of_nil in Hv.
  - destruct (validateEnvironment_outcome
                (<["KITE_API_SECRET" := "enter your value"]> env_complete))
      as (_ & H & _).
    rewrite H; [reflexivity | vm_compute; discriminate].
  - destruct (validateEnvironment_outcome
                (delete "NODE_ENV" (delete "JWT_SECRET" env_complete)))
      as (_ & H & _).
    rewrite H; [reflexivity | vm_compute; discriminate].
Defined.

End EnvironmentFacts.

Module RateLimitFacts.
Import Middleware.

Lemma recent_recent (options : RateLimitOptions) (now later : Z) (times : list Z) :
  (now <= later)%Z ->
  recent options later (recent options now times) = recent options later times.
Proof.
  intros Hle. unfold recent. induction times as [|x l IH]; [done|]. cbn [List.filter].
  destruct (now - windowMs options <? x)%Z eqn:H1; cbn [List.filter].
  - by rewrite IH.
  - assert ((later - windowMs options <? x)%Z = false) as -> by lia. exact IH.
Qed.

Lemma recent_app (options : RateLimitOptions) (now : Z) (l1 l2 : list Z) :
  recent options now (l1 ++ l2) = (recent options now l1 ++ recent options now l2)%list.
Proof. apply List.filter_app. Qed.

Lemma recent_length (options : RateLimitOptions) (now : Z) (times : list Z) :
  length (recent options now times) <= length times.
Proof. apply List.filter_length_le. Qed.

Lemma stored_set_eq (key : string) (v : list Z) (m : list (string * list Z)) :
  stored key (map_set key v m) = v.
Proof. unfold stored. by rewrite PoolFacts.map_get_set_eq. Qed.

Lemma stored_set_ne (k key : string) (v : list Z) (m : list (string * list Z)) :
  k <> key -> stored key (map_set k v m) = stored key m.
Proof. intros Hne. unfold stored. by rewrite PoolFacts.map_get_set_ne. Qed.

(** One request, in terms of what the Map holds for its key. *)
Lemma rateLimit_step (options : RateLimitOptions) (k : string) (now : Z)
      (m : list (string * list Z)) :
  let pruned := recent options now (stored k m) in
  let ok := negb (maxRequests options <=? Z.of_nat (length pruned))%Z in
  (rateLimit options k now m).1 = ok /\
  stored k (rateLimit options k now m).2
  = (if ok then pruned ++ [now] else pruned)%list /\
  forall key, key <> k -> stored key (rateLimit options k now m).2 = stored key m.
Proof.
  cbn zeta. unfold rateLimit.
  set (m1 := match map_get k m with Some _ => _ | None => _ end).
  assert (stored k m1 = recent options now (stored k m)) as Hk.
  { unfold m1, stored at 2. destruct (map_get k m) as [times|] eqn:Hget.
    - by rewrite stored_set_eq.
    - unfold stored. by rewrite Hget. }
  assert (forall key, key <> k -> stored key m1 = stored key m) as Hother.
  { intros key Hne. unfold m1. destruct (map_get k m); [|done].
    by apply stored_set_ne. }
  assert (match map_get k m1 with Some times => times | None => [] end = stored k m1)
    as -> by (unfold stored; by destruct (map_get k m1)).
  rewrite Hk.
  destruct (maxRequests options <=? _)%Z; cbn [fst snd negb].
  - split; [done|]. split; [done|]. exact Hother.
  - split; [done|]. split; [by rewrite stored_set_eq|].
    intros key Hne. rewrite stored_set_ne by done. by apply Hother.
Qed.

Lemma limiter_snoc (options : RateLimitOptions) (history : list (string * Z))
      (req : string * Z) :
  limiter options (history ++ [req]) = limiter_step options (limiter options history) req.
Proof. unfold limiter. by rewrite fold_left_app. Qed.

Lemma times_of_snoc (key : string) (passed : list (string * Z)) (k : string) (now : Z) :
  times_of key (passed ++ [(k, now)])
  = (times_of key passed ++ if String.eqb k key then [now] else [])%list.
Proof.
  unfold times_of. rewrite List.filter_app, map_app. cbn.
  by destruct (String.eqb k key).
Qed.

(** Inside any window that ends at or after the last request, the Map
    holds for each key the instants at which its requests were let
    through. *)
Lemma limiter_inv (options : RateLimitOptions) (history : list (string * Z)) :
  StronglySorted Z.le (map snd history) ->
  forall key later,
    (forall t, t ∈ map snd history -> (t <= later)%Z) ->
    recent options later (stored key (limiter options history).1)
    = recent options later (times_of key (limiter options history).2).
Proof.
  induction history as [|[k now] history IH] using rev_ind; intros Hsorted key later Hle.
  { done. }
  rewrite map_app in Hsorted, Hle. cbn [map snd] in Hsorted, Hle.
  assert (now <= later)%Z as Hnow.
  { apply Hle. apply elem_of_app. right. by left. }
  assert (forall t, t ∈ map snd history -> (t <= now)%Z) as Hbefore.
  { intros t Ht. apply (StronglySorted_app_1_elem_of Z.le _ _ t now Hsorted Ht). by left. }
  apply StronglySorted_app_1_l in Hsorted.
  rewrite limiter_snoc. unfold limiter_step. cbn [fst snd].
  destruct (limiter options history) as [m passed] eqn:Hrun. cbn [fst snd] in *.
  pose proof (rateLimit_step options k now m) as (Hok & Hk & Hother). cbn zeta in *.
  destruct (rateLimit options k now m) as [ok m']. cbn [fst snd] in *.
  destruct (decide (key = k)) as [->|Hne].
  - rewrite Hk. subst ok.
    destruct (negb _); cbn [snd].
    + rewrite times_of_snoc, String.eqb_refl, !recent_app.
      rewrite (recent_recent options now later _ Hnow).
      f_equal. apply (IH Hsorted k later). intros t Ht. specialize (Hbefore t Ht). lia.
    + rewrite (recent_recent options now later _ Hnow).
      apply (IH Hsorted k later). intros t Ht. specialize (Hbefore t Ht). lia.
  - rewrite (Hother key Hne).
    assert (times_of key (if ok then (passed ++ [(k, now)])%list else passed)
            = times_of key passed) as ->.
    { destruct ok; [|done]. rewrite times_of_snoc.
      assert (String.eqb k key = false) as -> by (apply String.eqb_neq; congruence).
      by rewrite app_nil_r. }
    apply (IH Hsorted key later). intros t Ht. specialize (Hbefore t Ht). lia.
Qed.

(** X19: what the rate limiter decides.  With a clock that does not go
    back, a request is let through exactly when fewer than [max] requests
    of the same address were let through in the [windowMs] before it;
    rejected requests do not count, and the requests of other addresses
    play no part. *)
Theorem rateLimit_decision (options : RateLimitOptions)
        (history : list (string * Z)) (key : string) (now : Z) :
  StronglySorted Z.le (map snd (history ++ [(key, now)])) ->
  (rateLimit options key now (limiter options history).1).1
  = negb (maxRequests options
          <=? Z.of_nat (length (recent options now
                                  (times_of key (limiter options history).2))))%Z.
Proof.
  intros Hsorted. rewrite map_app in Hsorted. cbn [map snd] in Hsorted.
  assert (forall t, t ∈ map snd history -> (t <= now)%Z) as Hbefore.
  { intros t Ht. apply (StronglySorted_app_1_elem_of Z.le _ _ t now Hsorted Ht). by left. }
  apply StronglySorted_app_1_l in Hsorted.
  pose proof (rateLimit_step options key now (limiter options history).1) as (-> & _).
  cbn zeta. by rewrite (limiter_inv options history Hsorted key now Hbefore).
Qed.

Lemma rateLimit_decision_witness :
  (rateLimit (mkOptions (Some 1000%Z) (Some 2%Z)) "10.0.0.1" 1500
     (limiter (mkOptions (Some 1000%Z) (Some 2%Z))
        [("10.0.0.1", 100%Z); ("10.0.0.1", 900%Z); ("10.0.0.1", 950%Z);
         ("10.0.0.2", 960%Z)]).1).1
  = true.
Proof.
  rewrite (rateLimit_decision (mkOptions (Some 1000%Z) (Some 2%Z))
             [("10.0.0.1", 100%Z); ("10.0.0.1", 900%Z); ("10.0.0.1", 950%Z);
              ("10.0.0.2", 960%Z)] "10.0.0.1" 1500).
  - reflexivity.
  - cbn. repeat (apply SSorted_cons; [|repeat constructor; lia]). constructor.
Defined.

(** X20: the limiter never remembers more than [max] instants for an
    address, whatever the order and the instants of the requests; a
    limit that is zero or not given falls back to 100, and the window to
    fifteen minutes. *)
Theorem rateLimit_bounded (options : RateLimitOptions)
        (history : list (string * Z)) (key : string) :
  (Z.of_nat (length (stored key (limiter options history).1))
   <= Z.max 0 (maxRequests options))%Z /\
  (opt_max options = None \/ opt_max options = Some 0%Z -> maxRequests options = 100%Z) /\
  (opt_windowMs options = None \/ opt_windowMs options = Some 0%Z ->
   windowMs options = 900000%Z).
Proof.
  split; [|split].
  - induction history as [|[k now] history IH] using rev_ind; [cbn; lia|].
    rewrite limiter_snoc. unfold limiter_step. cbn [fst snd].
    destruct (limiter options history) as [m passed]. cbn [fst snd] in *.
    pose proof (rateLimit_step options k now m) as (Hok & Hk & Hother). cbn zeta in *.
    destruct (rateLimit options k now m) as [ok m']. cbn [fst snd] in *.
    destruct (decide (key = k)) as [->|Hne].
    + rewrite Hk. subst ok.
      pose proof (recent_length options now (stored k m)) as Hlen.
      destruct (maxRequests options <=? _)%Z eqn:Hfull; cbn [negb].
      * lia.
      * rewrite length_app. cbn [length]. lia.
    + by rewrite (Hother key Hne).
  - unfold maxRequests, or_default. by intros [-> | ->].
  - unfold windowMs, or_default. by intros [-> | ->].
Qed.

End RateLimitFacts.

Module AcceptedOrderFacts.
Import TradingService.

Lemma validate_accepts (op : gmap string JsValue) :
  (forall f, f ∈ requiredFields -> truthy (js_get op f) = true) ->
  (forall f valid, (f, valid) ∈ enum_table -> includes valid (js_get op f) = true) ->
  validateOrderParams "zerodha" op = Ok tt.
Proof.
  intros Hreq Henum. unfold validateOrderParams. cbn [String.eqb Ascii.eqb Bool.eqb].
  rewrite (proj2 (OrderFacts.check_required_ok requiredFields op) Hreq).
  rewrite !OrderFacts.check_enum_ok; [done | | | |];
    apply Henum; unfold enum_table; repeat constructor.
Qed.

(** A valid order on a cached, connected handle. *)
Lemma placeOrder_on_hit (E : Env) (now : Z) (u : string) (op : gmap string JsValue)
      (w : World) (r : nat) (bk : Broker) :
  map_get (sessionKey u "zerodha") (activeBrokers w) = Some r ->
  heap w !! r = Some bk ->
  ZerodhaBroker._ensureConnected bk = Ok tt ->
  validateOrderParams "zerodha" op = Ok tt ->
  placeOrder E now u "zerodha" op w
  = (match kc_placeOrder E op with
     | Ok id => Ok id
     | Throw e => Throw ("Failed to place order: Failed to place order: " ++ e)
     end,
     emit (KitePlaceOrder op) w).
Proof.
  intros Hget Hbk Hc Hvalid.
  unfold placeOrder. rewrite (PoolFacts.getBrokerInstance_hit E now u "zerodha" w r Hget).
  rewrite Hvalid, Hbk. unfold ZerodhaBroker.placeOrder. rewrite Hc.
  by destruct (kc_placeOrder E op).
Qed.

(** X21: an order that passes the checks is dispatched exactly once.  On
    a cached, connected zerodha handle, an order with every required
    field present and every enumerated field inside its enumeration is
    sent to the Kite client once, with its parameters as given, without
    any session query or handshake; the caller gets the order id, or
    the client's error behind the prefix of the service and the prefix
    of the broker. *)
Theorem placeOrder_accepted
        (E : Env) (now : Z) (u : string) (op : gmap string JsValue) (w : World)
        (r : nat) (bk : Broker) :
  map_get (sessionKey u "zerodha") (activeBrokers w) = Some r ->
  heap w !! r = Some bk ->
  ZerodhaBroker._ensureConnected bk = Ok tt ->
  (forall f, f ∈ requiredFields -> truthy (js_get op f) = true) ->
  (forall f valid, (f, valid) ∈ enum_table -> includes valid (js_get op f) = true) ->
  placeOrder E now u "zerodha" op w
  = (match kc_placeOrder E op with
     | Ok id => Ok id
     | Throw e => Throw ("Failed to place order: Failed to place order: " ++ e)
     end,
     emit (KitePlaceOrder op) w) /\
  dispatches (placeOrder E now u "zerodha" op w).2
  = (dispatches w ++ [KitePlaceOrder op])%list /\
  handshakes (placeOrder E now u "zerodha" op w).2 = handshakes w.
Proof.
  intros Hget Hbk Hc Hreq Henum.
  rewrite (placeOrder_on_hit E now u op w r bk Hget Hbk Hc (validate_accepts op Hreq Henum)).
  cbn [snd]. split; [done|]. split.
  - unfold dispatches. cbn [trace emit]. by rewrite List.filter_app.
  - unfold handshakes. cbn [trace emit]. rewrite List.filter_app, length_app. cbn. lia.
Qed.

Lemma placeOrder_accepted_witness :
  placeOrder kite_ok 1000 "u1" "zerodha"
             (<["transaction_type" := JString "BUY"]> order_hold) world_cached
  = (Ok "order-1",
     emit (KitePlaceOrder (<["transaction_type" := JString "BUY"]> order_hold))
          world_cached).
Proof.
  apply (placeOrder_accepted kite_ok 1000 "u1"
           (<["transaction_type" := JString "BUY"]> order_hold) world_cached 0
           (connected_broker None [])); try reflexivity.
  - intros f Hf.
    repeat (apply elem_of_cons in Hf as [-> | Hf]; [reflexivity|]).
    by apply elem_of_nil in Hf.
  - intros f valid Hf.
    repeat (apply elem_of_cons in Hf as [[= -> ->] | Hf]; [reflexivity|]).
    by apply elem_of_nil in Hf.
Defined.

End AcceptedOrderFacts.

Module RaceFacts.
Import TradingService.

Lemma interleave_app (E : Env) (now : Z) (s1 s2 : list nat) :
  forall (ts : list Task) (w : World),
    interleave E now (s1 ++ s2) ts w
    = interleave E now s2 (interleave E now s1 ts w).1 (interleave E now s1 ts w).2.
Proof.
  induction s1 as [|i s1 IH]; intros ts w; [done|]. cbn [app interleave].
  destruct (ts !! i) as [t|]; [|apply IH].
  destruct (step E now t w) as [t' w']. apply IH.
Qed.

Lemma interleave_round (E : Env) (now : Z) (ts : list Task) :
  forall (pre : list Task) (w : World),
    interleave E now (seq (length pre) (length ts)) (pre ++ ts) w
    = ((pre ++ (turn_each E now ts w).1)%list, (turn_each E now ts w).2).
Proof.
  induction ts as [|t ts IH]; intros pre w; [done|].
  cbn [length seq interleave turn_each].
  rewrite list_lookup_middle by done.
  destruct (step E now t w) as [t' w1].
  replace (<[length pre := t']> (pre ++ t :: ts)%list) with ((pre ++ [t']) ++ ts)%list.
  2:{ replace (length pre) with (length pre + 0)%nat at 1 by lia.
      rewrite insert_app_r. cbn. by rewrite <- app_assoc. }
  replace (S (length pre)) with (length (pre ++ [t'])%list).
  2:{ rewrite length_app. cbn. lia. }
  rewrite IH. destruct (turn_each E now ts w1) as [ts' w2]. cbn [fst snd].
  by rewrite <- app_assoc.
Qed.

Lemma interleave_turn (E : Env) (now : Z) (n : nat) (ts : list Task) (w : World) :
  length ts = n ->
  interleave E now (seq 0 n) ts w = turn_each E now ts w.
Proof.
  intros <-. pose proof (interleave_round E now ts [] w) as H. cbn [length app] in H.
  rewrite H. by destruct (turn_each E now ts w).
Qed.

(** The first turn of [n] calls that all miss the cache. *)
Lemma turn_start (E : Env) (now : Z) (u b : string) (n : nat) :
  forall w : World,
    map_get (sessionKey u b) (activeBrokers w) = None ->
    turn_each E now (replicate n (TStart u b)) w
    = (replicate n (TAwaitSession u b (sessionKey u b)),
       mkWorld (activeBrokers w) (heap w) (sessions w)
               (trace w ++ replicate n (DbFindActiveSession u b)) (console w)).
Proof.
  induction n as [|n IH]; intros w Hmiss.
  { cbn. rewrite app_nil_r. by destruct w. }
  cbn [replicate turn_each step]. rewrite Hmiss.
  rewrite (IH (emit (DbFindActiveSession u b) w) Hmiss). cbn.
  by rewrite <- app_assoc.
Qed.

(** The second turn: each call builds an instance of its own and sends a
    handshake of its own. *)
Lemma turn_session (E : Env) (now : Z) (u : string) (s : Session) (n : nat) :
  s_accessToken s <> "" ->
  forall w : World,
    TradingSession.findActiveSession now u "zerodha" (sessions w) = Some s ->
    turn_each E now (replicate n (TAwaitSession u "zerodha" (sessionKey u "zerodha"))) w
    = (map (TAwaitConnect (sessionKey u "zerodha")) (seq (length (heap w)) n),
       mkWorld (activeBrokers w)
               (heap w ++ replicate n (ZerodhaBroker.set_isConnected false
                                         (fresh_broker E (s_accessToken s))))
               (sessions w)
               (trace w ++ replicate n (KiteGetProfile (Some (s_accessToken s))))
               (console w)).
Proof.
  intros Htok. induction n as [|n IH]; intros w Hs.
  { cbn. rewrite !app_nil_r. by destruct w. }
  cbn [replicate turn_each step]. rewrite Hs.
  cbn [getBrokerConfig String.eqb Ascii.eqb Bool.eqb].
  rewrite PoolFacts.createBroker_zerodha.
  unfold ZerodhaBroker.connect_begin, ZerodhaBroker.setAccessToken,
    ZerodhaBroker.constructor, ZerodhaBroker.no_token.
  cbn [accessToken config isConnected ticker subscribedInstruments kc_token].
  destruct (String.eqb (s_accessToken s) "") eqn:Hempty.
  { apply String.eqb_eq in Hempty. done. }
  set (w1 := emit _ _).
  rewrite (IH w1 Hs). unfold w1. cbn [heap activeBrokers sessions trace console emit
                                       with_heap seq map].
  rewrite length_app. cbn [length].
  replace (length (heap w) + 1)%nat with (S (length (heap w))) by lia.
  f_equal. f_equal; by rewrite <- app_assoc.
Qed.

(** The third turn: each handshake is answered, each instance is
    connected, and each call stores its instance under the key. *)
Lemma turn_connect (E : Env) (now : Z) (key tok profile : string) (n : nat) :
  kc_getProfile E (Some tok) = Ok profile ->
  forall (w : World) (H : list Broker),
    heap w = (H ++ replicate n (ZerodhaBroker.set_isConnected false (fresh_broker E tok)))%list ->
    turn_each E now (map (TAwaitConnect key) (seq (length H) n)) w
    = (map (fun r => TDone (Ok r)) (seq (length H) n),
       mkWorld (fold_left (fun p r => map_set key r p) (seq (length H) n) (activeBrokers w))
               (H ++ replicate n (fresh_broker E tok))
               (sessions w) (trace w) (console w)).
Proof.
  intros Hprof. induction n as [|n IH]; intros w H Hheap.
  { cbn in *. rewrite <- Hheap. by destruct w. }
  cbn [seq map turn_each step]. rewrite Hheap.
  cbn [replicate]. rewrite list_lookup_middle by done.
  cbn [ZerodhaBroker.set_isConnected fresh_broker kc_token]. rewrite Hprof.
  cbn [ZerodhaBroker.connect_end ZerodhaBroker.set_isConnected config kc_token ticker
         accessToken subscribedInstruments].
  set (w1 := with_pool _ _).
  assert (heap w1 = ((H ++ [fresh_broker E tok]) ++
                     replicate n (ZerodhaBroker.set_isConnected false (fresh_broker E tok)))%list)
    as Hheap1.
  { unfold w1. cbn [heap with_pool with_heap].
    replace (length H) with (length H + 0)%nat at 1 by lia.
    rewrite insert_app_r. cbn. by rewrite <- app_assoc. }
  replace (S (length H)) with (length (H ++ [fresh_broker E tok])%list).
  2:{ rewrite length_app. cbn. lia. }
  rewrite (IH w1 _ Hheap1). unfold w1. cbn [fold_left activeBrokers sessions trace console
                                              with_pool with_heap].
  f_equal. f_equal. by rewrite <- app_assoc.
Qed.

Lemma map_set_last {V} (key : string) (rs : list V) (r : V) (p : list (string * V)) :
  map_get key (fold_left (fun p r => map_set key r p) (rs ++ [r]) p) = Some r /\
  forall k, k <> key ->
    map_get k (fold_left (fun p r => map_set key r p) (rs ++ [r]) p) = map_get k p.
Proof.
  rewrite fold_left_app. cbn. split; [apply PoolFacts.map_get_set_eq|].
  intros k Hne. rewrite PoolFacts.map_get_set_ne by done.
  revert p. induction rs as [|r0 rs IH]; intros p; [done|]. cbn.
  rewrite IH. by apply PoolFacts.map_get_set_ne.
Qed.

(** X22: calls in flight together each connect.  For every [n >= 1], when
    [n] calls of [getBrokerInstance] for the same key miss the cache
    before any of them has stored its instance (active session, handshake
    answered), every call performs a handshake and gets an instance of its
    own: [n] handshakes, [n] connected instances, [n] different handles.
    The cache keeps the instance of the call that finished last; the
    other [n - 1] instances stay connected outside the cache, where no
    sweep or disconnect reaches them.  Entries of other keys are
    untouched. *)
Theorem calls_in_flight_each_connect
        (E : Env) (now : Z) (n : nat) (u : string) (w : World)
        (s : Session) (profile : string) :
  (1 <= n)%nat ->
  map_get (sessionKey u "zerodha") (activeBrokers w) = None ->
  TradingSession.findActiveSession now u "zerodha" (sessions w) = Some s ->
  s_accessToken s <> "" ->
  kc_getProfile E (Some (s_accessToken s)) = Ok profile ->
  (in_flight E now n u w).1 = map (fun r => TDone (Ok r)) (seq (length (heap w)) n) /\
  handshakes (in_flight E now n u w).2 = (handshakes w + n)%nat /\
  heap (in_flight E now n u w).2
  = (heap w ++ replicate n (fresh_broker E (s_accessToken s)))%list /\
  map_get (sessionKey u "zerodha") (activeBrokers (in_flight E now n u w).2)
  = Some (length (heap w) + n - 1)%nat /\
  forall k, k <> sessionKey u "zerodha" ->
    map_get k (activeBrokers (in_flight E now n u w).2) = map_get k (activeBrokers w).
Proof.
  intros Hn Hmiss Hs Htok Hprof. unfold in_flight.
  rewrite interleave_app, (interleave_turn E now n) by apply length_replicate.
  rewrite (turn_start E now u "zerodha" n w Hmiss). cbn [fst snd].
  set (w1 := mkWorld _ _ _ _ _).
  rewrite interleave_app.
  rewrite (interleave_turn E now n (replicate n _) w1) by apply length_replicate.
  rewrite (turn_session E now u s n Htok w1 Hs). cbn [fst snd].
  set (w2 := mkWorld _ _ _ _ _).
  rewrite (interleave_turn E now n) by (by rewrite length_map, length_seq).
  rewrite (turn_connect E now _ (s_accessToken s) profile n Hprof w2 (heap w) eq_refl).
  cbn [fst snd activeBrokers heap trace w1 w2].
  split; [done|]. split; [|split; [done|]].
  - unfold handshakes. cbn [trace]. rewrite !List.filter_app, !length_app.
    assert (forall q, is_handshake q = false ->
              List.filter is_handshake (replicate n q) = []) as Hnone.
    { intros q Hq. induction n as [|m IH]; [done|]. cbn. rewrite Hq.
      destruct m; [done|]. apply IH. lia. }
    assert (forall q, is_handshake q = true ->
              length (List.filter is_handshake (replicate n q)) = n) as Hall.
    { intros q Hq. clear -Hq. induction n as [|m IH]; [done|]. cbn. rewrite Hq.
      cbn. by rewrite IH. }
    rewrite Hnone by done. rewrite Hall by done. cbn. lia.
  - destruct n as [|m]; [lia|].
    replace (seq (length (heap w)) (S m))
      with (seq (length (heap w)) m ++ [(length (heap w) + S m - 1)%nat])%list.
    2:{ rewrite seq_S. do 2 f_equal. lia. }
    apply map_set_last.
Qed.

Lemma calls_in_flight_each_connect_witness :
  (in_flight kite_ok 1000 3 "u1" (world_of [session_u1])).1
  = [TDone (Ok 0%nat); TDone (Ok 1%nat); TDone (Ok 2%nat)] /\
  handshakes (in_flight kite_ok 1000 3 "u1" (world_of [session_u1])).2 = 3%nat /\
  map_get (sessionKey "u1" "zerodha")
          (activeBrokers (in_flight kite_ok 1000 3 "u1" (world_of [session_u1])).2)
  = Some 2%nat.
Proof.
  destruct (calls_in_flight_each_connect kite_ok 1000 3 "u1" (world_of [session_u1])
              session_u1 "profile") as (H1 & H2 & _ & H3 & _);
    try reflexivity; [lia | discriminate |].
  split; [exact H1|]. split; [exact H2 | exact H3].
Defined.

End RaceFacts.

Module LogoutFacts.
Import TradingService.

Lemma logout_no_session (now : Z) (u b : string) (brokerType : option string)
      (store : list Session) :
  brokerType = None \/ brokerType = Some "" \/ brokerType = Some b ->
  TradingSession.findActiveSession now u b (AuthService.logout u brokerType store) = None.
Proof.
  intros Hbt.
  assert (TradingSession.findActiveSession now u b (AuthService.deactivate_all u store)
          = None) as Hall.
  { apply SessionFacts.find_none_iff. intros x Hx.
    apply list_elem_of_fmap in Hx as (s & -> & _).
    destruct (String.eqb (s_userId s) u && s_isActive s) eqn:Hc.
    - unfold TradingSession.matches. cbn. by rewrite andb_false_r.
    - unfold TradingSession.matches.
      destruct (String.eqb (s_userId s) u); [|done].
      destruct (s_isActive s); [done|]. by rewrite andb_false_r. }
  destruct Hbt as [-> | [-> | ->]]; [done | done |].
  unfold AuthService.logout. destruct (String.eqb b ""); [done|].
  apply DisconnectBrokerFacts.deactivate_none.
Qed.

(** X23: logging out does not revoke a cached handle.  [logout]
    deactivates the sessions of the user (of one broker type, or of all
    when none is given) and nothing else: the cache entry and the
    instance stay as they are.  So although [findActiveSession] finds no
    session for the key any more, [getBrokerInstance] still returns the
    cached handle without any query, and a valid order is still sent to
    the Kite client. *)
Theorem logout_keeps_cached_handle
        (E : Env) (now : Z) (u : string) (brokerType : option string)
        (op : gmap string JsValue) (w : World) (r : nat) (bk : Broker) :
  brokerType = None \/ brokerType = Some "" \/ brokerType = Some "zerodha" ->
  map_get (sessionKey u "zerodha") (activeBrokers w) = Some r ->
  heap w !! r = Some bk ->
  ZerodhaBroker._ensureConnected bk = Ok tt ->
  validateOrderParams "zerodha" op = Ok tt ->
  let w' := with_sessions (AuthService.logout u brokerType (sessions w)) w in
  TradingSession.findActiveSession now u "zerodha" (sessions w') = None /\
  getBrokerInstance E now u "zerodha" w' = (Ok r, w') /\
  placeOrder E now u "zerodha" op w'
  = (match kc_placeOrder E op with
     | Ok id => Ok id
     | Throw e => Throw ("Failed to place order: Failed to place order: " ++ e)
     end,
     emit (KitePlaceOrder op) w').
Proof.
  intros Hbt Hget Hbk Hc Hvalid. cbn zeta. split; [|split].
  - by apply logout_no_session.
  - by apply PoolFacts.getBrokerInstance_hit.
  - by apply (AcceptedOrderFacts.placeOrder_on_hit E now u op _ r bk).
Qed.

Lemma logout_keeps_cached_handle_witness :
  TradingSession.findActiveSession 1000 "u1" "zerodha"
    (AuthService.logout "u1" None (sessions world_cached)) = None /\
  placeOrder kite_ok 1000 "u1" "zerodha"
             (<["transaction_type" := JString "BUY"]> order_hold)
             (with_sessions (AuthService.logout "u1" None (sessions world_cached))
                            world_cached)
  = (Ok "order-1",
     emit (KitePlaceOrder (<["transaction_type" := JString "BUY"]> order_hold))
          (with_sessions (AuthService.logout "u1" None (sessions world_cached))
                         world_cached)).
Proof.
  destruct (logout_keeps_cached_handle kite_ok 1000 "u1" None
              (<["transaction_type" := JString "BUY"]> order_hold) world_cached 0
              (connected_broker None [])) as (H1 & _ & H2); try reflexivity.
  - by left.
  - split; [exact H1 | exact H2].
Defined.

End LogoutFacts.

Module StreamFacts.
Import ZerodhaBroker.

(** X24: a failed [connectWebSocket()] still installs its ticker.  When
    [ticker.connect()] raises [e], the call throws "Failed to connect
    WebSocket: e", but [this.ticker] already holds the new ticker and the
    set of subscribed instruments is unchanged.  A following
    [subscribeToTicker(ids)] therefore does not throw "WebSocket not
    connected": it sends its subscribe and mode calls to a ticker that
    was never connected, and reports success. *)
Theorem failed_connectWebSocket_installs_ticker
        (E : Env) (b : Broker) (tok e : string) (ids : list Z) :
  accessToken b = Some tok -> tok <> "" ->
  new_ticker_throws E MConnect = Some e ->
  new_ticker_throws E MSubscribe = None ->
  new_ticker_throws E MSetMode = None ->
  exists b1 b2 t,
    connectWebSocket E b = (Throw ("Failed to connect WebSocket: " ++ e), b1) /\
    ticker b1 = Some (mkTicker (apiKey (config b)) tok [] (new_ticker_throws E)) /\
    subscribedInstruments b1 = subscribedInstruments b /\
    subscribeToTicker (InstrArray ids) b1 = (Ok ids, b2) /\
    ticker b2 = Some t /\
    tk_wire t = [TkSubscribe ids; TkSetMode modeLTP ids].
Proof.
  intros Htok Hne Hc Hs Hm. unfold connectWebSocket. rewrite Htok.
  destruct (String.eqb tok "") eqn:Hempty.
  { apply String.eqb_eq in Hempty. done. }
  unfold ticker_call. cbn [tk_throws]. rewrite Hc.
  eexists _, _, _. split; [reflexivity|]. split; [reflexivity|]. split; [reflexivity|].
  unfold subscribeToTicker, ticker_call. cbn. rewrite Hs. cbn. rewrite Hm.
  split; [reflexivity|]. split; reflexivity.
Qed.

Lemma failed_connectWebSocket_installs_ticker_witness :
  exists b1 b2 t,
    connectWebSocket (mkEnv (fun _ => Ok "profile") (fun _ => Ok "order-1")
                            (fun m => match m with
                                      | MConnect => Some "ECONNREFUSED"
                                      | _ => None
                                      end) "key" "secret")
                     (connected_broker None [])
    = (Throw "Failed to connect WebSocket: ECONNREFUSED", b1) /\
    subscribeToTicker (InstrArray [256265%Z]) b1 = (Ok [256265%Z], b2) /\
    ticker b2 = Some t /\
    tk_wire t = [TkSubscribe [256265%Z]; TkSetMode modeLTP [256265%Z]].
Proof.
  destruct (failed_connectWebSocket_installs_ticker
              (mkEnv (fun _ => Ok "profile") (fun _ => Ok "order-1")
                     (fun m => match m with
                               | MConnect => Some "ECONNREFUSED"
                               | _ => None
                               end) "key" "secret")
              (connected_broker None []) "tok" "ECONNREFUSED" [256265%Z])
    as (b1 & b2 & t & H1 & _ & _ & H2 & H3 & H4); try reflexivity; [discriminate|].
  exists b1, b2, t. done.
Defined.

End StreamFacts.
